(* ===== verification/_CoqProject ===== *)
-Q . S2P
Prelude.v
PyStr.v
Calendar.v
Strtime.v
Zone.v
PyVal.v
Store.v
Parser.v
Recurrence.v
Scheduler.v
Commands.v
Interleave.v
