(* ===== verification/Prelude.v ===== *)
(** * ChronoReply: a verification development of [src/chronoreply.py]

    ChronoReply is a Discord self-bot that sends scheduled messages.  The
    Python source has six parts that interact through one process-wide task
    list [self.tasks] (a list of dicts) and its JSON file [TASK_FILE]:

    - the time parser [parse_time_input] (lines 34-102), which turns
      ["HH:MM"], ["<hari> HH:MM"] or ["DD-MM HH:MM"] into an aware UTC
      datetime, using [datetime.now(default_tz)] as reference;
    - the recurrence calculator [ChronoReply._calculate_next_repeat]
      (lines 214-249), which computes the next firing of a daily ([harian])
      or weekly ([mingguan]) task from the wall clock of the task's zone;
    - the task store [ChronoReply._load_tasks] / [save_tasks]
      (lines 130-162), which converts [schedule_time_utc] between aware
      datetimes and the string format ["%Y%m%d%H%M"];
    - the scheduler loop [ChronoReply._scheduler_loop] (lines 175-212), which
      every 5 seconds fires the due tasks of the session user, deletes the
      one-off ones, reschedules the recurring ones with the calculator and
      saves through the store;
    - the command layer [SchedulerCog] (lines 255-464), which builds tasks
      from chat messages through the parser and the calculator, and appends
      to, filters and saves [self.tasks];
    - the process start, the [__main__] block (lines 469-489), which creates
      the file, checks the token, builds [ChronoReply()] and runs the bot,
      and [on_ready] (lines 164-173), which starts a scheduler loop task
      each time discord.py calls it: the message handlers and the loop
      tasks are coroutines of one event loop, so a handler, or a pass of
      another loop task, may run while a loop awaits [channel.send].

    Library layout (each file opens with its own summary):

    - [Prelude]: the Python exception type [PyExn], the result type [Res]
      with stdpp's monad notation, Python's [try/except] as [try_except],
      [for] loops over [Res] ([res_mapM], [res_filterM]), the hint database
      [chrono], the tactics [res_step], [res_inv], [zbool], [decide_vm] and
      [enum_range], and shared list and Z lemmas.
    - [PyStr]: the Python [str] builtins the code calls ([split()],
      [split(sep)], [lower()], [strip()], [in], [int()]), on ASCII strings.
    - [Calendar]: the semantics of Python's naive [datetime]: the proleptic
      Gregorian ordinal ([_ymd2ord], [_ord2ymd], proved mutually inverse),
      microsecond instants, [replace], [+ timedelta] with its
      [OverflowError], [weekday()].
    - [Strtime]: [strftime] and [strptime] for ["%Y%m%d%H%M"], the latter as
      CPython's regular expression with its backtracking; their round trip.
    - [Zone]: pytz zones as an initial offset and a list of UTC
      transitions, [datetime.now(tz)], [replace] and [+ timedelta] keeping
      the offset, aware comparison and [astimezone(pytz.utc)]; the zone
      database is the typeclass [TzDatabase].
    - [PyVal]: the values of a task dict and the dict as a stdpp [gmap].
    - [Store]: the task file (absent, not JSON, or a JSON document),
      [_load_tasks] and [save_tasks]; [save_tasks] returns the successive
      contents it gives the file.
    - [Parser]: [parse_time_input] with its helper [get_next_day].
    - [Recurrence]: [_calculate_next_repeat], in a section over the zone
      database.
    - [Scheduler]: one pass of the [while] loop as [tick] over the state
      [bot] (task list and file), built from [scan_one] (one iteration of
      the [for] loop), [fire] (its [try] block) and [scan]; [run] is the loop
      over a list of clock readings, stopped by an escaping exception.  The
      contract of section 4.4 of the specification, [spec_tick] over the
      abstract tasks [spec_task], with the abstraction [abs_task].
    - [Commands]: [on_message] and the handlers of [/kirim], [/ulang],
      [/daftar], [/hapus] and [/tz], written once against the typeclass
      [TaskStore] (the store operations a handler performs: read, [append],
      rebinding to a comprehension, [save_tasks]); [bot] is its first
      instance.  The class [StoreSim] states when two stores cannot be told
      apart by a handler, and [on_message_sim] proves the handlers send
      the same replies and keep related stores on related stores.  [main] and [start_bot] model the [__main__] block, and
      [step] the running bot as a transition system of messages, whole
      ticks and restarts.
    - [Interleave]: the same loop over a [heap] of Python objects (dict and
      list objects by address, the list [self.tasks] is bound to, the
      file), the second [TaskStore] instance, related to [bot] by the
      [StoreSim] instance [heap_rel_sim].  [itick] runs, during each
      [await channel.send], a batch of [event]s: the handler of a message,
      or a pass of another loop task ([solo_pass], during whose own sends
      nothing runs).  [istep] is the process as a transition system over
      [sys], the heap with the number of loop tasks [on_ready] started.

    What the theorems show.  Parser and Recurrence: every instant returned
    is strictly later than the clock reading and in UTC, and a recurring
    task's next run is at most a week away (a day for a daily task); the
    exact result of each grammar and recurrence kind; the daily recurrence
    computes what the parser computes; the error cases.  Store: [load(save
    ts) = ts] for the schedules the program computes, every loaded task
    holds a UTC whole-minute schedule whatever the file holds, and a
    record-by-record description of [_load_tasks].  Scheduler: a fired
    [once] task is delivered and removed, and the removal is saved; only
    due tasks of the user are sent, at most once per tick; schedules only
    move forward; on well-formed stores the loop never stops; and, when
    sends succeed, keys are present, ids are distinct and recomputations
    succeed, a tick refines the specification's tick ([tick_refines_spec]).
    Commands: what [/kirim], [/ulang], [/daftar] and [/hapus] do, with the
    bound on the preview of [/daftar], and every state reachable by [step]
    keeps the loop running.  Scheduler and Store together: a tick at which
    only recurring tasks are due leaves the file unchanged, so a restart
    returns the bot to its state before the tick and re-delivers.
    Interleave: when nothing runs during the sends, a pass of the loop over
    the Python objects returns, delivers what the specification's tick
    delivers and leaves the abstract tasks it computes
    ([itick_refines_spec], through [itick_quiet]: such a pass is exactly
    [tick] on the value of [self.tasks]); when the messages handled during
    the sends append nothing, the pass delivers exactly what [tick]
    delivers on the value [self.tasks] had at its start, whatever the
    handlers rebind ([hapus_during_send_delivers]); after two [on_ready]
    calls a second loop's pass inside the first loop's send delivers a due
    task at the head of the list twice ([on_ready_twice_sends_twice]); and
    the loop terminates within its fuel even though handlers append to the
    list it iterates ([itick_total]).
    Several theorems establish where the code departs from the specification
    (the findings of the project manifest): pytz's kept offset across
    daylight-saving changes, failed sends retried forever, reschedules not
    saved, recompute failures re-sending or silencing a task, one bad record
    emptying the load, the non-atomic save, a missing key ending the loop,
    colliding 8-character ids, [/kirim] reading a single word, a task with
    a [None] schedule making [/daftar] raise, a [/hapus] handled during a
    scan's send not stopping the deleted task's delivery in that scan, and
    a second [on_ready] starting a second loop that sends a due task
    again.

    Modelling choices.  Clock readings are explicit arguments (a UTC instant
    in microseconds since 0001-01-01T00:00), so that every [datetime.now]
    call of the source is a separate input; a reading is representable when
    [in_range] holds (years 1-9999, as Python's [datetime]).  The round trip
    through the file is stated for years 1000-9999, where [strftime("%Y")]
    prints four digits on every platform.  Python exceptions are values of
    [PyExn]; a bare [except:] is [try_except].  What the scheduler learns
    from Discord ([get_channel], whether [channel.send] succeeds, the clock
    inside [_calculate_next_repeat]) is an argument [obs] indexed by tick and
    by position in the task list; the events run during a tick are a queue
    of batches, one batch per [await channel.send].  The passes of other
    loops run inside a send are passes with nothing in flight, one of the
    schedules asyncio allows; a loop whose pass raised inside another's
    send stays counted in [sys], which only adds behaviours.  A handler's
    effect on the store has no [await] inside it, so it lands whole at one
    suspension point.  Every function is structurally recursive except the
    interleaved [for] loop [iscan], which takes fuel because appends
    lengthen the list it iterates; [itick_total] shows that fuel above the
    number of tasks plus the number of events of the tick is enough, and
    [istep] gives each pass that much fuel.

    Not modelled: the Discord client (login, [add_cog], [bot.start],
    [get_context], [ctx.send], the limit on a message's length), the
    [process_commands] override (it only keeps discord.ext.commands from
    dispatching, so that [on_message] routes every command, which is what
    the model assumes), printing,
    the text of replies built with [strftime] and locale names (a reply is
    a value carrying its data), and Unicode beyond ASCII (Python's [int()]
    also accepts non-ASCII decimal digits and [lower()] maps some
    non-ASCII letters to ASCII ones).  [config.py] is not in the
    repository: its values are parameters. *)

From stdpp Require Export base list strings gmap.
From Stdlib Require Export Ascii ZArith Lia.

(** ** Python exceptions and results *)

(** The exceptions the modelled code can raise.  The source catches most of
    them with a bare [except:], so only their existence matters there; the
    scheduler distinguishes them only through what its handler does. *)
Inductive PyExn :=
  | ValueError
  | OverflowError
  | KeyError
  | AttributeError
  | TypeError
  | UnknownTimeZoneError
  | JSONDecodeError
  | HTTPException.

#[export] Instance PyExn_eq_dec : EqDecision PyExn.
Proof. solve_decision. Defined.

(** A computation of the Python code either returns a value or raises. *)
Inductive Res (A : Type) : Type :=
  | Ok (a : A)
  | Raise (e : PyExn).
Arguments Ok {A} a.
Arguments Raise {A} e.

#[export] Instance Res_ret : MRet Res := λ A a, Ok a.
#[export] Instance Res_bind : MBind Res :=
  λ A B f r, match r with Ok a => f a | Raise e => Raise e end.
#[export] Instance Res_fmap : FMap Res :=
  λ A B f r, match r with Ok a => Ok (f a) | Raise e => Raise e end.

#[export] Instance Res_eq_dec `{EqDecision A} : EqDecision (Res A).
Proof. solve_decision. Defined.

(** [try: c  except: h]: a bare [except] catches every exception. *)
Definition try_except {A} (c : Res A) (h : A) : A :=
  match c with Ok a => a | Raise _ => h end.

(** [raise e] when the guard fails, [None] otherwise. *)
Definition guard_py (b : bool) (e : PyExn) : Res unit :=
  if b then Ok tt else Raise e.

Declare Scope chrono_scope.
Delimit Scope chrono_scope with chrono.
Open Scope chrono_scope.

Notation "'try!' c 'except' h" := (try_except c h)
  (at level 10, c at level 99, h at level 9) : chrono_scope.

(** ** Shared lemmas *)

Lemma bind_Ok {A B} (a : A) (f : A → Res B) : (Ok a ≫= f) = f a.
Proof. reflexivity. Qed.

Lemma bind_Raise {A B} e (f : A → Res B) : (Raise e ≫= f) = Raise e.
Proof. reflexivity. Qed.

Lemma bind_eq_Ok {A B} (r : Res A) (f : A → Res B) b :
  (r ≫= f) = Ok b ↔ ∃ a, r = Ok a ∧ f a = Ok b.
Proof.
  destruct r as [a|e]; simpl; split.
  - eauto.
  - by intros (? & [= ->] & ?).
  - discriminate.
  - by intros (? & ? & _).
Qed.

Lemma bind_mret {A B} (a : A) (f : A → Res B) : (mret a ≫= f) = f a.
Proof. reflexivity. Qed.

Lemma bind_assoc {A B C} (r : Res A) (f : A → Res B) (g : B → Res C) :
  ((r ≫= f) ≫= g) = (r ≫= λ a, f a ≫= g).
Proof. by destruct r. Qed.

Lemma guard_py_Ok b e : guard_py b e = Ok tt ↔ b = true.
Proof. destruct b; simpl; split; congruence. Qed.

Lemma try_except_Ok {A} (a h : A) : try_except (Ok a) h = a.
Proof. reflexivity. Qed.

Lemma try_except_Raise {A} e (h : A) : try_except (Raise e) h = h.
Proof. reflexivity. Qed.

(** [for x in xs] building a list, stopping at the first exception. *)
Fixpoint res_mapM {A B} (f : A → Res B) (xs : list A) : Res (list B) :=
  match xs with
  | [] => Ok []
  | x :: xs' => y ← f x; ys ← res_mapM f xs'; mret (y :: ys)
  end.

(** [[x for x in xs if p(x)]] where evaluating [p] may raise. *)
Fixpoint res_filterM {A} (p : A → Res bool) (xs : list A) : Res (list A) :=
  match xs with
  | [] => Ok []
  | x :: xs' => p x ≫= λ b : bool, res_filterM p xs' ≫= λ ys, Ok (if b then x :: ys else ys)
  end.

Lemma res_mapM_Ok_pointwise {A B} (f : A → Res B) (xs : list A) :
  (∀ x, x ∈ xs → ∃ y, f x = Ok y) → ∃ ys, res_mapM f xs = Ok ys ∧ length ys = length xs.
Proof.
  induction xs as [|x xs IH]; intros Hf; simpl; [eauto|].
  destruct (Hf x) as [y ->]; [by left|].
  destruct IH as (ys & -> & Hl); [intros; apply Hf; by right|].
  simpl. eexists; split; [reflexivity|]. simpl. lia.
Qed.

Lemma res_mapM_Raise {A B} (f : A → Res B) (xs : list A) x e :
  x ∈ xs → (∀ y, y ∈ xs → f y = Raise e ∨ ∃ z, f y = Ok z) → f x = Raise e →
  res_mapM f xs = Raise e.
Proof.
  induction xs as [|y xs IH]; intros Hx Hall Hfx; [by apply not_elem_of_nil in Hx|].
  simpl. destruct (Hall y) as [Hy|[z Hy]]; [by left|by rewrite Hy|]. rewrite Hy. simpl.
  apply elem_of_cons in Hx as [->|Hx]; [congruence|].
  rewrite IH; [reflexivity | done | intros; apply Hall; by right | done].
Qed.

Lemma res_mapM_Ok_elem {A B} (f : A → Res B) xs ys x :
  res_mapM f xs = Ok ys → x ∈ xs → ∃ y, f x = Ok y ∧ y ∈ ys.
Proof.
  revert ys. induction xs as [|x' xs IH]; intros ys H Hx; [by apply not_elem_of_nil in Hx|].
  simpl in H. destruct (f x') as [y'|] eqn:Hf; [|discriminate]. simpl in H.
  destruct (res_mapM f xs) as [ys'|]; [|discriminate]. simpl in H. injection H as <-.
  apply elem_of_cons in Hx as [->|Hx].
  - exists y'. split; [done | by left].
  - destruct (IH ys' eq_refl Hx) as (y & ? & ?). exists y. split; [done | by right].
Qed.

Lemma res_mapM_Ok_elem_inv {A B} (f : A → Res B) xs ys y :
  res_mapM f xs = Ok ys → y ∈ ys → ∃ x, x ∈ xs ∧ f x = Ok y.
Proof.
  revert ys. induction xs as [|x xs IH]; intros ys H Hy; cbn in H.
  - injection H as <-. by apply not_elem_of_nil in Hy.
  - destruct (f x) as [y'|] eqn:Hf; [|discriminate]. cbn in H.
    destruct (res_mapM f xs) as [ys'|]; [|discriminate]. cbn in H. injection H as <-.
    apply elem_of_cons in Hy as [->|Hy].
    + exists x. split; [by left | done].
    + destruct (IH ys' eq_refl Hy) as (x' & ? & ?). exists x'. split; [by right | done].
Qed.

(** The computation ends without an exception. *)
Definition res_is_ok {A} (r : Res A) : bool := match r with Ok _ => true | Raise _ => false end.

Lemma res_is_ok_spec {A} (r : Res A) : res_is_ok r = true ↔ ∃ a, r = Ok a.
Proof. destruct r; cbn; split; [eauto | done | done | by intros [? ?]]. Qed.

Lemma res_filterM_keep {A} (p : A → Res bool) xs ys x :
  res_filterM p xs = Ok ys → x ∈ xs → p x = Ok true → x ∈ ys.
Proof.
  revert ys. induction xs as [|x' xs IH]; intros ys H Hx Hp; [by apply not_elem_of_nil in Hx|].
  cbn in H. destruct (p x') as [[]|] eqn:Hp'; [| |done]; cbn in H;
    (destruct (res_filterM p xs) as [ys'|]; [|done]); cbn in H; injection H as <-;
    apply elem_of_cons in Hx as [->|Hx]; [by left | right; auto | congruence | auto].
Qed.

Lemma res_mapM_Forall2 {A B} (f : A → Res B) xs ys :
  res_mapM f xs = Ok ys ↔ Forall2 (λ x y, f x = Ok y) xs ys.
Proof.
  revert ys. induction xs as [|x xs IH]; intros ys; cbn.
  - split; [intros [= <-]; constructor | by inversion 1].
  - split.
    + destruct (f x) as [y|] eqn:Hfx; [|done]. cbn. destruct (res_mapM f xs) as [ys'|] eqn:E; [|done].
      intros [= <-]. constructor; [done|]. by apply IH.
    + inversion 1 as [|? y ? ys' Hy Hr]; subst. rewrite Hy. cbn. by rewrite (proj2 (IH ys') Hr).
Qed.

Lemma res_mapM_map {A B} (f : A → B) xs : res_mapM (λ x, Ok (f x)) xs = Ok (map f xs).
Proof. induction xs as [|x xs IH]; [done|]. simpl. by rewrite IH. Qed.

Lemma res_filterM_Raise {A} (p : A → Res bool) (xs : list A) x e :
  x ∈ xs → (∀ y, y ∈ xs → p y = Raise e ∨ ∃ b, p y = Ok b) → p x = Raise e →
  res_filterM p xs = Raise e.
Proof.
  induction xs as [|y xs IH]; intros Hx Hall Hpx; [by apply not_elem_of_nil in Hx|].
  simpl. destruct (Hall y) as [Hy|[b Hy]]; [by left|by rewrite Hy|]. rewrite Hy. simpl.
  apply elem_of_cons in Hx as [->|Hx]; [congruence|].
  rewrite IH; [reflexivity | done | intros; apply Hall; by right | done].
Qed.

Lemma res_filterM_pure {A} (p : A → Res bool) (q : A → bool) xs :
  (∀ x, x ∈ xs → p x = Ok (q x)) → res_filterM p xs = Ok (filter (λ x, q x = true) xs).
Proof.
  induction xs as [|x xs IH]; intros Hp; [done|]. simpl.
  rewrite Hp by (by left). simpl. rewrite IH by (intros; apply Hp; by right). simpl.
  rewrite filter_cons. by destruct (q x).
Qed.

(** A filter keeps some of the elements, in order. *)
Lemma res_filterM_elem {A} (p : A → Res bool) xs ys y :
  res_filterM p xs = Ok ys → y ∈ ys → y ∈ xs ∧ p y = Ok true.
Proof.
  revert ys. induction xs as [|x xs IH]; intros ys H Hy; cbn in H; [by injection H as <-; apply not_elem_of_nil in Hy|].
  destruct (p x) as [[]|] eqn:Hp; cbn in H; [| |discriminate];
    destruct (res_filterM p xs) as [ys'|]; cbn in H; try discriminate; injection H as <-.
  - apply elem_of_cons in Hy as [->|Hy]; [split; [left | done]|].
    destruct (IH ys' eq_refl Hy). split; [by right | done].
  - destruct (IH ys' eq_refl Hy). split; [by right | done].
Qed.

(** Filtering the images of a list is filtering the list and taking the
    images: what a comprehension over addresses that dereferences them
    computes. *)
Lemma res_filterM_map {A B} (p : B → Res bool) (f : A → B) xs :
  res_filterM p (map f xs) = (ys ← res_filterM (λ x, p (f x)) xs; Ok (map f ys)).
Proof.
  induction xs as [|x xs IH]; [done|]. cbn. rewrite IH.
  destruct (p (f x)) as [[]|]; cbn; [| |done]; by destruct (res_filterM _ xs).
Qed.

Lemma res_filterM_sublist {A} (p : A → Res bool) xs ys :
  res_filterM p xs = Ok ys → ys `sublist_of` xs.
Proof.
  revert ys. induction xs as [|x xs IH]; intros ys H; cbn in H; [by injection H as <-|].
  destruct (p x) as [[]|]; cbn in H; [| |discriminate];
    destruct (res_filterM p xs) as [ys'|]; cbn in H; try discriminate; injection H as <-.
  - by apply sublist_skip, IH.
  - by apply sublist_cons, IH.
Qed.

Lemma sublist_Forall {A} (P : A → Prop) l1 l2 : l1 `sublist_of` l2 → Forall P l2 → Forall P l1.
Proof. induction 1 as [|x l1 l2 _ IH|x l1 l2 _ IH]; intros HF; [done | inversion HF; constructor; auto | inversion HF; auto]. Qed.

Lemma concat_imap_elem {A B} (f : nat → A → list B) l k x y :
  l !! k = Some x → y ∈ f k x → y ∈ concat (imap f l).
Proof.
  intros Hk Hy. apply list_elem_of_In, in_concat. exists (f k x).
  split; [|by apply list_elem_of_In].
  apply list_elem_of_In, (list_elem_of_lookup_2 _ k). by rewrite list_lookup_imap, Hk.
Qed.

Lemma concat_imap_elem_inv {A B} (f : nat → A → list B) l y :
  y ∈ concat (imap f l) → ∃ k x, l !! k = Some x ∧ y ∈ f k x.
Proof.
  intros Hy. apply list_elem_of_In, in_concat in Hy as (w & Hw & Hy).
  apply list_elem_of_In, list_elem_of_lookup_1 in Hw as [k Hk].
  rewrite list_lookup_imap in Hk. destruct (l !! k) as [x|] eqn:Hx; [|discriminate].
  injection Hk as <-. exists k, x. split; [done|]. by apply list_elem_of_In.
Qed.

Lemma concat_map_const_nil {A B} (l : list A) : concat (map (λ _, @nil B) l) = [].
Proof. by induction l. Qed.

Lemma concat_map_const_single {A B} (l : list A) (x : B) :
  concat (map (λ _, [x]) l) = replicate (length l) x.
Proof. induction l as [|y l IH]; [done|]. cbn. by rewrite IH. Qed.


Lemma filter_imap {A B} (P : B → Prop) `{!∀ x, Decision (P x)} (f : nat → A → B) l :
  filter P (imap f l) = concat (imap (λ j x, if decide (P (f j x)) then [f j x] else []) l).
Proof.
  revert f. induction l as [|x l IH]; intros f; [done|]. rewrite !imap_cons, filter_cons. cbn.
  rewrite IH. by case_decide.
Qed.

Lemma filter_all {A} (P : A → Prop) `{!∀ x, Decision (P x)} l : Forall P l → filter P l = l.
Proof. induction 1 as [|x l Hx _ IH]; [done|]. rewrite filter_cons, decide_True by done. by f_equal. Qed.

Lemma imap_map {A B C} (F : nat → B → C) (g : A → B) l :
  imap F (map g l) = imap (λ j x, F j (g x)) l.
Proof. revert F. induction l as [|x l IH]; intros F; [done|]. cbn. f_equal. apply IH. Qed.

Lemma map_concat_imap {A B C} (g : B → C) (F : nat → A → list B) l :
  map g (concat (imap F l)) = concat (imap (λ j x, map g (F j x)) l).
Proof.
  revert F. induction l as [|x l IH]; intros F; [done|]. rewrite !imap_cons. cbn.
  rewrite map_app. f_equal. apply IH.
Qed.

Lemma concat_imap_nil {A B} (f : nat → A → list B) l :
  (∀ j x, l !! j = Some x → f j x = []) → concat (imap f l) = [].
Proof.
  revert f. induction l as [|x l IH]; intros f Hf; [done|]. rewrite imap_cons. cbn.
  rewrite (Hf 0%nat x eq_refl). apply IH. intros j y Hj. by apply (Hf (S j)).
Qed.

Local Open Scope Z_scope.

(** Division facts used by the calendar: a quotient and a remainder are
    determined by a decomposition with the remainder in range. *)
Lemma Z_div_of_decomp (x k q r : Z) : 0 ≤ r < k → x = k * q + r → x / k = q.
Proof. intros Hr ->. symmetry. apply (Z.div_unique_pos _ _ _ r); lia. Qed.

Lemma Z_mod_of_decomp (x k q r : Z) : 0 ≤ r < k → x = k * q + r → x mod k = r.
Proof. intros Hr ->. symmetry. apply (Z.mod_unique_pos _ _ q); lia. Qed.

(** Splitting [x] by a positive [k]: the facts [lia] needs about [x / k]
    and [x mod k]. *)
Lemma Z_divmod_facts (x k : Z) : 0 < k → x = k * (x / k) + x mod k ∧ 0 ≤ x mod k < k.
Proof. intros Hk. split; [apply Z.div_mod; lia | apply Z.mod_pos_bound; lia]. Qed.

(** Bounded universal quantification over an integer range, decided by a
    fold: the way the development checks a finite table once and for all. *)
Fixpoint forall_range (k : nat) (lo : Z) (p : Z → bool) : bool :=
  match k with
  | O => true
  | S k' => p lo && forall_range k' (lo + 1) p
  end.

Lemma forall_range_spec k lo p :
  forall_range k lo p = true → ∀ x, lo ≤ x < lo + Z.of_nat k → p x = true.
Proof.
  revert lo. induction k as [|k IH]; intros lo H x Hx; simpl in *; [lia|].
  apply andb_prop in H as [Hlo Hrest].
  destruct (decide (x = lo)) as [->|Hne]; [done|].
  apply (IH (lo + 1)); [done | lia].
Qed.

(** ** Automation *)

Create HintDb chrono discriminated.
Create Rewrite HintDb chrono_rw.
#[export] Hint Rewrite @bind_Ok @bind_mret @bind_Raise @try_except_Ok @try_except_Raise : chrono_rw.

(** Step a [Res] computation past the binds whose first part is known. *)
Ltac res_step := cbv beta iota; autorewrite with chrono_rw; cbv beta iota.

(** Invert a hypothesis [r ≫= f = Ok b] into its two steps. *)
Ltac res_inv :=
  repeat match goal with
  | H : (_ ≫= _) = Ok _ |- _ =>
      apply bind_eq_Ok in H as (? & ? & ?)
  | H : guard_py _ _ = Ok _ |- _ => apply guard_py_Ok in H
  | H : mret _ = Ok _ |- _ => injection H as H
  | H : Ok _ = Ok _ |- _ => injection H as H
  | H : Raise _ = Ok _ |- _ => discriminate H
  end.

(** Case on every integer comparison of the goal and close the impossible
    branches by arithmetic. *)
Ltac zbool :=
  repeat match goal with
  | |- context [Z.eqb ?x ?y] => destruct (Z.eqb_spec x y)
  | |- context [Z.leb ?x ?y] => destruct (Z.leb_spec x y)
  | |- context [Z.ltb ?x ?y] => destruct (Z.ltb_spec x y)
  end; simpl; try reflexivity; try (exfalso; lia).

(** Prove a goal about an integer [v] with [lo ≤ v < lo + n] by proving it
    for each value, with [tac]. *)
(** A decidable proposition on concrete data, decided by evaluation. *)
Ltac decide_vm := match goal with |- ?P => apply (bool_decide_eq_true_1 P); vm_compute; reflexivity end.

Ltac enum_range v lo n tac :=
  let Hin := fresh "Hin" in
  assert (Hin : v ∈ seqZ lo n) by (apply elem_of_seqZ; lia);
  vm_compute in Hin;
  repeat (apply elem_of_cons in Hin as [->|Hin]; [tac|]);
  by apply not_elem_of_nil in Hin.
