(* ===== verification/PyStr.v ===== *)
(** * PyStr: the Python [str] builtins called by [src/chronoreply.py]

    The source tokenises chat messages and time expressions with
    [str.split()], [str.split(":")], [str.split("-")], [str.lower()],
    [":" in s] and [int(s)].  They are modelled here on ASCII strings, the
    way CPython defines them for ASCII input:
    - [split_ws]: [str.split()] with no separator: maximal runs of
      non-whitespace, whitespace being [\t \n \v \f \r], [\x1c]-[\x1f] and
      space ([str.isspace] on ASCII);
    - [split_on]: [str.split(sep)] with a one-character separator, which
      keeps empty fields;
    - [lower]: [str.lower] on ASCII letters;
    - [py_int]: [int(s)] in base 10: surrounding whitespace, an optional
      sign, decimal digits with single underscores between them, and
      [ValueError] otherwise. *)

From S2P Require Import Prelude.
Local Open Scope Z_scope.

(** ** Characters *)

Definition py_isspace (c : ascii) : bool :=
  let n := Ascii.nat_of_ascii c in
  ((9 <=? n) && (n <=? 13))%nat || ((28 <=? n) && (n <=? 32))%nat.

Definition digit_value (c : ascii) : option Z :=
  let n := Ascii.nat_of_ascii c in
  if ((48 <=? n) && (n <=? 57))%nat then Some (Z.of_nat n - 48) else None.

Definition lower_char (c : ascii) : ascii :=
  let n := Ascii.nat_of_ascii c in
  if ((65 <=? n) && (n <=? 90))%nat then Ascii.ascii_of_nat (n + 32) else c.

(** ** [str.split()] *)

(** [acc] holds the current run of non-whitespace characters, in order. *)
Fixpoint split_ws_go (s acc : string) : list string :=
  match s with
  | EmptyString => if String.eqb acc "" then [] else [acc]
  | String c s' =>
      if py_isspace c
      then (if String.eqb acc "" then [] else [acc]) ++ split_ws_go s' ""
      else split_ws_go s' (acc +:+ String c EmptyString)
  end.

Definition split_ws (s : string) : list string := split_ws_go s "".

(** ** [str.split(sep)] *)

Fixpoint split_on_go (sep : ascii) (s acc : string) : list string :=
  match s with
  | EmptyString => [acc]
  | String c s' =>
      if Ascii.eqb c sep then acc :: split_on_go sep s' ""
      else split_on_go sep s' (acc +:+ String c EmptyString)
  end.

Definition split_on (sep : ascii) (s : string) : list string := split_on_go sep s "".

(** ** [str.lower()] and [c in s] *)

Fixpoint lower (s : string) : string :=
  match s with
  | EmptyString => EmptyString
  | String c s' => String (lower_char c) (lower s')
  end.

Fixpoint contains_char (c : ascii) (s : string) : bool :=
  match s with
  | EmptyString => false
  | String c' s' => Ascii.eqb c c' || contains_char c s'
  end.

(** ** [int(s)] *)

Fixpoint lstrip (s : string) : string :=
  match s with
  | String c s' => if py_isspace c then lstrip s' else s
  | EmptyString => EmptyString
  end.

Fixpoint rev_str (s : string) (acc : string) : string :=
  match s with
  | EmptyString => acc
  | String c s' => rev_str s' (String c acc)
  end.

Definition strip (s : string) : string :=
  rev_str (lstrip (rev_str (lstrip s) "")) "".

(** Digits with single underscores between them; [after_us] records that
    the previous character was an underscore. *)
Fixpoint digits_go (s : string) (acc : Z) (after_us : bool) : option Z :=
  match s with
  | EmptyString => if after_us then None else Some acc
  | String c s' =>
      match digit_value c with
      | Some d => digits_go s' (10 * acc + d) false
      | None =>
          if Ascii.eqb c "_"%char && negb after_us then digits_go s' acc true
          else None
      end
  end.

Definition digits (s : string) : option Z :=
  match s with
  | String c s' =>
      match digit_value c with Some d => digits_go s' d false | None => None end
  | EmptyString => None
  end.

Definition py_int (s : string) : Res Z :=
  let t := strip s in
  let r :=
    match t with
    | String c t' =>
        if Ascii.eqb c "-"%char then option_map Z.opp (digits t')
        else if Ascii.eqb c "+"%char then digits t'
        else digits t
    | EmptyString => None
    end in
  match r with Some z => Ok z | None => Raise ValueError end.

(** [a, b = map(int, s.split(sep))]: exactly two fields, each an [int];
    any other shape raises [ValueError]. *)
Definition int_pair (sep : ascii) (s : string) : Res (Z * Z) :=
  match split_on sep s with
  | [a; b] => x ← py_int a; y ← py_int b; mret (x, y)
  | _ => Raise ValueError
  end.

Example split_ws_ex : split_ws "  senin 09:00 " = ["senin"; "09:00"].
Proof. reflexivity. Qed.
Example int_pair_ex : int_pair ":" "09:3_0" = Ok (9, 30).
Proof. reflexivity. Qed.

(** ** Lemmas on digit strings *)

Fixpoint all_chars (p : ascii → bool) (s : string) : bool :=
  match s with
  | EmptyString => true
  | String c s' => p c && all_chars p s'
  end.

Lemma all_chars_app p s t : all_chars p (s +:+ t) = all_chars p s && all_chars p t.
Proof. induction s as [|c s IH]; simpl; [done|]. rewrite IH. by destruct (p c). Qed.

Lemma lstrip_no_space s : all_chars (negb ∘ py_isspace) s = true → lstrip s = s.
Proof. destruct s as [|c s]; simpl; [done|]. by destruct (py_isspace c). Qed.

Lemma rev_str_all p s acc :
  all_chars p (rev_str s acc) = all_chars p s && all_chars p acc.
Proof.
  revert acc. induction s as [|c s IH]; intros acc; simpl; [done|].
  rewrite IH. simpl. by destruct (p c), (all_chars p s), (all_chars p acc).
Qed.

Lemma rev_str_involutive s : rev_str (rev_str s "") "" = s.
Proof.
  assert (∀ acc t, rev_str (rev_str s acc) t = rev_str acc (s +:+ t)) as H.
  { induction s as [|c s IH]; intros acc t; simpl; [done|]. by rewrite IH. }
  rewrite H. clear H. simpl. induction s as [|c s IH]; [done|].
  change (String c s +:+ "") with (String c (s +:+ "")). by rewrite IH.
Qed.

(** Surrounding whitespace is all [strip] removes. *)
Lemma strip_no_space s : all_chars (negb ∘ py_isspace) s = true → strip s = s.
Proof.
  intros Hs. unfold strip. rewrite (lstrip_no_space s Hs).
  rewrite lstrip_no_space; [apply rev_str_involutive|].
  rewrite rev_str_all, Hs. done.
Qed.

(** ** The words of [str.split()] *)

Lemma string_app_nil_r s : s +:+ "" = s.
Proof. induction s as [|c s IH]; [done|]. change (String c (s +:+ "") = String c s). by rewrite IH. Qed.

Lemma string_app_assoc s t v : s +:+ (t +:+ v) = (s +:+ t) +:+ v.
Proof.
  induction s as [|c s IH]; [done|].
  change (String c (s +:+ (t +:+ v)) = String c ((s +:+ t) +:+ v)). by rewrite IH.
Qed.

Lemma split_ws_go_tokens s acc w :
  all_chars (negb ∘ py_isspace) acc = true → w ∈ split_ws_go s acc →
  w ≠ "" ∧ all_chars (negb ∘ py_isspace) w = true.
Proof.
  revert acc. induction s as [|c s IH]; intros acc Hacc Hw; cbn [split_ws_go] in Hw.
  - destruct (String.eqb_spec acc ""); [by apply not_elem_of_nil in Hw|].
    by apply list_elem_of_singleton in Hw as ->.
  - destruct (py_isspace c) eqn:Hc.
    + apply elem_of_app in Hw as [Hw|Hw]; [|by apply (IH "")].
      destruct (String.eqb_spec acc ""); [by apply not_elem_of_nil in Hw|].
      by apply list_elem_of_singleton in Hw as ->.
    + apply (IH (acc +:+ String c "")); [|done].
      rewrite all_chars_app, Hacc. cbn. by rewrite Hc.
Qed.

Lemma split_ws_go_word w acc :
  all_chars (negb ∘ py_isspace) w = true →
  split_ws_go w acc = if String.eqb (acc +:+ w) "" then [] else [acc +:+ w].
Proof.
  revert acc. induction w as [|c w IH]; intros acc Hw.
  - cbn. by rewrite string_app_nil_r.
  - cbn in Hw. apply andb_prop in Hw as [Hc Hw]. cbn [split_ws_go].
    destruct (py_isspace c); [discriminate|]. rewrite IH by done.
    by rewrite <- string_app_assoc.
Qed.

(** A word of [s.split()] is split into itself. *)
Lemma split_ws_token s w : w ∈ split_ws s → split_ws w = [w].
Proof.
  intros H. destruct (split_ws_go_tokens s "" w eq_refl H) as [Hne Hall].
  unfold split_ws. rewrite split_ws_go_word by done. change ("" +:+ w) with w.
  destruct (String.eqb_spec w ""); congruence.
Qed.

Lemma lower_char_idem c : lower_char (lower_char c) = lower_char c.
Proof. destruct c as [[] [] [] [] [] [] [] []]; reflexivity. Qed.

(** [s.lower().lower() == s.lower()]. *)
Lemma lower_idem s : lower (lower s) = lower s.
Proof. induction s as [|c s IH]; [done|]. cbn. by rewrite lower_char_idem, IH. Qed.

(** ** Slices [s[:n]] *)

Lemma string_length_app s t : String.length (s +:+ t) = (String.length s + String.length t)%nat.
Proof. induction s as [|c s IH]; [done|]. change (String.length (String c (s +:+ t)) = S (String.length s + String.length t)). cbn [String.length]. by rewrite IH. Qed.

Lemma substring0_length n s : String.length (String.substring 0 n s) = Nat.min n (String.length s).
Proof. revert n. induction s as [|c s IH]; intros [|n]; cbn; [done..|]. by rewrite IH. Qed.

Lemma substring0_id n s : (String.length s ≤ n)%nat → String.substring 0 n s = s.
Proof.
  revert n. induction s as [|c s IH]; intros [|n] Hn; cbn in *; [done | done | lia |].
  rewrite IH; [done | lia].
Qed.
