(* ===== verification/Calendar.v ===== *)
(** * Calendar: Python's naive [datetime] arithmetic

    [src/chronoreply.py] does all its calendar work through Python's
    [datetime] module: [replace(...)], [+ timedelta(days=k)], [weekday()],
    [.year] and comparisons.  This file gives that library's semantics, from
    CPython's [Lib/_pydatetime.py]:
    - dates are proleptic Gregorian, years 1..9999 ([MINYEAR], [MAXYEAR]);
    - [ymd2ord] and [ord2ymd] are [_ymd2ord] and [_ord2ymd] (the latter with
      its 400/100/4/1-year cycles);
    - a naive [datetime] is a record of seven integer fields; [to_us] maps it
      to microseconds since 0001-01-01T00:00 and [of_us] back, raising
      [OverflowError] outside the representable range, which is how
      [datetime + timedelta] fails;
    - [mk_datetime] is the constructor's (and [replace]'s) range check, which
      raises [ValueError].
    The main results are that [ord2ymd] inverts [ymd2ord] in both
    directions, so that [to_us] and [of_us] are mutually inverse on valid
    datetimes and in-range instants. *)

From S2P Require Import Prelude.
Local Open Scope Z_scope.

(** ** Proleptic Gregorian calendar ([_is_leap], [_days_before_year], ...) *)

Definition MAXYEAR : Z := 9999.
Definition MAXORDINAL : Z := 3652059.

Definition is_leap (y : Z) : bool :=
  (y mod 4 =? 0) && (negb (y mod 100 =? 0) || (y mod 400 =? 0)).

(** [_DAYS_IN_MONTH] and [_DAYS_BEFORE_MONTH] for a non-leap year. *)
Definition DAYS_IN_MONTH (m : Z) : Z :=
  match m with
  | 1 | 3 | 5 | 7 | 8 | 10 | 12 => 31
  | 2 => 28
  | 4 | 6 | 9 | 11 => 30
  | _ => -1
  end.

Definition DAYS_BEFORE_MONTH (m : Z) : Z :=
  match m with
  | 1 => 0 | 2 => 31 | 3 => 59 | 4 => 90 | 5 => 120 | 6 => 151
  | 7 => 181 | 8 => 212 | 9 => 243 | 10 => 273 | 11 => 304 | 12 => 334
  | _ => -1
  end.

Definition leap_adj (b : bool) : Z := if b then 1 else 0.

Definition days_in_month (y m : Z) : Z :=
  if (m =? 2) && is_leap y then 29 else DAYS_IN_MONTH m.

Definition days_before_year (y : Z) : Z :=
  let y := y - 1 in y * 365 + y / 4 - y / 100 + y / 400.

Definition days_before_month (y m : Z) : Z :=
  DAYS_BEFORE_MONTH m + leap_adj ((2 <? m) && is_leap y).

Definition ymd2ord (y m d : Z) : Z :=
  days_before_year y + days_before_month y m + d.

Definition valid_ymd (y m d : Z) : bool :=
  (1 <=? y) && (y <=? MAXYEAR) && (1 <=? m) && (m <=? 12) &&
  (1 <=? d) && (d <=? days_in_month y m).

(** The last lines of [_ord2ymd]: the month and day of the [n]th day
    (from 0) of a year, knowing whether the year is leap. *)
Definition month_day_of (leap : bool) (n : Z) : Z * Z :=
  let month := Z.shiftr (n + 50) 5 in
  let preceding := DAYS_BEFORE_MONTH month + leap_adj ((2 <? month) && leap) in
  let '(month, preceding) :=
    if n <? preceding
    then (month - 1,
          preceding - (DAYS_IN_MONTH (month - 1) + leap_adj ((month - 1 =? 2) && leap)))
    else (month, preceding) in
  (month, n - preceding + 1).

Definition ord2ymd (n : Z) : Z * Z * Z :=
  let n := n - 1 in
  let n400 := n / 146097 in
  let n := n mod 146097 in
  let n100 := n / 36524 in
  let n := n mod 36524 in
  let n4 := n / 1461 in
  let n := n mod 1461 in
  let n1 := n / 365 in
  let n := n mod 365 in
  let year := n400 * 400 + 1 + n100 * 100 + n4 * 4 + n1 in
  if (n1 =? 4) || (n100 =? 4) then (year - 1, 12, 31)
  else
    let leap := (n1 =? 3) && (negb (n4 =? 24) || (n100 =? 3)) in
    let '(month, day) := month_day_of leap n in
    (year, month, day).

(** ** Naive datetimes *)

Record datetime := mkDT {
  year : Z; month : Z; day : Z;
  hour : Z; minute : Z; second : Z; microsecond : Z
}.

#[export] Instance datetime_eq_dec : EqDecision datetime.
Proof. solve_decision. Defined.

Definition valid_dt (d : datetime) : bool :=
  valid_ymd (year d) (month d) (day d) &&
  (0 <=? hour d) && (hour d <=? 23) && (0 <=? minute d) && (minute d <=? 59) &&
  (0 <=? second d) && (second d <=? 59) &&
  (0 <=? microsecond d) && (microsecond d <=? 999999).

Lemma valid_dt_iff d :
  valid_dt d = true ↔
  valid_ymd (year d) (month d) (day d) = true ∧ 0 ≤ hour d ≤ 23 ∧ 0 ≤ minute d ≤ 59 ∧
  0 ≤ second d ≤ 59 ∧ 0 ≤ microsecond d ≤ 999999.
Proof.
  unfold valid_dt. rewrite !andb_true_iff, !Z.leb_le. tauto.
Qed.

Lemma valid_ymd_iff y m d :
  valid_ymd y m d = true ↔ 1 ≤ y ≤ MAXYEAR ∧ 1 ≤ m ≤ 12 ∧ 1 ≤ d ≤ days_in_month y m.
Proof.
  unfold valid_ymd. rewrite !andb_true_iff, !Z.leb_le. tauto.
Qed.

(** [datetime(year, month, day, hour, minute, second, microsecond)], and so
    [replace]: every field is range-checked, [ValueError] otherwise. *)
Definition mk_datetime (y m d hh mi ss us : Z) : Res datetime :=
  let r := mkDT y m d hh mi ss us in
  if valid_dt r then Ok r else Raise ValueError.

(** [dt.replace(hour=h, minute=m, second=0, microsecond=0)]. *)
Definition replace_time (d : datetime) (h m : Z) : Res datetime :=
  mk_datetime (year d) (month d) (day d) h m 0 0.

Definition US_PER_DAY : Z := 86400000000.

(** Microseconds since 0001-01-01T00:00. *)
Definition to_us (d : datetime) : Z :=
  (ymd2ord (year d) (month d) (day d) - 1) * US_PER_DAY
  + ((hour d * 60 + minute d) * 60 + second d) * 1000000 + microsecond d.

Definition in_range (x : Z) : bool := (0 <=? x) && (x <? MAXORDINAL * US_PER_DAY).

Definition dt_of_us (x : Z) : datetime :=
  let '(y, m, d) := ord2ymd (x / US_PER_DAY + 1) in
  let r := x mod US_PER_DAY in
  mkDT y m d (r / 3600000000) (r / 60000000 mod 60) (r / 1000000 mod 60) (r mod 1000000).

Definition of_us (x : Z) : Res datetime :=
  if in_range x then Ok (dt_of_us x) else Raise OverflowError.

(** [d + timedelta(microseconds=delta)]; [OverflowError] out of range. *)
Definition add_us (d : datetime) (delta : Z) : Res datetime := of_us (to_us d + delta).

(** [timedelta(days=k)] in microseconds. *)
Definition days (k : Z) : Z := k * US_PER_DAY.

(** The instant of the same day as the instant [x] at [h:m]. *)
Definition at_time (x h m : Z) : Z := x - x mod US_PER_DAY + (h * 60 + m) * 60000000.

(** [d.weekday()]: Monday is 0. *)
Definition weekday (d : datetime) : Z := (ymd2ord (year d) (month d) (day d) + 6) mod 7.

(** ** The table of months, checked once *)

Definition month_day_ok (leap : bool) (n : Z) : bool :=
  let '(m, d) := month_day_of leap n in
  (1 <=? m) && (m <=? 12) && (1 <=? d) &&
  (d <=? DAYS_IN_MONTH m + leap_adj ((m =? 2) && leap)) &&
  (DAYS_BEFORE_MONTH m + leap_adj ((2 <? m) && leap) + d =? n + 1).

Lemma month_day_of_spec leap n :
  0 ≤ n < 365 + leap_adj leap →
  let '(m, d) := month_day_of leap n in
  1 ≤ m ≤ 12 ∧ 1 ≤ d ≤ DAYS_IN_MONTH m + leap_adj ((m =? 2) && leap) ∧
  DAYS_BEFORE_MONTH m + leap_adj ((2 <? m) && leap) + d = n + 1.
Proof.
  intros Hn.
  assert (month_day_ok leap n = true) as Hok.
  { destruct leap; simpl in Hn;
      [apply (forall_range_spec 366 0); [vm_compute; reflexivity | lia]
      |apply (forall_range_spec 365 0); [vm_compute; reflexivity | lia]]. }
  unfold month_day_ok in Hok. destruct (month_day_of leap n) as [m d].
  repeat (apply andb_prop in Hok as [Hok ?]). lia.
Qed.

Lemma leap_adj_bound b : 0 ≤ leap_adj b ≤ 1.
Proof. destruct b; simpl; lia. Qed.

Lemma DAYS_IN_MONTH_le m : DAYS_IN_MONTH m ≤ 31.
Proof. unfold DAYS_IN_MONTH. repeat case_match; lia. Qed.

Lemma dim_adj_le m b : DAYS_IN_MONTH m + leap_adj ((m =? 2) && b) ≤ 31.
Proof.
  pose proof (DAYS_IN_MONTH_le m).
  destruct (Z.eqb_spec m 2) as [->|]; [destruct b|]; simpl; lia.
Qed.

Definition month_day_inv_ok (leap : bool) (m : Z) : bool :=
  forall_range 31 1 (λ d,
    if d <=? DAYS_IN_MONTH m + leap_adj ((m =? 2) && leap) then
      bool_decide (month_day_of leap (DAYS_BEFORE_MONTH m + leap_adj ((2 <? m) && leap) + d - 1)
                   = (m, d))
    else true).

Lemma month_day_of_inv leap m d :
  1 ≤ m ≤ 12 → 1 ≤ d ≤ DAYS_IN_MONTH m + leap_adj ((m =? 2) && leap) →
  month_day_of leap (DAYS_BEFORE_MONTH m + leap_adj ((2 <? m) && leap) + d - 1) = (m, d).
Proof.
  intros Hm Hd.
  assert (month_day_inv_ok leap m = true) as Hok.
  { assert (∀ b, forall_range 12 1 (month_day_inv_ok b) = true) as Hall
      by (intros []; vm_compute; reflexivity).
    apply (forall_range_spec 12 1 _ (Hall leap)). lia. }
  assert (d ≤ 31) by (pose proof (dim_adj_le m leap); lia).
  pose proof (forall_range_spec _ _ _ Hok d ltac:(lia)) as Hd'. simpl in Hd'.
  rewrite (proj2 (Z.leb_le _ _)) in Hd' by lia.
  by apply bool_decide_eq_true in Hd'.
Qed.

(** ** Years and their cycles *)

Lemma days_in_month_adj y m :
  days_in_month y m = DAYS_IN_MONTH m + leap_adj ((m =? 2) && is_leap y).
Proof. unfold days_in_month. destruct (Z.eqb_spec m 2) as [->|]; [destruct (is_leap y)|]; simpl; lia. Qed.

(** [y - 1] split into the 400-, 100-, 4- and 1-year cycles of [_ord2ymd]. *)
Lemma days_before_year_cycles a b c d :
  0 ≤ a → 0 ≤ b ≤ 3 → 0 ≤ c ≤ 24 → 0 ≤ d ≤ 3 →
  days_before_year (400 * a + 100 * b + 4 * c + d + 1) = 146097 * a + 36524 * b + 1461 * c + 365 * d.
Proof.
  intros. unfold days_before_year.
  replace (400 * a + 100 * b + 4 * c + d + 1 - 1) with (400 * a + 100 * b + 4 * c + d) by lia.
  rewrite (Z_div_of_decomp _ 4 (100 * a + 25 * b + c) d) by lia.
  rewrite (Z_div_of_decomp _ 100 (4 * a + b) (4 * c + d)) by lia.
  rewrite (Z_div_of_decomp _ 400 a (100 * b + 4 * c + d)) by lia.
  lia.
Qed.

Lemma is_leap_cycles a b c d :
  0 ≤ a → 0 ≤ b ≤ 3 → 0 ≤ c ≤ 24 → 0 ≤ d ≤ 3 →
  is_leap (400 * a + 100 * b + 4 * c + d + 1) = (d =? 3) && (negb (c =? 24) || (b =? 3)).
Proof.
  intros. unfold is_leap.
  destruct (Z.eqb_spec d 3) as [->|Hd].
  - rewrite (Z_mod_of_decomp _ 4 (100 * a + 25 * b + c + 1) 0) by lia.
    destruct (Z.eqb_spec c 24) as [->|Hc].
    + rewrite (Z_mod_of_decomp _ 100 (4 * a + b + 1) 0) by lia.
      destruct (Z.eqb_spec b 3) as [->|Hb].
      * by rewrite (Z_mod_of_decomp _ 400 (a + 1) 0) by lia.
      * rewrite (Z_mod_of_decomp _ 400 a (100 * b + 100)) by lia. zbool.
    + rewrite (Z_mod_of_decomp _ 100 (4 * a + b) (4 * c + 4)) by lia. zbool.
  - rewrite (Z_mod_of_decomp _ 4 (100 * a + 25 * b + c) (d + 1)) by lia. zbool.
Qed.

(** [_ord2ymd] is a right inverse of [_ymd2ord]: every ordinal from 1 is
    the ordinal of the valid date it is decoded to, and the ordinals up to
    [MAXORDINAL] decode to years up to [MAXYEAR]. *)
Lemma ord2ymd_spec n :
  1 ≤ n →
  let '(y, m, d) := ord2ymd n in
  ymd2ord y m d = n ∧ 1 ≤ y ∧ (n ≤ MAXORDINAL → y ≤ MAXYEAR) ∧
  1 ≤ m ≤ 12 ∧ 1 ≤ d ≤ days_in_month y m.
Proof.
  intros Hn. unfold ord2ymd. cbv beta zeta.
  destruct (Z_divmod_facts (n - 1) 146097) as [E1 B1]; [lia|].
  set (a := (n - 1) / 146097) in *; set (r1 := (n - 1) mod 146097) in *.
  destruct (Z_divmod_facts r1 36524) as [E2 B2]; [lia|].
  set (b := r1 / 36524) in *; set (r2 := r1 mod 36524) in *.
  destruct (Z_divmod_facts r2 1461) as [E3 B3]; [lia|].
  set (c := r2 / 1461) in *; set (r3 := r2 mod 1461) in *.
  destruct (Z_divmod_facts r3 365) as [E4 B4]; [lia|].
  set (d := r3 / 365) in *; set (r4 := r3 mod 365) in *.
  assert (0 ≤ a) by (subst a; apply Z.div_pos; lia).
  assert (0 ≤ b ≤ 4 ∧ 0 ≤ c ≤ 24 ∧ 0 ≤ d ≤ 4) as (Hb & Hc & Hd) by lia.
  clearbody a r1 b r2 c r3 d r4. unfold MAXORDINAL, MAXYEAR, ymd2ord.
  destruct (Z.eqb_spec d 4) as [Hd4|Hd4]; [|destruct (Z.eqb_spec b 4) as [Hb4|Hb4]]; simpl.
  - (* the last day of a 4-year cycle *)
    replace (a * 400 + 1 + b * 100 + c * 4 + d - 1) with (400 * a + 100 * b + 4 * c + 3 + 1) by lia.
    rewrite days_before_year_cycles, days_in_month_adj by lia.
    unfold days_before_month. rewrite is_leap_cycles by lia. zbool; lia.
  - (* the last day of a 400-year cycle *)
    replace (a * 400 + 1 + b * 100 + c * 4 + d - 1) with (400 * a + 100 * 3 + 4 * 24 + 3 + 1) by lia.
    rewrite days_before_year_cycles, days_in_month_adj by lia.
    unfold days_before_month. rewrite is_leap_cycles by lia. zbool; lia.
  - replace (a * 400 + 1 + b * 100 + c * 4 + d) with (400 * a + 100 * b + 4 * c + d + 1) by lia.
    rewrite <- (is_leap_cycles a b c d) by lia.
    pose proof (month_day_of_spec (is_leap (400 * a + 100 * b + 4 * c + d + 1)) r4) as Hmd.
    destruct (month_day_of _ r4) as [m dd].
    pose proof (leap_adj_bound (is_leap (400 * a + 100 * b + 4 * c + d + 1))).
    destruct Hmd as (Hm & Hdd & Hsum); [lia|].
    rewrite days_before_year_cycles, days_in_month_adj by lia.
    unfold days_before_month. lia.
Qed.

Lemma year_cycles y :
  1 ≤ y → ∃ a b c d, y = 400 * a + 100 * b + 4 * c + d + 1 ∧
                      0 ≤ a ∧ 0 ≤ b ≤ 3 ∧ 0 ≤ c ≤ 24 ∧ 0 ≤ d ≤ 3.
Proof.
  intros Hy.
  destruct (Z_divmod_facts (y - 1) 400) as [E1 B1]; [lia|].
  destruct (Z_divmod_facts ((y - 1) mod 400) 100) as [E2 B2]; [lia|].
  destruct (Z_divmod_facts ((y - 1) mod 400 mod 100) 4) as [E3 B3]; [lia|].
  exists ((y - 1) / 400), ((y - 1) mod 400 / 100), ((y - 1) mod 400 mod 100 / 4),
         ((y - 1) mod 400 mod 100 mod 4).
  assert (0 ≤ (y - 1) / 400) by (apply Z.div_pos; lia). lia.
Qed.

(** The day of the year: at most [365 + leap] days precede a valid date. *)
Lemma day_of_year_bound y m d :
  1 ≤ m ≤ 12 → 1 ≤ d ≤ days_in_month y m →
  0 ≤ days_before_month y m + d - 1 < 365 + leap_adj (is_leap y).
Proof.
  intros Hm Hd. rewrite days_in_month_adj in Hd. unfold days_before_month in *.
  assert (m = 1 ∨ m = 2 ∨ m = 3 ∨ m = 4 ∨ m = 5 ∨ m = 6 ∨ m = 7 ∨ m = 8 ∨
          m = 9 ∨ m = 10 ∨ m = 11 ∨ m = 12) as Hcases by lia.
  destruct (is_leap y); repeat destruct Hcases as [->|Hcases]; subst; simpl in *; lia.
Qed.

(** [_ord2ymd] is a left inverse of [_ymd2ord] on valid dates. *)
Lemma ord2ymd_ymd2ord y m d :
  valid_ymd y m d = true → ord2ymd (ymd2ord y m d) = (y, m, d).
Proof.
  unfold valid_ymd. intros Hv. repeat (apply andb_prop in Hv as [Hv ?]).
  repeat match goal with H : (_ <=? _) = true |- _ => apply Z.leb_le in H end.
  pose proof (day_of_year_bound y m d ltac:(lia) ltac:(lia)) as Hk.
  pose proof (month_day_of_inv (is_leap y) m d ltac:(lia)) as Hinv.
  rewrite <- days_in_month_adj in Hinv. specialize (Hinv ltac:(lia)).
  fold (days_before_month y m) in Hinv.
  set (k := days_before_month y m + d - 1) in *.
  destruct (year_cycles y) as (a & b & c & dd & -> & Ha & Hb & Hc & Hd); [lia|].
  unfold ymd2ord. rewrite days_before_year_cycles by lia.
  replace (146097 * a + 36524 * b + 1461 * c + 365 * dd + days_before_month _ m + d)
    with (146097 * a + 36524 * b + 1461 * c + 365 * dd + k + 1) by (subst k; lia).
  clearbody k. pose proof (leap_adj_bound (is_leap (400 * a + 100 * b + 4 * c + dd + 1))).
  unfold ord2ymd. cbv beta zeta.
  replace (146097 * a + 36524 * b + 1461 * c + 365 * dd + k + 1 - 1)
    with (146097 * a + (36524 * b + 1461 * c + 365 * dd + k)) by lia.
  rewrite (is_leap_cycles a b c dd) in *; try lia.
  destruct (Z.eqb_spec k 365) as [->|Hk365].
  - (* the 366th day of a leap year *)
    assert (dd = 3 ∧ (c ≠ 24 ∨ b = 3)) as [-> Hcb] by (revert Hk; zbool; lia).
    assert ((3 =? 3) && (negb (c =? 24) || (b =? 3)) = true) as Hl by (destruct Hcb; zbool).
    rewrite Hl in Hinv.
    change (month_day_of true 365) with (12, 31) in Hinv.
    injection Hinv as <- <-.
    rewrite (Z_div_of_decomp _ 146097 a (36524 * b + 1461 * c + 365 * 3 + 365)),
            (Z_mod_of_decomp _ 146097 a (36524 * b + 1461 * c + 365 * 3 + 365)) by lia.
    destruct (decide (b = 3 ∧ c = 24)) as [[-> ->]|Hbc].
    + rewrite (Z_div_of_decomp _ 36524 4 0), (Z_mod_of_decomp _ 36524 4 0) by lia.
      rewrite ?Zdiv_0_l, ?Zmod_0_l. simpl. f_equal. f_equal. lia.
    + rewrite (Z_div_of_decomp _ 36524 b (1461 * c + 1460)),
              (Z_mod_of_decomp _ 36524 b (1461 * c + 1460)) by lia.
      rewrite (Z_div_of_decomp _ 1461 c 1460), (Z_mod_of_decomp _ 1461 c 1460) by lia.
      change (1460 / 365) with 4. simpl. f_equal. f_equal. lia.
  - assert (0 ≤ k ≤ 364) by (revert Hk; zbool; lia).
    rewrite (Z_div_of_decomp _ 146097 a (36524 * b + 1461 * c + 365 * dd + k)),
            (Z_mod_of_decomp _ 146097 a (36524 * b + 1461 * c + 365 * dd + k)) by lia.
    rewrite (Z_div_of_decomp _ 36524 b (1461 * c + 365 * dd + k)),
            (Z_mod_of_decomp _ 36524 b (1461 * c + 365 * dd + k)) by lia.
    rewrite (Z_div_of_decomp _ 1461 c (365 * dd + k)), (Z_mod_of_decomp _ 1461 c (365 * dd + k)) by lia.
    rewrite (Z_div_of_decomp _ 365 dd k), (Z_mod_of_decomp _ 365 dd k) by lia.
    replace ((dd =? 4) || (b =? 4)) with false by zbool.
    rewrite Hinv. f_equal. f_equal. lia.
Qed.

(** Every valid date has an ordinal between 1 and [MAXORDINAL]. *)
Lemma ymd2ord_bound y m d :
  valid_ymd y m d = true → 1 ≤ ymd2ord y m d ≤ MAXORDINAL.
Proof.
  unfold valid_ymd. intros Hv. repeat (apply andb_prop in Hv as [Hv ?]).
  repeat match goal with H : (_ <=? _) = true |- _ => apply Z.leb_le in H end.
  pose proof (day_of_year_bound y m d ltac:(lia) ltac:(lia)) as Hk.
  unfold ymd2ord, MAXORDINAL, MAXYEAR in *.
  destruct (year_cycles y) as (a & b & c & dd & -> & Ha & Hb & Hc & Hd); [lia|].
  rewrite days_before_year_cycles by lia.
  rewrite (is_leap_cycles a b c dd) in Hk by lia.
  revert Hk. zbool; lia.
Qed.

Lemma time_of_day_decomp (r : Z) :
  0 ≤ r < US_PER_DAY →
  ((r / 3600000000 * 60 + r / 60000000 mod 60) * 60 + r / 1000000 mod 60) * 1000000
    + r mod 1000000 = r ∧
  0 ≤ r / 3600000000 ≤ 23 ∧ 0 ≤ r / 60000000 mod 60 ≤ 59 ∧
  0 ≤ r / 1000000 mod 60 ≤ 59 ∧ 0 ≤ r mod 1000000 ≤ 999999.
Proof.
  unfold US_PER_DAY. intros Hr.
  assert (r / 60000000 = r / 1000000 / 60) as E1
    by (rewrite Z.div_div; [reflexivity | lia | lia]).
  assert (r / 3600000000 = r / 60000000 / 60) as E2
    by (rewrite Z.div_div; [reflexivity | lia | lia]).
  destruct (Z_divmod_facts r 1000000) as [F1 G1]; [lia|].
  destruct (Z_divmod_facts (r / 1000000) 60) as [F2 G2]; [lia|].
  destruct (Z_divmod_facts (r / 60000000) 60) as [F3 G3]; [lia|].
  assert (0 ≤ r / 3600000000 < 24).
  { split; [apply Z.div_pos; lia | apply Z.div_lt_upper_bound; lia]. }
  rewrite <- E1 in F2. rewrite <- E2 in F3. lia.
Qed.

(** [of_us] decodes an in-range instant into a valid datetime encoding
    that same instant. *)
Lemma to_us_dt_of_us x :
  in_range x = true → to_us (dt_of_us x) = x ∧ valid_dt (dt_of_us x) = true.
Proof.
  unfold in_range. intros Hx. apply andb_prop in Hx as [H1 H2].
  apply Z.leb_le in H1. apply Z.ltb_lt in H2.
  destruct (Z_divmod_facts x US_PER_DAY) as [E B]; [unfold US_PER_DAY; lia|].
  assert (0 ≤ x / US_PER_DAY < MAXORDINAL).
  { split; [apply Z.div_pos | apply Z.div_lt_upper_bound]; unfold US_PER_DAY in *; lia. }
  unfold dt_of_us.
  pose proof (ord2ymd_spec (x / US_PER_DAY + 1) ltac:(lia)) as Hs.
  destruct (ord2ymd _) as [[y m] d].
  destruct Hs as (Hord & Hy1 & Hy2 & Hm & Hd).
  destruct (time_of_day_decomp (x mod US_PER_DAY) B) as (Ht & Hh & Hmi & Hs & Hus).
  unfold to_us, valid_dt, valid_ymd, MAXORDINAL, MAXYEAR in *; simpl.
  split; [lia|].
  repeat (apply andb_true_intro; split); apply Z.leb_le; lia.
Qed.

(** [to_us] of a valid datetime is in range, and [of_us] decodes it back. *)
Lemma dt_of_us_to_us d :
  valid_dt d = true → in_range (to_us d) = true ∧ dt_of_us (to_us d) = d.
Proof.
  destruct d as [y m dd h mi s us]. unfold valid_dt.
  cbn [year month day hour minute second microsecond]. intros Hv.
  assert (valid_ymd y m dd = true) as Hymd.
  { destruct (valid_ymd y m dd); [done | discriminate Hv]. }
  repeat (apply andb_prop in Hv as [Hv ?]).
  repeat match goal with H : (_ <=? _) = true |- _ => apply Z.leb_le in H end.
  pose proof (ymd2ord_bound y m dd Hymd) as Hb.
  set (t := ((h * 60 + mi) * 60 + s) * 1000000 + us).
  assert (0 ≤ t < US_PER_DAY) by (subst t; unfold US_PER_DAY; lia).
  unfold to_us, in_range, dt_of_us; cbn [year month day hour minute second microsecond].
  fold t.
  split.
  { apply andb_true_intro; split; [apply Z.leb_le | apply Z.ltb_lt]; unfold US_PER_DAY in *; lia. }
  rewrite (Z_div_of_decomp _ US_PER_DAY (ymd2ord y m dd - 1) t),
          (Z_mod_of_decomp _ US_PER_DAY (ymd2ord y m dd - 1) t) by lia.
  replace (ymd2ord y m dd - 1 + 1) with (ymd2ord y m dd) by lia.
  rewrite ord2ymd_ymd2ord by done. subst t.
  rewrite (Z_div_of_decomp _ 3600000000 h ((mi * 60 + s) * 1000000 + us)) by lia.
  rewrite (Z_div_of_decomp _ 60000000 (h * 60 + mi) (s * 1000000 + us)) by lia.
  rewrite (Z_mod_of_decomp (h * 60 + mi) 60 h mi) by lia.
  rewrite (Z_div_of_decomp _ 1000000 ((h * 60 + mi) * 60 + s) us) by lia.
  rewrite (Z_mod_of_decomp ((h * 60 + mi) * 60 + s) 60 (h * 60 + mi) s) by lia.
  rewrite (Z_mod_of_decomp _ 1000000 ((h * 60 + mi) * 60 + s) us) by lia.
  reflexivity.
Qed.

Lemma of_us_to_us d : valid_dt d = true → of_us (to_us d) = Ok d.
Proof. intros Hv. unfold of_us. destruct (dt_of_us_to_us d Hv) as [-> ->]. reflexivity. Qed.

Lemma of_us_Ok x d : of_us x = Ok d → to_us d = x ∧ valid_dt d = true ∧ in_range x = true.
Proof.
  unfold of_us. destruct (in_range x) eqn:Hr; [|discriminate].
  intros [= <-]. destruct (to_us_dt_of_us x Hr). auto.
Qed.

Lemma add_us_Ok d delta d' :
  add_us d delta = Ok d' → to_us d' = to_us d + delta ∧ valid_dt d' = true.
Proof. unfold add_us. intros H. apply of_us_Ok in H. tauto. Qed.

Lemma add_us_in_range d delta :
  in_range (to_us d + delta) = true → add_us d delta = Ok (dt_of_us (to_us d + delta)).
Proof. unfold add_us, of_us. by intros ->. Qed.

(** [weekday()] depends only on the day number of the instant. *)
Lemma weekday_to_us d :
  valid_dt d = true → weekday d = (to_us d / US_PER_DAY) mod 7.
Proof.
  intros Hv. unfold weekday, to_us.
  rewrite (Z_div_of_decomp _ US_PER_DAY (ymd2ord (year d) (month d) (day d) - 1)
             (((hour d * 60 + minute d) * 60 + second d) * 1000000 + microsecond d)).
  - replace (ymd2ord (year d) (month d) (day d) + 6)
      with (ymd2ord (year d) (month d) (day d) - 1 + 1 * 7) by lia.
    apply Z_mod_plus_full.
  - apply valid_dt_iff in Hv. unfold US_PER_DAY. lia.
  - lia.
Qed.

Lemma mk_datetime_Ok y m d hh mi ss us r :
  mk_datetime y m d hh mi ss us = Ok r ↔ r = mkDT y m d hh mi ss us ∧ valid_dt r = true.
Proof.
  unfold mk_datetime. destruct (valid_dt _) eqn:E; split.
  - intros [= <-]. auto.
  - by intros [-> _].
  - discriminate.
  - intros [-> ?]. congruence.
Qed.

Lemma in_range_intro x : 0 ≤ x < MAXORDINAL * US_PER_DAY → in_range x = true.
Proof. intros Hx. unfold in_range. apply andb_true_intro. rewrite Z.leb_le, Z.ltb_lt. lia. Qed.

(** Prove that an instant is representable from linear bounds. *)
Ltac solve_range :=
  apply in_range_intro; unfold days, US_PER_DAY, MAXORDINAL in *; lia.

(** ** Times of day *)

Lemma to_us_mod_day d :
  valid_dt d = true →
  to_us d mod US_PER_DAY = ((hour d * 60 + minute d) * 60 + second d) * 1000000 + microsecond d.
Proof.
  intros Hv. apply valid_dt_iff in Hv.
  unfold to_us. apply (Z_mod_of_decomp _ _ (ymd2ord (year d) (month d) (day d) - 1)).
  - unfold US_PER_DAY. lia.
  - lia.
Qed.

(** [replace(hour=h, minute=m, second=0, microsecond=0)] moves the instant
    to [h:m] of the same day. *)
Lemma replace_time_to_us d h m d' :
  valid_dt d = true → replace_time d h m = Ok d' → to_us d' = at_time (to_us d) h m.
Proof.
  intros Hv Hr. unfold replace_time in Hr. apply mk_datetime_Ok in Hr as [-> _].
  unfold at_time. rewrite to_us_mod_day by done. unfold to_us. simpl. lia.
Qed.

Lemma replace_time_valid d h m :
  valid_dt d = true → 0 ≤ h ≤ 23 → 0 ≤ m ≤ 59 →
  replace_time d h m = Ok (mkDT (year d) (month d) (day d) h m 0 0).
Proof.
  intros Hv Hh Hm. unfold replace_time, mk_datetime.
  rewrite (proj2 (valid_dt_iff _)); [reflexivity|].
  apply valid_dt_iff in Hv as (? & _).
  cbn [year month day hour minute second microsecond]. split; [done | lia].
Qed.

Lemma replace_time_invalid d h m :
  ¬ (0 ≤ h ≤ 23 ∧ 0 ≤ m ≤ 59) → replace_time d h m = Raise ValueError.
Proof.
  intros Hn. unfold replace_time, mk_datetime, valid_dt. simpl.
  destruct (valid_ymd _ _ _); simpl; [|done]. zbool; lia.
Qed.

Lemma at_time_add_days x k h m : at_time (x + days k) h m = at_time x h m + days k.
Proof.
  unfold at_time, days. rewrite Z_mod_plus_full. lia.
Qed.

(** [at_time x h m] lies in the day of [x]. *)
Lemma at_time_bounds x h m :
  0 ≤ h ≤ 23 → 0 ≤ m ≤ 59 →
  x - x mod US_PER_DAY ≤ at_time x h m < x - x mod US_PER_DAY + US_PER_DAY.
Proof. unfold at_time, US_PER_DAY. lia. Qed.

Lemma mod_day_bounds x : 0 ≤ x mod US_PER_DAY < US_PER_DAY.
Proof. apply Z.mod_pos_bound. unfold US_PER_DAY. lia. Qed.

(** [weekday()] of a decoded instant is its day number modulo 7. *)
Lemma weekday_dt_of_us x :
  in_range x = true → weekday (dt_of_us x) = (x / US_PER_DAY) mod 7.
Proof.
  intros Hr. destruct (to_us_dt_of_us x Hr) as [E V].
  rewrite weekday_to_us by done. by rewrite E.
Qed.

(** ** Order of instants *)

(** Two datetimes of the same date are less than a day apart. *)
Lemma to_us_same_date a b :
  valid_dt a = true → valid_dt b = true →
  year a = year b → month a = month b → day a = day b →
  to_us a < to_us b + US_PER_DAY.
Proof.
  intros Va Vb Ey Em Ed. apply valid_dt_iff in Va, Vb.
  unfold to_us. rewrite Ey, Em, Ed. unfold US_PER_DAY. lia.
Qed.

Lemma days_before_year_succ y :
  1 ≤ y → days_before_year (y + 1) = days_before_year y + 365 + leap_adj (is_leap y).
Proof.
  intros Hy. destruct (year_cycles y) as (a & b & c & d & -> & Ha & Hb & Hc & Hd); [lia|].
  rewrite days_before_year_cycles, is_leap_cycles by lia.
  destruct (decide (d = 3)) as [->|Hd3].
  - destruct (decide (c = 24)) as [->|Hc24].
    + destruct (decide (b = 3)) as [->|Hb3].
      * replace (400 * a + 100 * 3 + 4 * 24 + 3 + 1 + 1) with (400 * (a + 1) + 100 * 0 + 4 * 0 + 0 + 1) by lia.
        rewrite days_before_year_cycles by lia. zbool; lia.
      * replace (400 * a + 100 * b + 4 * 24 + 3 + 1 + 1) with (400 * a + 100 * (b + 1) + 4 * 0 + 0 + 1) by lia.
        rewrite days_before_year_cycles by lia. zbool; lia.
    + replace (400 * a + 100 * b + 4 * c + 3 + 1 + 1) with (400 * a + 100 * b + 4 * (c + 1) + 0 + 1) by lia.
      rewrite days_before_year_cycles by lia. zbool; lia.
  - replace (400 * a + 100 * b + 4 * c + d + 1 + 1) with (400 * a + 100 * b + 4 * c + (d + 1) + 1) by lia.
    rewrite days_before_year_cycles by lia. zbool; lia.
Qed.

Lemma days_before_year_mono y k :
  1 ≤ y → 0 ≤ k → days_before_year y + 365 * k ≤ days_before_year (y + k).
Proof.
  intros Hy Hk. rewrite <- (Z2Nat.id k Hk). induction (Z.to_nat k) as [|n IH].
  - cbn [Z.of_nat]. rewrite !Z.add_0_r. lia.
  - rewrite Nat2Z.inj_succ. replace (y + Z.succ (Z.of_nat n)) with (y + Z.of_nat n + 1) by lia.
    rewrite days_before_year_succ by lia.
    pose proof (leap_adj_bound (is_leap (y + Z.of_nat n))). lia.
Qed.

(** Every date of a year comes before every date of a later year. *)
Lemma ymd2ord_year_lt y m d y' m' d' :
  valid_ymd y m d = true → valid_ymd y' m' d' = true → y < y' →
  ymd2ord y m d < ymd2ord y' m' d'.
Proof.
  intros V V' Hlt. apply valid_ymd_iff in V, V'.
  pose proof (day_of_year_bound y m d ltac:(lia) ltac:(lia)).
  pose proof (day_of_year_bound y' m' d' ltac:(lia) ltac:(lia)).
  pose proof (days_before_year_succ y ltac:(lia)).
  pose proof (days_before_year_mono (y + 1) (y' - (y + 1)) ltac:(lia) ltac:(lia)).
  replace (y + 1 + (y' - (y + 1))) with y' in * by lia.
  unfold ymd2ord. lia.
Qed.

Lemma to_us_year_lt a b :
  valid_dt a = true → valid_dt b = true → year a < year b → to_us a < to_us b.
Proof.
  intros Va Vb Hlt.
  pose proof (ymd2ord_year_lt _ _ _ _ _ _ (proj1 (proj1 (valid_dt_iff a) Va))
                (proj1 (proj1 (valid_dt_iff b) Vb)) Hlt).
  apply valid_dt_iff in Va, Vb. unfold to_us, US_PER_DAY. lia.
Qed.

Lemma weekday_bound d : 0 ≤ weekday d < 7.
Proof. unfold weekday. apply Z.mod_pos_bound. lia. Qed.
