(* ===== verification/Strtime.v ===== *)
(** * Strtime: [strftime] and [strptime] with the format ["%Y%m%d%H%M"]

    [save_tasks] writes [schedule_time_utc] with
    [dt.strftime("%Y%m%d%H%M")] and [_load_tasks] reads it back with
    [datetime.strptime(s, "%Y%m%d%H%M")].  This file gives these two
    library functions for that one format:
    - [strftime_YmdHM] writes the year on four digits and the other fields
      on two, zero-padded (CPython pads [%Y] to four digits);
    - [strptime_YmdHM] follows CPython's [_strptime]: the format becomes the
      regular expression [(\d\d\d\d)(1[0-2]|0[1-9]|[1-9])(3[01]|[12]\d|0[1-9]|[1-9]| [1-9])(2[0-3]|[0-1]\d|\d)([0-5]\d|\d)],
      [re.match] takes the first match in backtracking order ([match_dirs]
      lists all matches in that order), text left after the match raises
      [ValueError], the groups go through [int()] and the date through the
      [datetime] constructor (an impossible date raises [ValueError]).
    The result of this file is the round trip [strptime_strftime]. *)

From S2P Require Import Prelude PyStr Calendar.
Local Open Scope Z_scope.

(** ** [strftime] *)

Definition digit_char (n : Z) : ascii := Ascii.ascii_of_nat (48 + Z.to_nat n).

Definition fmt2 (n : Z) : string :=
  String (digit_char (n / 10)) (String (digit_char (n mod 10)) EmptyString).

Definition fmt4 (n : Z) : string := fmt2 (n / 100) +:+ fmt2 (n mod 100).

Definition strftime_YmdHM (d : datetime) : string :=
  fmt4 (year d) +:+ fmt2 (month d) +:+ fmt2 (day d) +:+ fmt2 (hour d) +:+ fmt2 (minute d).

(** ** [strptime]: the regular expression of the format *)

(** One character of a pattern: [\d], a range [[lo-hi]], or a literal. *)
Inductive cclass :=
  | CDigit
  | CRange (lo hi : ascii)
  | CChar (c : ascii).

Definition cclass_matches (k : cclass) (c : ascii) : bool :=
  let n := Ascii.nat_of_ascii c in
  match k with
  | CDigit => ((48 <=? n) && (n <=? 57))%nat
  | CRange lo hi => ((Ascii.nat_of_ascii lo <=? n) && (n <=? Ascii.nat_of_ascii hi))%nat
  | CChar c' => Ascii.eqb c c'
  end.

(** One alternative of a group: a fixed sequence of characters. *)
Fixpoint match_alt (a : list cclass) (s : string) : option (string * string) :=
  match a, s with
  | [], _ => Some (EmptyString, s)
  | k :: a', String c s' =>
      if cclass_matches k c then
        match match_alt a' s' with
        | Some (g, rest) => Some (String c g, rest)
        | None => None
        end
      else None
  | _ :: _, EmptyString => None
  end.

(** Every way the groups [ds] match a prefix of [s], in the order a
    backtracking matcher tries them: the first is [re.match]'s. *)
Fixpoint match_dirs (ds : list (list (list cclass))) (s : string)
    : list (list string * string) :=
  match ds with
  | [] => [([], s)]
  | d :: ds' =>
      flat_map (λ a,
        match match_alt a s with
        | Some (g, rest) => map (λ '(gs, r), (g :: gs, r)) (match_dirs ds' rest)
        | None => []
        end) d
  end.

Definition RE_Y : list (list cclass) := [[CDigit; CDigit; CDigit; CDigit]].
Definition RE_m : list (list cclass) :=
  [[CChar "1"; CRange "0" "2"]; [CChar "0"; CRange "1" "9"]; [CRange "1" "9"]].
Definition RE_d : list (list cclass) :=
  [[CChar "3"; CRange "0" "1"]; [CRange "1" "2"; CDigit]; [CChar "0"; CRange "1" "9"];
   [CRange "1" "9"]; [CChar " "; CRange "1" "9"]].
Definition RE_H : list (list cclass) :=
  [[CChar "2"; CRange "0" "3"]; [CRange "0" "1"; CDigit]; [CDigit]].
Definition RE_M : list (list cclass) := [[CRange "0" "5"; CDigit]; [CDigit]].

Definition RE_YmdHM := [RE_Y; RE_m; RE_d; RE_H; RE_M].

Definition strptime_groups (gs : list string) : Res datetime :=
  match gs with
  | [y; m; d; h; mi] =>
      y ← py_int y; m ← py_int m; d ← py_int d; h ← py_int h; mi ← py_int mi;
      mk_datetime y m d h mi 0 0
  | _ => Raise ValueError
  end.

(** [datetime.strptime(s, "%Y%m%d%H%M")]. *)
Definition strptime_YmdHM (s : string) : Res datetime :=
  match match_dirs RE_YmdHM s with
  | (gs, rest) :: _ => if String.eqb rest "" then strptime_groups gs else Raise ValueError
  | [] => Raise ValueError
  end.

Example strptime_ex1 : strptime_YmdHM "202611091430" = Ok (mkDT 2026 11 9 14 30 0 0).
Proof. reflexivity. Qed.

(** A short string still matches by taking one-digit alternatives. *)
Example strptime_ex2 : strptime_YmdHM "2026119930" = Ok (mkDT 2026 11 9 9 30 0 0).
Proof. reflexivity. Qed.

Example strptime_ex3 : strptime_YmdHM "202602300000" = Raise ValueError.
Proof. reflexivity. Qed.

(** ** The round trip [strptime (strftime d)] *)

Lemma digit_char_props k :
  0 ≤ k ≤ 9 →
  digit_value (digit_char k) = Some k ∧ py_isspace (digit_char k) = false ∧
  Ascii.eqb (digit_char k) "-" = false ∧ Ascii.eqb (digit_char k) "+" = false ∧
  cclass_matches CDigit (digit_char k) = true.
Proof. intros Hk. enum_range k 0 10 ltac:(vm_compute; repeat split). Qed.

Lemma two_digits x : 0 ≤ x ≤ 99 → 0 ≤ x / 10 ≤ 9 ∧ 0 ≤ x mod 10 ≤ 9 ∧ x = 10 * (x / 10) + x mod 10.
Proof. intros Hx. destruct (Z_divmod_facts x 10) as [E B]; [lia|]. lia. Qed.

Lemma four_digits y : 0 ≤ y ≤ 9999 → 0 ≤ y / 100 ≤ 99 ∧ 0 ≤ y mod 100 ≤ 99 ∧ y = 100 * (y / 100) + y mod 100.
Proof. intros Hy. destruct (Z_divmod_facts y 100) as [E B]; [lia|]. lia. Qed.

(** The groups of the format, each on its two digits: the first
    alternative that matches the two digits exactly comes first. *)
Definition match_prefix (ds : list (list (list cclass))) (D : list (list cclass)) (g rest : string) :=
  ∃ X, match_dirs (D :: ds) (g +:+ rest) = map (λ '(gs, r), (g :: gs, r)) (match_dirs ds rest) ++ X.

Lemma RE_m_fmt2 ds rest v : 1 ≤ v ≤ 12 → match_prefix ds RE_m (fmt2 v) rest.
Proof. intros Hv. enum_range v 1 12 ltac:(eexists; simpl; reflexivity). Qed.

Lemma RE_d_fmt2 ds rest v : 1 ≤ v ≤ 31 → match_prefix ds RE_d (fmt2 v) rest.
Proof. intros Hv. enum_range v 1 31 ltac:(eexists; simpl; reflexivity). Qed.

Lemma RE_H_fmt2 ds rest v : 0 ≤ v ≤ 23 → match_prefix ds RE_H (fmt2 v) rest.
Proof. intros Hv. enum_range v 0 24 ltac:(eexists; simpl; reflexivity). Qed.

Lemma RE_M_fmt2 ds rest v : 0 ≤ v ≤ 59 → match_prefix ds RE_M (fmt2 v) rest.
Proof. intros Hv. enum_range v 0 60 ltac:(eexists; simpl; reflexivity). Qed.

Lemma RE_Y_fmt4 ds rest y :
  0 ≤ y ≤ 9999 →
  match_dirs (RE_Y :: ds) (fmt4 y +:+ rest) = map (λ '(gs, r), (fmt4 y :: gs, r)) (match_dirs ds rest).
Proof.
  intros Hy. destruct (four_digits y Hy) as (B1 & B2 & _).
  destruct (two_digits _ B1) as (B3 & B4 & _). destruct (two_digits _ B2) as (B5 & B6 & _).
  destruct (digit_char_props _ B3) as (_ & _ & _ & _ & C1).
  destruct (digit_char_props _ B4) as (_ & _ & _ & _ & C2).
  destruct (digit_char_props _ B5) as (_ & _ & _ & _ & C3).
  destruct (digit_char_props _ B6) as (_ & _ & _ & _ & C4).
  change (fmt4 y +:+ rest) with
    (String (digit_char (y / 100 / 10)) (String (digit_char (y / 100 mod 10))
      (String (digit_char (y mod 100 / 10)) (String (digit_char (y mod 100 mod 10)) rest)))).
  cbn [match_dirs flat_map RE_Y match_alt].
  rewrite C1, C2, C3, C4. cbn. by rewrite app_nil_r.
Qed.

Lemma match_dirs_strftime d :
  valid_dt d = true →
  ∃ X, match_dirs RE_YmdHM (strftime_YmdHM d) =
       ([fmt4 (year d); fmt2 (month d); fmt2 (day d); fmt2 (hour d); fmt2 (minute d)], "") :: X.
Proof.
  intros V. apply valid_dt_iff in V as (Vymd & Hh & Hmi & _).
  apply valid_ymd_iff in Vymd as (Y & M & D).
  pose proof (dim_adj_le (month d) (is_leap (year d))). rewrite <- days_in_month_adj in *.
  unfold RE_YmdHM, strftime_YmdHM. unfold MAXYEAR in Y.
  rewrite RE_Y_fmt4 by lia.
  destruct (RE_m_fmt2 [RE_d; RE_H; RE_M]
              (fmt2 (day d) +:+ fmt2 (hour d) +:+ fmt2 (minute d)) (month d)) as [X1 ->]; [lia|].
  destruct (RE_d_fmt2 [RE_H; RE_M] (fmt2 (hour d) +:+ fmt2 (minute d)) (day d)) as [X2 ->]; [lia|].
  destruct (RE_H_fmt2 [RE_M] (fmt2 (minute d)) (hour d)) as [X3 ->]; [lia|].
  destruct (RE_M_fmt2 [] "" (minute d)) as [X4 HX4]; [lia|].
  change (fmt2 (minute d) +:+ "") with (fmt2 (minute d)) in HX4. rewrite HX4.
  eexists. simpl. reflexivity.
Qed.

Lemma py_int_fmt2 v : 0 ≤ v ≤ 99 → py_int (fmt2 v) = Ok v.
Proof. intros Hv. enum_range v 0 100 ltac:(vm_compute; reflexivity). Qed.

Lemma py_int_fmt4 y : 0 ≤ y ≤ 9999 → py_int (fmt4 y) = Ok y.
Proof.
  intros Hy. destruct (four_digits y Hy) as (B1 & B2 & E).
  destruct (two_digits _ B1) as (B3 & B4 & E1). destruct (two_digits _ B2) as (B5 & B6 & E2).
  destruct (digit_char_props _ B3) as (V1 & S1 & M1 & P1 & _).
  destruct (digit_char_props _ B4) as (V2 & S2 & _ & _ & _).
  destruct (digit_char_props _ B5) as (V3 & S3 & _ & _ & _).
  destruct (digit_char_props _ B6) as (V4 & S4 & _ & _ & _).
  change (fmt4 y) with
    (String (digit_char (y / 100 / 10)) (String (digit_char (y / 100 mod 10))
      (String (digit_char (y mod 100 / 10)) (String (digit_char (y mod 100 mod 10)) "")))).
  unfold py_int. rewrite strip_no_space.
  2:{ cbn [all_chars compose]. by rewrite S1, S2, S3, S4. }
  cbv beta iota. rewrite M1, P1.
  unfold digits. cbn [digits_go]. rewrite V1, V2, V3, V4. cbn. f_equal. lia.
Qed.

(** Reading back what [save_tasks] writes gives the datetime at minute
    precision: seconds and microseconds are lost, nothing else. *)
Lemma strptime_strftime d :
  valid_dt d = true → 1000 ≤ year d →
  strptime_YmdHM (strftime_YmdHM d) = Ok (mkDT (year d) (month d) (day d) (hour d) (minute d) 0 0).
Proof.
  intros V Hy. unfold strptime_YmdHM. destruct (match_dirs_strftime d V) as [X ->].
  pose proof V as V'. apply valid_dt_iff in V' as (Vymd & Hh & Hmi & _).
  apply valid_ymd_iff in Vymd as (Y & M & D).
  pose proof (dim_adj_le (month d) (is_leap (year d))). rewrite <- days_in_month_adj in *.
  unfold MAXYEAR in Y. cbn [String.eqb]. unfold strptime_groups.
  rewrite py_int_fmt4, !py_int_fmt2 by lia. res_step.
  apply mk_datetime_Ok. split; [done|]. apply valid_dt_iff in V as (Vymd & _).
  apply valid_dt_iff. simpl. split; [done | lia].
Qed.

(** Whatever [strptime] accepts is a valid datetime at a whole minute. *)
Lemma strptime_valid s d : strptime_YmdHM s = Ok d → valid_dt d = true ∧ second d = 0 ∧ microsecond d = 0.
Proof.
  unfold strptime_YmdHM. destruct (match_dirs RE_YmdHM s) as [|[gs rest] _]; [discriminate|].
  destruct (String.eqb rest ""); [|discriminate].
  unfold strptime_groups. destruct gs as [|y [|m [|dd [|h [|mi [|]]]]]]; try discriminate.
  intros H. repeat (apply bind_eq_Ok in H as (? & _ & H)).
  apply mk_datetime_Ok in H as [-> V]. auto.
Qed.
