(* ===== verification/Zone.v ===== *)
(** * Zone: pytz time zones and aware datetimes

    [src/chronoreply.py] obtains zones with [pytz.timezone(name)] and uses
    them only through [datetime.now(tz)], arithmetic and [replace] on the
    resulting aware datetimes, comparisons, and [astimezone(pytz.utc)].
    pytz behaves as follows, and so does this model:
    - a zone is a sorted list of UTC transition instants with the UTC offset
      that starts at each ([_utc_transition_times], [_transition_info]);
      [offset_at] is pytz's [bisect_right] lookup;
    - [datetime.now(tz)] is [tz.fromutc(utc_now)]: the wall clock
      [utc + offset] tagged with a tzinfo that carries that one fixed offset;
    - [replace] and [+ timedelta] keep that tzinfo, hence that offset, even
      when the result lies across a transition (pytz only re-derives the
      offset in [normalize], which the source never calls);
    - comparison of aware datetimes compares the UTC instants;
    - [astimezone(pytz.utc)] subtracts the carried offset.
    The zone database [pytz.timezone] is the class [TzDatabase]; a name it
    does not know raises [UnknownTimeZoneError]. *)

From S2P Require Import Prelude Calendar.
Local Open Scope Z_scope.

(** ** Zones *)

Record zone := mkZone {
  z_initial : Z;                (** offset in microseconds before any transition *)
  z_transitions : list (Z * Z)  (** (UTC instant, offset from then on), sorted *)
}.

Definition offset_at (z : zone) (u : Z) : Z :=
  fold_left (λ acc '(t, o), if t <=? u then o else acc) (z_transitions z) (z_initial z).

Definition fixed_zone (o : Z) : zone := mkZone o [].

(** [pytz.utc]. *)
Definition utc_zone : zone := fixed_zone 0.

(** The zone database behind [pytz.timezone(name)]. *)
Class TzDatabase := tz_lookup : string → option zone.

Definition pytz_timezone `{TzDatabase} (name : string) : Res zone :=
  match tz_lookup name with Some z => Ok z | None => Raise UnknownTimeZoneError end.

(** ** Aware datetimes with a pytz tzinfo *)

Record aware := mkAware {
  naive : datetime;   (** the wall-clock fields *)
  off : Z             (** the fixed offset carried by the tzinfo *)
}.

#[export] Instance aware_eq_dec : EqDecision aware.
Proof. solve_decision. Defined.

(** The UTC instant an aware datetime denotes. *)
Definition aware_us (a : aware) : Z := to_us (naive a) - off a.

(** [a <= b] between aware datetimes. *)
Definition aware_le (a b : aware) : bool := aware_us a <=? aware_us b.

(** [datetime.now(tz)] at the UTC instant [u]. *)
Definition now_in (z : zone) (u : Z) : Res aware :=
  let o := offset_at z u in
  n ← of_us (u + o); mret (mkAware n o).

(** [a + timedelta(...)]: the tzinfo, hence the offset, is kept. *)
Definition add_aware (a : aware) (delta : Z) : Res aware :=
  n ← add_us (naive a) delta; mret (mkAware n (off a)).

(** [a.replace(hour=h, minute=m, second=0, microsecond=0)]. *)
Definition replace_time_aware (a : aware) (h m : Z) : Res aware :=
  n ← replace_time (naive a) h m; mret (mkAware n (off a)).

(** [a.replace(day=d, month=m, year=y, hour=h, minute=mi, second=0,
    microsecond=0)]. *)
Definition replace_all_aware (a : aware) (y m d h mi : Z) : Res aware :=
  n ← mk_datetime y m d h mi 0 0; mret (mkAware n (off a)).

(** [a.replace(year=y)]. *)
Definition replace_year_aware (a : aware) (y : Z) : Res aware :=
  let n := naive a in
  n' ← mk_datetime y (month n) (day n) (hour n) (minute n) (second n) (microsecond n);
  mret (mkAware n' (off a)).

(** [a.astimezone(pytz.utc)]. *)
Definition astimezone_utc (a : aware) : Res aware :=
  n ← of_us (to_us (naive a) - off a); mret (mkAware n 0).

(** [a.astimezone(tz)] for a pytz zone: [tz.fromutc] at the instant [a]
    denotes, as [datetime.now(tz)] at that instant. *)
Definition astimezone_zone (z : zone) (a : aware) : Res aware := now_in z (aware_us a).

(** ** Lemmas *)

Lemma offset_at_fixed o u : offset_at (fixed_zone o) u = o.
Proof. reflexivity. Qed.

Lemma now_in_Ok z u a :
  now_in z u = Ok a →
  aware_us a = u ∧ off a = offset_at z u ∧ valid_dt (naive a) = true.
Proof.
  unfold now_in. intros H. res_inv. subst a.
  match goal with H : of_us _ = Ok _ |- _ => apply of_us_Ok in H as (? & ? & _) end.
  unfold aware_us. cbn [naive off]. split; [lia | auto].
Qed.

Lemma now_in_in_range z u :
  in_range (u + offset_at z u) = true →
  now_in z u = Ok (mkAware (dt_of_us (u + offset_at z u)) (offset_at z u)).
Proof. unfold now_in, of_us. by intros ->. Qed.

Lemma add_aware_Ok a delta b :
  add_aware a delta = Ok b →
  aware_us b = aware_us a + delta ∧ off b = off a ∧ valid_dt (naive b) = true.
Proof.
  unfold add_aware. intros H. res_inv. subst b.
  match goal with H : add_us _ _ = Ok _ |- _ => apply add_us_Ok in H as [? ?] end.
  unfold aware_us. cbn [naive off]. split; [lia | auto].
Qed.

Lemma add_aware_in_range a delta :
  in_range (to_us (naive a) + delta) = true →
  add_aware a delta = Ok (mkAware (dt_of_us (to_us (naive a) + delta)) (off a)).
Proof. intros H. unfold add_aware. by rewrite add_us_in_range. Qed.

Lemma replace_time_aware_Ok a h m b :
  replace_time_aware a h m = Ok b ↔
  b = mkAware (mkDT (year (naive a)) (month (naive a)) (day (naive a)) h m 0 0) (off a) ∧
  valid_dt (naive b) = true.
Proof.
  unfold replace_time_aware, replace_time. rewrite bind_eq_Ok. split.
  - intros (n & Hn%mk_datetime_Ok & [= <-]). destruct Hn as [-> ?]. auto.
  - intros [-> Hv]. eexists; split; [apply mk_datetime_Ok; auto | reflexivity].
Qed.

Lemma astimezone_utc_Ok a b :
  astimezone_utc a = Ok b → aware_us b = aware_us a ∧ off b = 0 ∧ valid_dt (naive b) = true.
Proof.
  unfold astimezone_utc. intros H. res_inv. subst b.
  match goal with H : of_us _ = Ok _ |- _ => apply of_us_Ok in H as (? & ? & _) end.
  unfold aware_us. cbn [naive off]. split; [lia | auto].
Qed.

Lemma astimezone_utc_in_range a :
  in_range (aware_us a) = true →
  astimezone_utc a = Ok (mkAware (dt_of_us (aware_us a)) 0).
Proof. unfold astimezone_utc, of_us, aware_us. by intros ->. Qed.

(** Each operation succeeds when its result is representable, with the
    instant it is expected to have. *)
Lemma now_in_ok z u :
  in_range (u + offset_at z u) = true →
  ∃ a, now_in z u = Ok a ∧ to_us (naive a) = u + offset_at z u ∧
       off a = offset_at z u ∧ valid_dt (naive a) = true.
Proof.
  intros Hr. rewrite now_in_in_range by done. eexists; split; [reflexivity|].
  destruct (to_us_dt_of_us _ Hr). auto.
Qed.

Lemma add_aware_ok a delta :
  in_range (to_us (naive a) + delta) = true →
  ∃ b, add_aware a delta = Ok b ∧ to_us (naive b) = to_us (naive a) + delta ∧
       off b = off a ∧ valid_dt (naive b) = true.
Proof.
  intros Hr. rewrite add_aware_in_range by done. eexists; split; [reflexivity|].
  destruct (to_us_dt_of_us _ Hr). auto.
Qed.

Lemma replace_time_aware_ok a h m :
  valid_dt (naive a) = true → 0 ≤ h ≤ 23 → 0 ≤ m ≤ 59 →
  ∃ b, replace_time_aware a h m = Ok b ∧ to_us (naive b) = at_time (to_us (naive a)) h m ∧
       off b = off a ∧ valid_dt (naive b) = true ∧ second (naive b) = 0 ∧ microsecond (naive b) = 0.
Proof.
  intros Hv Hh Hm. unfold replace_time_aware.
  pose proof (replace_time_valid _ _ _ Hv Hh Hm) as Hr. rewrite Hr. simpl.
  eexists; split; [reflexivity|]. simpl.
  split; [by apply (replace_time_to_us (naive a) h m)|].
  split; [done|]. split; [|auto].
  apply valid_dt_iff in Hv as (? & _). apply valid_dt_iff. simpl. split; [done | lia].
Qed.

Lemma replace_time_aware_bad a h m :
  ¬ (0 ≤ h ≤ 23 ∧ 0 ≤ m ≤ 59) → replace_time_aware a h m = Raise ValueError.
Proof. intros Hn. unfold replace_time_aware. by rewrite replace_time_invalid. Qed.

Lemma astimezone_utc_ok a :
  in_range (aware_us a) = true →
  ∃ b, astimezone_utc a = Ok b ∧ aware_us b = aware_us a ∧ off b = 0 ∧ valid_dt (naive b) = true.
Proof.
  intros Hr. rewrite astimezone_utc_in_range by done. eexists; split; [reflexivity|].
  destruct (to_us_dt_of_us _ Hr). unfold aware_us at 1. simpl. split; [lia | auto].
Qed.

(** Comparison of aware datetimes carrying the same offset is comparison
    of their wall clocks. *)
Lemma aware_le_same_off a b :
  off a = off b → aware_le a b = (to_us (naive a) <=? to_us (naive b)).
Proof.
  intros E. unfold aware_le, aware_us. rewrite E.
  destruct (Z.leb_spec (to_us (naive a) - off b) (to_us (naive b) - off b));
    destruct (Z.leb_spec (to_us (naive a)) (to_us (naive b))); lia.
Qed.

Lemma replace_all_aware_Ok a y m d h mi b :
  replace_all_aware a y m d h mi = Ok b ↔
  b = mkAware (mkDT y m d h mi 0 0) (off a) ∧ valid_dt (naive b) = true.
Proof.
  unfold replace_all_aware. rewrite bind_eq_Ok. split.
  - intros (n & Hn%mk_datetime_Ok & [= <-]). destruct Hn as [-> ?]. auto.
  - intros [-> Hv]. eexists; split; [apply mk_datetime_Ok; auto | reflexivity].
Qed.

Lemma replace_year_aware_Ok a y b :
  replace_year_aware a y = Ok b →
  year (naive b) = y ∧ off b = off a ∧ valid_dt (naive b) = true.
Proof.
  unfold replace_year_aware. intros H. res_inv. subst b.
  match goal with H : mk_datetime _ _ _ _ _ _ _ = Ok _ |- _ => apply mk_datetime_Ok in H as [-> ?] end.
  auto.
Qed.
