(* ===== verification/PyVal.v ===== *)
(** * PyVal: the Python values and dicts a task is made of

    A task of [src/chronoreply.py] is a Python [dict] with string keys
    ([id], [user_id], [channel_id], [content], [repeat_type],
    [repeat_value], [repeat_day], [schedule_time_utc], [timezone]), loaded
    from JSON or built by the command layer.  Its values are [None],
    booleans, integers, strings, and, for [schedule_time_utc] once loaded,
    an aware [datetime].  The dict is a stdpp [gmap string PyVal]:
    - [d[k]] is [getitem], which raises [KeyError] on a missing key;
    - [d.get(k)] is [dget], [None] on a missing key;
    - calling a [str] method on a value that is not a string raises
      [AttributeError] ([as_str]);
    - [==] is [py_eq] ([True == 1] and [False == 0] in Python, and aware
      datetimes are equal when they denote the same instant);
    - truth tests ([if x:]) are [truthy]. *)

From S2P Require Import Prelude Calendar Zone.
Local Open Scope Z_scope.

Inductive PyVal :=
  | PNone
  | PBool (b : bool)
  | PInt (z : Z)
  | PStr (s : string)
  | PDateTime (a : aware).

#[export] Instance PyVal_eq_dec : EqDecision PyVal.
Proof. solve_decision. Defined.

Abbreviation dict := (gmap string PyVal).

Definition getitem (d : dict) (k : string) : Res PyVal :=
  match d !! k with Some v => Ok v | None => Raise KeyError end.

Definition dget (d : dict) (k : string) : PyVal :=
  match d !! k with Some v => v | None => PNone end.

Definition as_str (v : PyVal) : Res string :=
  match v with PStr s => Ok s | _ => Raise AttributeError end.

Definition int_of_bool (b : bool) : Z := if b then 1 else 0.

Definition py_eq (a b : PyVal) : bool :=
  match a, b with
  | PNone, PNone => true
  | PBool x, PBool y => Bool.eqb x y
  | PInt x, PInt y => x =? y
  | PBool x, PInt y | PInt y, PBool x => int_of_bool x =? y
  | PStr x, PStr y => String.eqb x y
  | PDateTime x, PDateTime y => aware_us x =? aware_us y
  | _, _ => false
  end.

Definition truthy (v : PyVal) : bool :=
  match v with
  | PNone => false
  | PBool b => b
  | PInt z => negb (z =? 0)
  | PStr s => negb (String.eqb s "")
  | PDateTime _ => true
  end.

Lemma getitem_Ok d k v : getitem d k = Ok v ↔ d !! k = Some v.
Proof. unfold getitem. destruct (d !! k); split; congruence. Qed.

Lemma py_eq_refl v : py_eq v v = true.
Proof. destruct v; cbn; [done | by destruct b | apply Z.eqb_refl | apply String.eqb_refl | apply Z.eqb_refl]. Qed.

Lemma py_eq_sym a b : py_eq a b = py_eq b a.
Proof. destruct a, b; cbn; try done; [by destruct b0, b | apply Z.eqb_sym | apply String.eqb_sym | apply Z.eqb_sym]. Qed.

Lemma py_eq_str s t : py_eq (PStr s) (PStr t) = true ↔ s = t.
Proof. simpl. apply String.eqb_eq. Qed.

Lemma as_str_PStr s : as_str (PStr s) = Ok s.
Proof. reflexivity. Qed.

#[export] Hint Rewrite as_str_PStr : chrono_rw.

Lemma dget_lookup d k v : dget d k = v → v ≠ PNone → d !! k = Some v.
Proof. unfold dget. destruct (d !! k); congruence. Qed.

Lemma dget_insert d k v : dget (<[k:=v]> d) k = v.
Proof. unfold dget. by rewrite lookup_insert_eq. Qed.
