(* ===== verification/Store.v ===== *)
(** * Store: the task file, [_load_tasks] and [save_tasks]

    [ChronoReply._load_tasks] (src/chronoreply.py, lines 130-148) reads
    [TASK_FILE] with [json.load], converts each stored
    ["schedule_time_utc"] string back to an aware UTC datetime with
    [strptime("%Y%m%d%H%M")], and keeps the tasks whose schedule is truthy;
    [ChronoReply.save_tasks] (lines 150-162) does the converse and rewrites
    the file with [open(TASK_FILE, "w")] and [json.dump].

    The file is [option file_content]: absent, or text that is a JSON
    document or is not JSON at all (the empty file left by the truncation
    of [open(..., "w")] is such text).  A JSON document is a list whose
    items are objects ([JDict]) or anything else ([JNonDict]), or another
    JSON value.  Object values are the scalar [PyVal]s; nested arrays and
    objects are not modelled as values (they only matter as items, where
    they are [JNonDict]).  [save_tasks] returns the successive contents it
    gives the file, so that a reader or a crash between two writes can be
    stated. *)

From S2P Require Import Prelude PyStr Calendar Strtime Zone PyVal.
Local Open Scope Z_scope.

Inductive json_item :=
  | JDict (d : dict)
  | JNonDict.

Inductive json_doc :=
  | JArray (items : list json_item)
  | JOther.

Inductive file_content :=
  | FJson (doc : json_doc)
  | FGarbage.

Definition SCHED : string := "schedule_time_utc".

(** ** [_load_tasks] *)

(** [datetime.strptime(v, "%Y%m%d%H%M").replace(tzinfo=pytz.utc)], a
    [TypeError] when [v] is not a string. *)
Definition parse_schedule (v : PyVal) : Res PyVal :=
  s ← match v with PStr s => Ok s | _ => Raise TypeError end;
  d ← strptime_YmdHM s;
  mret (PDateTime (mkAware d 0)).

(** Lines 139-145, for a task that is a dict. *)
Definition load_convert (task : dict) : dict :=
  if truthy (dget task SCHED) then
    <[SCHED := try! (parse_schedule (dget task SCHED)) except PNone]> task
  else task.

(** Lines 138-139: [task.get] raises [AttributeError] on an item that is not
    a dict. *)
Definition load_item (it : json_item) : Res dict :=
  match it with JDict d => Ok (load_convert d) | JNonDict => Raise AttributeError end.

(** Line 146: [t["schedule_time_utc"]] raises [KeyError] on a missing key. *)
Definition keep_task (t : dict) : Res bool :=
  v ← getitem t SCHED; mret (truthy v).

Definition load_items (items : list json_item) : Res (list dict) :=
  ds ← res_mapM load_item items; res_filterM keep_task ds.

(** The whole function.  Every JSON value other than a list gives [[]]:
    iterating a number or [null] raises [TypeError], the items of a string
    or the keys of an object have no [.get], and an empty string or object
    yields an empty comprehension. *)
Definition load_tasks (f : option file_content) : list dict :=
  match f with
  | None => []
  | Some FGarbage => []
  | Some (FJson JOther) => []
  | Some (FJson (JArray items)) => try! (load_items items) except []
  end.

(** ** [save_tasks] *)

(** Lines 154-158 for one task. *)
Definition serialize_task (task : dict) : Res dict :=
  if truthy (dget task SCHED) then
    match dget task SCHED with
    | PDateTime a => u ← astimezone_utc a; mret (<[SCHED := PStr (strftime_YmdHM (naive u))]> task)
    | _ => Raise AttributeError
    end
  else mret task.

Definition json_scalar (v : PyVal) : bool :=
  match v with PDateTime _ => false | _ => true end.

(** [json.dump]: a datetime is not JSON serializable. *)
Definition json_dump (ts : list dict) : Res json_doc :=
  if bool_decide (Forall (λ t : dict, map_Forall (λ _ v, json_scalar v = true) t) ts)
  then Ok (JArray (map JDict ts)) else Raise TypeError.

(** The contents [TASK_FILE] takes, in order, and how the call ends.  An
    exception while serializing comes before [open] and leaves the file
    alone; [open(TASK_FILE, "w")] empties it; [json.dump] then writes the
    document, or stops part-way with a [TypeError]. *)
Definition save_tasks (tasks : list dict) : list file_content * Res unit :=
  match res_mapM serialize_task tasks with
  | Raise e => ([], Raise e)
  | Ok ser =>
      match json_dump ser with
      | Ok doc => ([FGarbage; FJson doc], Ok tt)
      | Raise e => ([FGarbage; FGarbage], Raise e)
      end
  end.

(** The file after a sequence of writes. *)
Definition after_writes (old : option file_content) (ws : list file_content) : option file_content :=
  last (old :: map Some ws) ≫= id.

(** ** Tasks the store reproduces *)

(** A schedule written by the program: an aware UTC datetime at a whole
    minute, in a year [strftime("%Y")] prints with four digits. *)
Definition storable_sched (v : PyVal) : bool :=
  match v with
  | PDateTime a =>
      (off a =? 0) && valid_dt (naive a) && (1000 <=? year (naive a)) &&
      (second (naive a) =? 0) && (microsecond (naive a) =? 0)
  | _ => false
  end.

Definition storable (t : dict) : bool :=
  storable_sched (dget t SCHED) &&
  bool_decide (map_Forall (λ k v, k = SCHED ∨ json_scalar v = true) t).

(** A task as the program builds it: owner and id present, a UTC
    schedule (as [parse_time_input] and [_calculate_next_repeat] return)
    or a falsy one, and JSON scalars elsewhere. *)
Definition sched_wf (v : PyVal) : bool :=
  match v with
  | PDateTime a => (off a =? 0) && valid_dt (naive a)
  | _ => negb (truthy v)
  end.

Definition wf_task (t : dict) : bool :=
  bool_decide (is_Some (t !! "user_id")) && bool_decide (is_Some (t !! "id")) &&
  match t !! SCHED with Some v => sched_wf v | None => false end &&
  bool_decide (map_Forall (λ k v, k = SCHED ∨ json_scalar v = true) t).

(** ** Lemmas *)

Lemma strftime_YmdHM_nonempty d : String.eqb (strftime_YmdHM d) "" = false.
Proof.
  assert (∃ c s, strftime_YmdHM d = String c s) as (c & s & ->) by (do 2 eexists; reflexivity).
  reflexivity.
Qed.

Lemma parse_schedule_strftime n :
  valid_dt n = true → 1000 ≤ year n → second n = 0 → microsecond n = 0 →
  parse_schedule (PStr (strftime_YmdHM n)) = Ok (PDateTime (mkAware n 0)).
Proof.
  intros V Hy Hs Hu. unfold parse_schedule. cbv beta iota.
  rewrite bind_Ok, strptime_strftime, bind_Ok by done.
  destruct n; simpl in Hs, Hu; by subst.
Qed.

Lemma storable_sched_spec v :
  storable_sched v = true ↔
  ∃ n, v = PDateTime (mkAware n 0) ∧ valid_dt n = true ∧ 1000 ≤ year n ∧
       second n = 0 ∧ microsecond n = 0.
Proof.
  split.
  - destruct v as [| | | |[n o]]; try discriminate. simpl.
    rewrite !andb_true_iff, !Z.eqb_eq, Z.leb_le. intros ((((-> & V) & Hy) & Hs) & Hu).
    exists n. auto.
  - intros (n & -> & V & Hy & Hs & Hu). simpl. rewrite V, Hs, Hu.
    destruct (Z.leb_spec 1000 (year n)); [reflexivity | lia].
Qed.

(** One stored task: serializing it, then loading it back, gives it back. *)
Lemma storable_serialize t :
  storable t = true →
  ∃ t', serialize_task t = Ok t' ∧ map_Forall (λ _ v, json_scalar v = true) t' ∧
        load_item (JDict t') = Ok t ∧ keep_task t = Ok true.
Proof.
  unfold storable. intros [Hs Hall]%andb_prop. apply bool_decide_eq_true_1 in Hall.
  apply storable_sched_spec in Hs as (n & E & V & Hy & Hsec & Hus).
  pose proof (dget_lookup _ _ _ E ltac:(discriminate)) as Hl.
  unfold serialize_task. rewrite E. cbn [truthy]. cbv iota.
  unfold astimezone_utc. cbn [naive off]. rewrite Z.sub_0_r, of_us_to_us, !bind_Ok by done.
  eexists; split; [reflexivity|]. split; [|split].
  - intros k v Hk. apply lookup_insert_Some in Hk as [[<- <-]|[Hne Hk]]; [reflexivity|].
    destruct (Hall k v Hk); congruence.
  - unfold load_item, load_convert. rewrite (dget_insert t SCHED). cbn [truthy naive].
    rewrite strftime_YmdHM_nonempty. cbn [negb].
    rewrite parse_schedule_strftime by done. unfold try_except.
    by rewrite insert_insert_eq, insert_id.
  - unfold keep_task, getitem. by rewrite Hl.
Qed.

Lemma serialize_all ts :
  Forall (λ t, storable t = true) ts →
  ∃ ser, res_mapM serialize_task ts = Ok ser ∧
         Forall (λ t : dict, map_Forall (λ _ v, json_scalar v = true) t) ser ∧
         res_mapM load_item (map JDict ser) = Ok ts ∧ res_filterM keep_task ts = Ok ts.
Proof.
  induction 1 as [|t ts Ht _ (ser & Hser & Hj & Hl & Hk)]; [by exists []|].
  destruct (storable_serialize t Ht) as (t' & Ht' & Hj' & Hl' & Hk').
  exists (t' :: ser). cbn [res_mapM res_filterM map]. rewrite Ht', Hser, Hl', Hl, Hk', Hk.
  repeat split; try reflexivity. by constructor.
Qed.

Lemma load_convert_no_key d : d !! SCHED = None → load_convert d = d.
Proof. intros H. unfold load_convert, dget. by rewrite H. Qed.

Lemma load_convert_has_key d : is_Some (d !! SCHED) → is_Some (load_convert d !! SCHED).
Proof.
  intros H. unfold load_convert. destruct (truthy _); [|done].
  rewrite lookup_insert_eq. by eexists.
Qed.

Lemma keep_task_total t : keep_task t = Raise KeyError ∨ ∃ b, keep_task t = Ok b.
Proof. unfold keep_task, getitem. destruct (t !! SCHED); simpl; eauto. Qed.

Lemma load_item_total it : load_item it = Raise AttributeError ∨ ∃ d, load_item it = Ok d.
Proof. destruct it; simpl; eauto. Qed.

Lemma after_save old ts ws r :
  save_tasks ts = (ws, r) → r = Ok tt → ∃ doc, ws = [FGarbage; FJson doc] ∧
  after_writes old ws = Some (FJson doc).
Proof.
  unfold save_tasks. destruct (res_mapM _ _); [|congruence].
  destruct (json_dump _) as [doc|]; intros [= <- <-]; [|discriminate]. eauto.
Qed.

Lemma load_items_dicts ds : res_mapM load_item (map JDict ds) = Ok (map load_convert ds).
Proof. induction ds as [|d ds IH]; [done|]. cbn [res_mapM map load_item]. by rewrite IH. Qed.

Lemma keep_task_present t : is_Some (t !! SCHED) → keep_task t = Ok (truthy (dget t SCHED)).
Proof. intros [v Hv]. unfold keep_task, getitem, dget. by rewrite Hv. Qed.

(** What a record of the file becomes when its schedule is read with
    [strptime("%Y%m%d%H%M")] and tagged UTC: the record with the datetime,
    or nothing when the value is not a string of that format. *)
Definition parsed_record (d : dict) : option dict :=
  match parse_schedule (dget d SCHED) with
  | Ok v => Some (<[SCHED := v]> d)
  | Raise _ => None
  end.

Lemma parse_schedule_truthy v w : parse_schedule v = Ok w → truthy v = true ∧ truthy w = true.
Proof.
  unfold parse_schedule. destruct v as [| | |[|c s']|]; cbn; try discriminate.
  destruct (strptime_YmdHM _) as [d|]; cbn; [|discriminate]. by intros [= <-].
Qed.

(** The comprehension of line 146 over the converted records keeps what
    [parsed_record] keeps. *)
Lemma filter_load_convert ds :
  filter (λ t, truthy (dget t SCHED) = true) (map load_convert ds) = omap parsed_record ds.
Proof.
  induction ds as [|d ds IH]; [done|]. cbn [map omap list_omap]. rewrite filter_cons, IH.
  unfold load_convert, parsed_record.
  destruct (truthy (dget d SCHED)) eqn:Ht.
  - assert (Hd : ∀ v, dget (<[SCHED := v]> d) SCHED = v) by (intros v; unfold dget; by rewrite lookup_insert_eq).
    rewrite Hd. destruct (parse_schedule (dget d SCHED)) as [w|e] eqn:Hp; cbn [try_except].
    + by rewrite decide_True by (by destruct (parse_schedule_truthy _ _ Hp)).
    + by rewrite decide_False.
  - rewrite decide_False by (by rewrite Ht).
    destruct (parse_schedule (dget d SCHED)) as [w|e] eqn:Hp; [|done].
    destruct (parse_schedule_truthy _ _ Hp) as [Hv _]. congruence.
Qed.

(** ** Theorems *)

(** C6: Saving tasks whose schedules are whole-minute UTC datetimes (as
    every schedule the program computes is) and loading the file back gives
    the same list of tasks: [_load_tasks] inverts [save_tasks]. *)
Theorem save_load_roundtrip old ts :
  Forall (λ t, storable t = true) ts →
  (save_tasks ts).2 = Ok tt ∧ load_tasks (after_writes old (save_tasks ts).1) = ts.
Proof.
  intros Hall. destruct (serialize_all ts Hall) as (ser & Hser & Hj & Hl & Hk).
  unfold save_tasks. rewrite Hser. unfold json_dump.
  rewrite bool_decide_eq_true_2 by done. split; [reflexivity|].
  cbn. unfold load_items. by rewrite Hl, bind_Ok, Hk.
Qed.

(** C21: When every record of the file is a dict with a
    ["schedule_time_utc"] key, [_load_tasks] returns, in the order of the
    file, exactly the records whose schedule is a string in the format
    ["%Y%m%d%H%M"], each with its schedule replaced by that instant in UTC:
    a record whose schedule does not parse (another format, an empty
    string, a number, [null]) is dropped on its own. *)
Theorem load_tasks_records ds :
  Forall (λ d, is_Some (d !! SCHED)) ds →
  load_tasks (Some (FJson (JArray (map JDict ds)))) = omap parsed_record ds.
Proof.
  intros Hall. cbn [load_tasks]. unfold load_items. rewrite load_items_dicts, bind_Ok.
  rewrite <- filter_load_convert.
  rewrite (res_filterM_pure _ (λ t, truthy (dget t SCHED))); [done|].
  intros x (d & -> & Hd)%list_elem_of_fmap_1. apply keep_task_present, load_convert_has_key.
  by apply (Forall_forall _ ds) with (x := d) in Hall.
Qed.

(** C30: A single record that is not a dict, or that has no
    ["schedule_time_utc"] key, makes [_load_tasks] return no task at all,
    whatever the other records hold. *)
Theorem load_tasks_one_bad_record items :
  (JNonDict ∈ items ∨ ∃ d, JDict d ∈ items ∧ d !! SCHED = None) →
  load_tasks (Some (FJson (JArray items))) = [].
Proof.
  intros Hbad. cbn [load_tasks]. unfold load_items.
  destruct (res_mapM load_item items) as [ds|] eqn:Hm; [|reflexivity]. rewrite bind_Ok.
  destruct Hbad as [Hn | (d & Hd & Hk)].
  - destruct (res_mapM_Ok_elem _ _ _ _ Hm Hn) as (? & [=] & _).
  - destruct (res_mapM_Ok_elem _ _ _ _ Hm Hd) as (d' & [= <-] & Hin).
    rewrite (res_filterM_Raise _ _ _ KeyError Hin); [reflexivity | |].
    + intros y _. apply keep_task_total.
    + unfold keep_task, getitem. by rewrite load_convert_no_key, Hk.
Qed.

(** C32: [save_tasks] first empties the file ([open(TASK_FILE, "w")]) and only
    then writes the document: between the two writes the file holds no task
    for a reader, or for the next start after a crash, even when the saved
    store is not empty. *)
Theorem save_tasks_not_atomic old ts :
  Forall (λ t, storable t = true) ts → ts ≠ [] →
  ∃ mid final, (save_tasks ts).1 = [mid; final] ∧ load_tasks (Some mid) = [] ∧
               load_tasks (after_writes old [mid; final]) = ts.
Proof.
  intros Hall Hne. destruct (save_load_roundtrip old ts Hall) as [Hr Hl].
  destruct (save_tasks ts) as [ws r] eqn:Hs. cbn in Hr, Hl |- *.
  destruct (after_save old ts ws r Hs Hr) as (doc & -> & _). by exists FGarbage, (FJson doc).
Qed.

(** C15: Whatever the task file holds, every task [_load_tasks] returns has a
    ["schedule_time_utc"] that is an aware UTC datetime on a whole minute of
    a valid date: the string conversion either succeeds, gives [None] (and
    the record is dropped), or makes the whole load return [[]]. *)
Theorem load_tasks_type f t :
  t ∈ load_tasks f →
  ∃ a, t !! SCHED = Some (PDateTime a) ∧ off a = 0 ∧ valid_dt (naive a) = true ∧
       second (naive a) = 0 ∧ microsecond (naive a) = 0.
Proof.
  destruct f as [[[items|]|]|]; cbn [load_tasks]; try by intros ?%not_elem_of_nil.
  unfold load_items. destruct (res_mapM load_item items) as [ds|] eqn:Hm; [|by intros ?%not_elem_of_nil].
  rewrite bind_Ok. destruct (res_filterM keep_task ds) as [ts|] eqn:Hf; [|by intros ?%not_elem_of_nil].
  intros Ht. destruct (res_filterM_elem _ _ _ _ Hf Ht) as [Hd Hk].
  destruct (res_mapM_Ok_elem_inv _ _ _ _ Hm Hd) as ([d|] & _ & Hl); cbn in Hl; [|discriminate].
  injection Hl as <-. unfold keep_task, getitem in Hk.
  destruct (load_convert d !! SCHED) as [v|] eqn:Hv; cbn in Hk; [|discriminate]. injection Hk as Htr.
  unfold load_convert in Hv. destruct (truthy (dget d SCHED)) eqn:Htd.
  - rewrite lookup_insert_eq in Hv. injection Hv as <-.
    destruct (parse_schedule (dget d SCHED)) as [w|] eqn:Hp; cbn in Htr; [|discriminate].
    unfold parse_schedule in Hp. destruct (dget d SCHED) as [| | |s|]; try discriminate.
    rewrite bind_Ok in Hp. destruct (strptime_YmdHM s) as [dt|] eqn:Hs; [|discriminate].
    injection Hp as <-. destruct (strptime_valid _ _ Hs) as (V & Hsec & Hus).
    by exists (mkAware dt 0).
  - unfold dget in Htd. rewrite Hv in Htd. congruence.
Qed.

(** ** Examples *)

Definition task_record (id : string) (rtype : string) (sched : PyVal) : dict :=
  <["id" := PStr id]> (<["user_id" := PInt 42]> (<["channel_id" := PInt 1001]>
  (<["content" := PStr "halo"]> (<["repeat_type" := PStr rtype]>
  (<[SCHED := sched]> ∅))))).

Definition stored_once : dict :=
  task_record "a1b2c3d4" "once" (PDateTime (mkAware (mkDT 2026 11 9 7 30 0 0) 0)).

Lemma save_load_roundtrip_witness :
  (save_tasks [stored_once]).2 = Ok tt ∧ load_tasks (after_writes None (save_tasks [stored_once]).1) = [stored_once].
Proof. apply save_load_roundtrip. apply Forall_singleton. vm_compute. reflexivity. Defined.

Lemma load_tasks_records_witness :
  load_tasks (Some (FJson (JArray (map JDict
    [task_record "a1" "once" (PStr "202611091430"); task_record "b2" "once" (PStr "2026-11-09 14:30")])))) =
  [task_record "a1" "once" (PDateTime (mkAware (mkDT 2026 11 9 14 30 0 0) 0))].
Proof.
  rewrite load_tasks_records; [vm_compute; reflexivity|].
  repeat constructor; vm_compute; by eexists.
Defined.

Lemma load_tasks_one_bad_record_witness :
  load_tasks (Some (FJson (JArray [JDict stored_once; JDict (delete SCHED stored_once)]))) = [].
Proof. apply load_tasks_one_bad_record. right. exists (delete SCHED stored_once). split; [by right; left|]. vm_compute. reflexivity. Defined.

Lemma save_tasks_not_atomic_witness :
  ∃ mid final, (save_tasks [stored_once]).1 = [mid; final] ∧ load_tasks (Some mid) = [] ∧
               load_tasks (after_writes None [mid; final]) = [stored_once].
Proof. apply save_tasks_not_atomic; [apply Forall_singleton; vm_compute; reflexivity | discriminate]. Defined.

Lemma load_tasks_type_witness :
  ∃ a, stored_once !! SCHED = Some (PDateTime a) ∧ off a = 0 ∧ valid_dt (naive a) = true ∧
       second (naive a) = 0 ∧ microsecond (naive a) = 0.
Proof.
  apply (load_tasks_type (after_writes None (save_tasks [stored_once]).1)). decide_vm.
Defined.

(** ** Saving well-formed tasks *)

Lemma serialize_wf t :
  wf_task t = true →
  ∃ t', serialize_task t = Ok t' ∧ map_Forall (λ _ v, json_scalar v = true) t'.
Proof.
  unfold wf_task. rewrite !andb_true_iff. intros (((_ & _) & Hs) & Hall%bool_decide_eq_true_1).
  destruct (t !! SCHED) as [v|] eqn:Hv; [|discriminate].
  assert (Hscalar : ∀ w, map_Forall (λ _ v, json_scalar v = true) (<[SCHED := PStr w]> t)).
  { intros w k x Hk. apply lookup_insert_Some in Hk as [[<- <-]|[Hne Hk]]; [done|].
    destruct (Hall k x Hk); congruence. }
  unfold serialize_task, dget. rewrite Hv.
  destruct v as [| | | |[n o]]; cbn [sched_wf truthy] in Hs |- *;
    try (apply negb_true_iff in Hs; rewrite Hs);
    try (eexists; split; [reflexivity|]; intros k x Hk;
         destruct (Hall k x Hk) as [->|]; [rewrite Hv in Hk; by injection Hk as <- | done]).
  apply andb_true_iff in Hs as [Ho%Z.eqb_eq V]. cbn in Ho. subst o.
  unfold astimezone_utc. cbn [naive off]. rewrite Z.sub_0_r, of_us_to_us, !bind_Ok by done.
  eexists; split; [reflexivity | apply Hscalar].
Qed.

(** [save_tasks] does not raise on well-formed tasks. *)
Lemma save_tasks_wf ts :
  Forall (λ t, wf_task t = true) ts → (save_tasks ts).2 = Ok tt.
Proof.
  intros Hall. unfold save_tasks.
  assert (∃ ser, res_mapM serialize_task ts = Ok ser ∧
                 Forall (λ t : dict, map_Forall (λ _ v, json_scalar v = true) t) ser) as (ser & -> & Hj).
  { induction Hall as [|t ts Ht _ (ser & Hser & Hj)]; [by exists []|].
    destruct (serialize_wf t Ht) as (t' & Ht' & Hj'). exists (t' :: ser).
    cbn [res_mapM]. rewrite Ht', Hser. split; [done | by constructor]. }
  unfold json_dump. by rewrite bool_decide_eq_true_2.
Qed.

Lemma wf_insert_sched t v :
  wf_task t = true → sched_wf v = true → wf_task (<[SCHED := v]> t) = true.
Proof.
  unfold wf_task. rewrite !andb_true_iff.
  intros (((Hu & Hi) & _) & Hall%bool_decide_eq_true_1) Hv.
  assert (<[SCHED := v]> t !! "user_id" = t !! "user_id") as -> by (by rewrite lookup_insert_ne).
  assert (<[SCHED := v]> t !! "id" = t !! "id") as -> by (by rewrite lookup_insert_ne).
  rewrite lookup_insert_eq. split_and!; try done.
  apply bool_decide_eq_true_2. intros k x Hk.
  apply lookup_insert_Some in Hk as [[<- _]|[_ Hk]]; [by left | by apply (Hall k x)].
Qed.

(** Loading back a task serialized from a well-formed one gives a
    well-formed task, or a task the load drops. *)
Lemma serialize_load_wf t t' :
  wf_task t = true → serialize_task t = Ok t' →
  is_Some (t' !! SCHED) ∧
  (truthy (dget (load_convert t') SCHED) = true → wf_task (load_convert t') = true).
Proof.
  intros Hw. pose proof Hw as Hw'. unfold wf_task in Hw'. rewrite !andb_true_iff in Hw'.
  destruct Hw' as (((_ & _) & Hs) & _).
  unfold serialize_task, dget. destruct (t !! SCHED) as [v|] eqn:Hv; [|discriminate].
  destruct (truthy v) eqn:Ht.
  - destruct v as [| | | |[n o]]; try (cbn [sched_wf] in Hs; rewrite Ht in Hs; discriminate).
    cbn in Hs. apply andb_true_iff in Hs as [Ho%Z.eqb_eq V]. cbn in Ho. subst o.
    unfold astimezone_utc. cbn [naive off]. rewrite Z.sub_0_r, of_us_to_us by done.
    intros [= <-]. rewrite lookup_insert_eq. split; [by eexists|].
    unfold load_convert, dget. rewrite lookup_insert_eq. cbn [truthy].
    rewrite strftime_YmdHM_nonempty. cbn [negb]. rewrite lookup_insert_eq.
    unfold try_except. destruct (parse_schedule _) as [w|] eqn:Hp; [|discriminate].
    intros _. rewrite insert_insert_eq. apply wf_insert_sched; [done|].
    unfold parse_schedule in Hp. cbv beta iota in Hp. rewrite bind_Ok in Hp.
    apply bind_eq_Ok in Hp as (d & Hd & [= <-]). apply strptime_valid in Hd as (Vd & _).
    cbn. by rewrite Vd.
  - intros [= <-]. split; [by eexists|]. unfold load_convert, dget. by rewrite Hv, Ht.
Qed.

(** The file [save_tasks] leaves after saving well-formed tasks loads as
    well-formed tasks. *)
Lemma load_saved_wf old ts :
  Forall (λ t, wf_task t = true) ts → Forall (λ t, wf_task t = true) (load_tasks old) →
  Forall (λ t, wf_task t = true) (load_tasks (after_writes old (save_tasks ts).1)).
Proof.
  intros Hall Hold. unfold save_tasks.
  destruct (res_mapM serialize_task ts) as [ser|] eqn:Hm; [|done].
  unfold json_dump. case_bool_decide; cbn; [|done].
  unfold load_items. rewrite load_items_dicts, bind_Ok.
  assert (Hk : ∀ x, x ∈ map load_convert ser → is_Some (x !! SCHED)).
  { intros x (y & <- & Hy%list_elem_of_In)%list_elem_of_In%in_map_iff.
    destruct (res_mapM_Ok_elem_inv _ _ _ _ Hm Hy) as (t & Ht & Hs).
    apply load_convert_has_key, (serialize_load_wf t); [|done].
    by apply (Forall_forall _ _) with (x := t) in Hall. }
  rewrite (res_filterM_pure _ (λ t, truthy (dget t SCHED))).
  2: { intros x Hx. by apply keep_task_present, Hk. }
  cbn. apply Forall_forall. intros x [Htr (y & <- & Hy%list_elem_of_In)%list_elem_of_In%in_map_iff]%list_elem_of_filter.
  destruct (res_mapM_Ok_elem_inv _ _ _ _ Hm Hy) as (t & Ht & Hs).
  apply (serialize_load_wf t); [|done|done].
  by apply (Forall_forall _ _) with (x := t) in Hall.
Qed.

