(* ===== verification/Parser.v ===== *)
(** * Parser: [parse_time_input] (src/chronoreply.py, lines 34-102)

    The parser reads [datetime.now(default_tz)] once (outside the [try]),
    splits the input on whitespace and tries three grammars in order:
    - [HH:MM] (one token containing [":"]): today at that time, or tomorrow
      when that is not strictly later than now ([case_hhmm]);
    - [<hari> HH:MM] (two tokens, the first an Indonesian weekday name in
      any case): the next such weekday, or a week later when it is today
      and the time has passed ([case_weekday], [get_next_day]);
    - [DD-MM HH:MM] (two tokens, ["-"] in the first and [":"] in the
      second): that date this year, or next year when it has passed
      ([case_ddmm]).
    Any exception inside the [try] (a malformed number, an out-of-range
    field, an overflow) makes the result [None]; the result is otherwise
    converted to UTC with [astimezone(pytz.utc)].

    The theorems give the result of each grammar as an instant: writing
    [ℓ = u + o] for the local wall clock of the UTC reading [u] at offset
    [o], [at_time ℓ h m] is the instant of the same local day at [h:m]. *)

From S2P Require Import Prelude PyStr Calendar Zone.
Local Open Scope Z_scope.

(** ** Definitions *)

(** [days_of_week] (line 47) and the list of line 82. *)
Definition DAYS_OF_WEEK : list string :=
  ["senin"; "selasa"; "rabu"; "kamis"; "jumat"; "sabtu"; "minggu"].

(** [day_map.get(name)], with [day_map = {name: i for i, name in enumerate(...)}]. *)
Fixpoint index_of (x : string) (l : list string) : option Z :=
  match l with
  | [] => None
  | y :: l' => if String.eqb x y then Some 0 else option_map Z.succ (index_of x l')
  end.

(** The nested helper [get_next_day] (lines 46-66), closed over [now_local]. *)
Definition get_next_day (now_local : aware) (target_day_name : string) (hour minute : Z)
    : Res (option aware) :=
  match index_of target_day_name DAYS_OF_WEEK with
  | None => mret None
  | Some target_weekday =>
      let current_weekday := weekday (naive now_local) in
      let days_ahead := target_weekday - current_weekday in
      let days_ahead := if days_ahead <? 0 then days_ahead + 7 else days_ahead in
      next_dt ← add_aware now_local (days days_ahead);
      target_dt ← replace_time_aware next_dt hour minute;
      if (days_ahead =? 0) && aware_le target_dt now_local
      then target_dt ← add_aware target_dt (days 7); mret (Some target_dt)
      else mret (Some target_dt)
  end.

(** Case 1, [HH:MM] (lines 72-77). *)
Definition case_hhmm (now_local : aware) (p0 : string) : Res (option aware) :=
  '(hour, minute) ← int_pair ":" p0;
  dt ← replace_time_aware now_local hour minute;
  dt ← (if aware_le dt now_local then add_aware dt (days 1) else mret dt);
  r ← astimezone_utc dt;
  mret (Some r).

(** Case 2, [<hari> HH:MM], once the day name is known (lines 83-85). *)
Definition case_weekday (now_local : aware) (day : string) (p1 : string) : Res (option aware) :=
  '(hour, minute) ← int_pair ":" p1;
  dt ← get_next_day now_local day hour minute;
  match dt with
  | Some d => r ← astimezone_utc d; mret (Some r)
  | None => mret None
  end.

(** Case 3, [DD-MM HH:MM] (lines 89-97). *)
Definition case_ddmm (now_local : aware) (p0 p1 : string) : Res (option aware) :=
  '(day, month) ← int_pair "-" p0;
  '(hour, minute) ← int_pair ":" p1;
  let year := year (naive now_local) in
  dt ← replace_all_aware now_local year month day hour minute;
  dt ← (if aware_le dt now_local then replace_year_aware dt (year + 1) else mret dt);
  r ← astimezone_utc dt;
  mret (Some r).

(** The body of the [try] (lines 70-97): the grammars in the source's
    order, on the whitespace-separated [parts]. *)
Definition parse_parts (now_local : aware) (parts : list string) : Res (option aware) :=
  match parts with
  | [p0] => if contains_char ":" p0 then case_hhmm now_local p0 else mret None
  | [p0; p1] =>
      let day := lower p0 in
      if bool_decide (day ∈ DAYS_OF_WEEK) then case_weekday now_local day p1
      else if contains_char "-" p0 && contains_char ":" p1 then case_ddmm now_local p0 p1
      else mret None
  | _ => mret None
  end.

(** [parse_time_input(time_input, default_tz)] at the UTC clock reading
    [u] (lines 34-102). *)
Definition parse_time_input (default_tz : zone) (u : Z) (time_input : string)
    : Res (option aware) :=
  now_local ← now_in default_tz u;
  let parts := split_ws time_input in
  mret (try! (parse_parts now_local parts) except None).

(** ** Concrete zones and clock readings used by the examples *)

Definition HOUR : Z := 3600000000.

(** Asia/Jakarta since 1964: UTC+07:00, no transitions. *)
Definition WIB : zone := fixed_zone (7 * HOUR).

(** Monday 2026-11-09 10:00 in Jakarta, i.e. 03:00 UTC. *)
Definition monday_10_wib : Z := to_us (mkDT 2026 11 9 3 0 0 0).

(** The wall clock in [z] of an instant, at the offset [z] really has then. *)
Definition wall_clock (z : zone) (a : aware) : datetime :=
  dt_of_us (aware_us a + offset_at z (aware_us a)).

(** The wall clock in Jakarta of a successful parse. *)
Definition local_of' (r : Res (option aware)) : option datetime :=
  match r with Ok (Some a) => Some (wall_clock WIB a) | _ => None end.

(** ** Specification of the three grammars *)

(** The clock readings for which the results are representable: the zone's
    offset is less than a day and the reading is not within days of the
    ends of [datetime]'s range. *)
Definition clock_ok (z : zone) (u : Z) : bool :=
  (- US_PER_DAY <? offset_at z u) && (offset_at z u <? US_PER_DAY) &&
  (days 2 <=? u) && (u + days 400 <? MAXORDINAL * US_PER_DAY).

Lemma clock_ok_spec z u :
  clock_ok z u = true →
  - US_PER_DAY < offset_at z u < US_PER_DAY ∧ days 2 ≤ u ∧ u + days 400 < MAXORDINAL * US_PER_DAY.
Proof. unfold clock_ok. rewrite !andb_true_iff, !Z.ltb_lt, !Z.leb_le. tauto. Qed.

Lemma index_of_bound x l i : index_of x l = Some i → 0 ≤ i < Z.of_nat (length l).
Proof.
  revert i. induction l as [|y l IH]; simpl; intros i H; [discriminate|].
  destruct (String.eqb x y); [injection H as <-; lia|].
  destruct (index_of x l) eqn:E; simpl in H; [injection H as <-|discriminate].
  specialize (IH _ eq_refl). lia.
Qed.

Lemma index_of_elem x l i : index_of x l = Some i → x ∈ l.
Proof.
  revert i. induction l as [|y l IH]; simpl; intros i H; [discriminate|].
  destruct (String.eqb_spec x y) as [->|]; [left|].
  destruct (index_of x l) eqn:E; simpl in H; [|discriminate].
  right. by eapply IH.
Qed.

(** The source's [days_ahead]: [target - current], plus 7 when negative,
    is the difference modulo 7. *)
Lemma days_ahead_mod (tw wd : Z) :
  0 ≤ tw < 7 → 0 ≤ wd < 7 →
  (if tw - wd <? 0 then tw - wd + 7 else tw - wd) = (tw - wd) mod 7.
Proof.
  intros. destruct (Z.ltb_spec (tw - wd) 0).
  - symmetry. apply (Z_mod_of_decomp _ _ (-1)); lia.
  - symmetry. apply (Z_mod_of_decomp _ _ 0); lia.
Qed.

(** The local wall-clock instant of the UTC reading [u]. *)
Definition local_clock (z : zone) (u : Z) : Z := u + offset_at z u.

Section ParseSpec.
Context (z : zone) (u : Z).
Hypothesis Hclk : clock_ok z u = true.

Lemma parse_now : ∃ nl, now_in z u = Ok nl ∧ to_us (naive nl) = local_clock z u ∧
                        off nl = offset_at z u ∧ valid_dt (naive nl) = true.
Proof.
  apply now_in_ok. destruct (clock_ok_spec z u Hclk) as (? & ? & ?). solve_range.
Qed.

Lemma parse_time_input_parts s :
  ∃ nl, to_us (naive nl) = local_clock z u ∧ off nl = offset_at z u ∧ valid_dt (naive nl) = true ∧
    parse_time_input z u s = Ok (try! (parse_parts nl (split_ws s)) except None).
Proof.
  destruct parse_now as (nl & Hn & ?). exists nl. unfold parse_time_input. rewrite Hn. res_step.
  tauto.
Qed.
Lemma clock_bounds :
  - US_PER_DAY < offset_at z u < US_PER_DAY ∧ days 2 ≤ u ∧
  u + days 400 < MAXORDINAL * US_PER_DAY.
Proof. by apply clock_ok_spec. Qed.

(** [case_hhmm] on a valid [h:m]: today at [h:m] when that is later than
    now, tomorrow at [h:m] otherwise, converted to UTC. *)
Lemma case_hhmm_spec nl p0 h m :
  to_us (naive nl) = local_clock z u → off nl = offset_at z u → valid_dt (naive nl) = true →
  int_pair ":" p0 = Ok (h, m) → 0 ≤ h ≤ 23 → 0 ≤ m ≤ 59 →
  ∃ r, case_hhmm nl p0 = Ok (Some r) ∧ off r = 0 ∧
    aware_us r + offset_at z u =
      (let t := at_time (local_clock z u) h m in
       if t <=? local_clock z u then t + days 1 else t).
Proof.
  intros Ln On Vn Hp Hh Hm. unfold case_hhmm. rewrite Hp. res_step.
  destruct (replace_time_aware_ok nl h m Vn Hh Hm) as (dt & -> & Ld & Od & Vd & _).
  rewrite Ln in Ld. res_step. rewrite aware_le_same_off, Ld, Ln by done.
  pose proof (at_time_bounds (local_clock z u) h m Hh Hm).
  pose proof (mod_day_bounds (local_clock z u)). pose proof clock_bounds.
  unfold local_clock in *.
  destruct (Z.leb_spec (at_time (u + offset_at z u) h m) (u + offset_at z u)).
  - destruct (add_aware_ok dt (days 1)) as (dt' & -> & Ld' & Od' & _); [solve_range|].
    res_step.
    destruct (astimezone_utc_ok dt') as (r & -> & Ar & Or & _);
      [unfold aware_us; solve_range|].
    res_step. exists r. split; [done|]. split; [done|]. unfold aware_us in *. lia.
  - res_step. destruct (astimezone_utc_ok dt) as (r & -> & Ar & Or & _);
      [unfold aware_us; solve_range|].
    res_step. exists r. split; [done|]. split; [done|]. unfold aware_us in *. lia.
Qed.

(** C12: [HH:MM] with a valid hour and minute is today at that time when
    that is strictly later than now, and tomorrow at that time otherwise
    (a time equal to now counts as past); the result is the UTC instant
    of that wall-clock time at the offset of the reading. *)
Theorem parse_time_input_hhmm s p0 h m :
  split_ws s = [p0] → contains_char ":" p0 = true → int_pair ":" p0 = Ok (h, m) →
  0 ≤ h ≤ 23 → 0 ≤ m ≤ 59 →
  ∃ r, parse_time_input z u s = Ok (Some r) ∧ off r = 0 ∧
    aware_us r + offset_at z u =
      (let t := at_time (local_clock z u) h m in
       if t <=? local_clock z u then t + days 1 else t).
Proof.
  intros Hs Hc Hp Hh Hm.
  destruct (parse_time_input_parts s) as (nl & Ln & On & Vn & ->).
  destruct (case_hhmm_spec nl p0 h m Ln On Vn Hp Hh Hm) as (r & Hr & Or & Ar).
  exists r. rewrite Hs. simpl. rewrite Hc, Hr. auto.
Qed.

(** [get_next_day]: the instant [k] days ahead at [h:m], [k] being the
    distance to the target weekday, or 7 days ahead when [k = 0] and the
    time has passed. *)
Lemma get_next_day_spec nl name tw h m :
  to_us (naive nl) = local_clock z u → off nl = offset_at z u → valid_dt (naive nl) = true →
  index_of name DAYS_OF_WEEK = Some tw → 0 ≤ h ≤ 23 → 0 ≤ m ≤ 59 →
  let k := (tw - (local_clock z u / US_PER_DAY) mod 7) mod 7 in
  ∃ t, get_next_day nl name h m = Ok (Some t) ∧ off t = offset_at z u ∧
    to_us (naive t) =
      (let c := at_time (local_clock z u) h m + days k in
       if (k =? 0) && (c <=? local_clock z u) then c + days 7 else c).
Proof.
  intros Ln On Vn Hi Hh Hm k. unfold get_next_day. rewrite Hi. cbv zeta.
  pose proof (index_of_bound _ _ _ Hi) as Btw. simpl in Btw.
  rewrite weekday_to_us, Ln by done.
  pose proof (Z.mod_pos_bound (local_clock z u / US_PER_DAY) 7 ltac:(lia)).
  rewrite days_ahead_mod by lia. fold k.
  assert (0 ≤ k < 7) by (apply Z.mod_pos_bound; lia).
  pose proof (at_time_bounds (local_clock z u) h m Hh Hm).
  pose proof (mod_day_bounds (local_clock z u)). pose proof clock_bounds.
  destruct (add_aware_ok nl (days k)) as (nd & -> & Ld & Od & Vd);
    [rewrite Ln; unfold local_clock in *; solve_range|].
  res_step.
  destruct (replace_time_aware_ok nd h m Vd Hh Hm) as (td & -> & Lt & Ot & Vt & _).
  rewrite Ld, Ln, at_time_add_days in Lt. res_step.
  rewrite aware_le_same_off, Lt, Ln by congruence.
  destruct (Z.eqb_spec k 0) as [Hk0|Hk0];
    [destruct (Z.leb_spec (at_time (local_clock z u) h m + days k) (local_clock z u))|]; simpl.
  - destruct (add_aware_ok td (days 7)) as (t & -> & Lt' & Ot' & _);
      [rewrite Lt; unfold local_clock in *; solve_range|].
    res_step. exists t. split; [done|]. split; [congruence | lia].
  - exists td. split; [done|]. split; [congruence | lia].
  - exists td. split; [done|]. split; [congruence | lia].
Qed.

(** C17: [<hari> HH:MM] with a known weekday name and a valid time is
    [k] days ahead at that time, [k] being the distance (mod 7) from the
    current weekday to the named one; when the named day is today and
    the time is not strictly later than now it is 7 days ahead. *)
Theorem parse_time_input_weekday s p0 p1 tw h m :
  split_ws s = [p0; p1] → index_of (lower p0) DAYS_OF_WEEK = Some tw →
  int_pair ":" p1 = Ok (h, m) → 0 ≤ h ≤ 23 → 0 ≤ m ≤ 59 →
  let k := (tw - (local_clock z u / US_PER_DAY) mod 7) mod 7 in
  ∃ r, parse_time_input z u s = Ok (Some r) ∧ off r = 0 ∧
    aware_us r + offset_at z u =
      (let c := at_time (local_clock z u) h m + days k in
       if (k =? 0) && (c <=? local_clock z u) then c + days 7 else c).
Proof.
  intros Hs Hi Hp Hh Hm k.
  destruct (parse_time_input_parts s) as (nl & Ln & On & Vn & ->).
  destruct (get_next_day_spec nl (lower p0) tw h m Ln On Vn Hi Hh Hm) as (t & Ht & Ot & Lt).
  fold k in Lt. cbv zeta in Lt |- *.
  rewrite Hs. unfold parse_parts. cbv zeta.
  rewrite bool_decide_eq_true_2 by (eapply index_of_elem; eauto).
  unfold case_weekday. rewrite Hp. res_step. rewrite Ht. res_step.
  assert (0 ≤ k < 7) by (apply Z.mod_pos_bound; lia).
  pose proof (at_time_bounds (local_clock z u) h m Hh Hm).
  pose proof (mod_day_bounds (local_clock z u)). pose proof clock_bounds.
  destruct (astimezone_utc_ok t) as (r & -> & Ar & Or & _).
  { unfold aware_us. rewrite Lt, Ot. unfold local_clock in *.
    destruct (_ && _); solve_range. }
  res_step. exists r. split; [done|]. split; [done|].
  rewrite <- Lt. unfold aware_us in *. lia.
Qed.

(** an [HH:MM] whose hour or minute is out of range is rejected:
    [replace] raises [ValueError] inside the [try], and the result is
    [None], not an exception. *)
Theorem parse_time_input_hhmm_invalid s p0 h m :
  split_ws s = [p0] → contains_char ":" p0 = true → int_pair ":" p0 = Ok (h, m) →
  ¬ (0 ≤ h ≤ 23 ∧ 0 ≤ m ≤ 59) →
  parse_time_input z u s = Ok None.
Proof.
  intros Hs Hc Hp Hbad.
  destruct (parse_time_input_parts s) as (nl & _ & _ & _ & ->).
  rewrite Hs. simpl. rewrite Hc. unfold case_hhmm. rewrite Hp. res_step.
  by rewrite replace_time_aware_bad.
Qed.
End ParseSpec.

(** ** Every parsed instant is strictly later than the reading *)

Lemma index_of_nonneg x l i : index_of x l = Some i → 0 ≤ i.
Proof.
  revert i. induction l as [|y l IH]; simpl; intros i H; [discriminate|].
  destruct (String.eqb x y); [injection H as <-; lia|].
  destruct (index_of x l) eqn:E; simpl in H; [injection H as <-|discriminate].
  specialize (IH _ eq_refl). lia.
Qed.

Lemma replace_time_aware_same_date a h m b :
  valid_dt (naive a) = true → replace_time_aware a h m = Ok b →
  to_us (naive b) < to_us (naive a) + US_PER_DAY ∧
  to_us (naive a) < to_us (naive b) + US_PER_DAY ∧ off b = off a.
Proof.
  intros Va Hr. apply replace_time_aware_Ok in Hr as [-> Vb].
  split; [|split]; [apply to_us_same_date..|]; simpl; auto.
Qed.

(** The computation of case 1 after the time has been read, shared with
    the [harian] branch of the recurrence calculator. *)
Lemma hhmm_body_future nl h m r :
  valid_dt (naive nl) = true →
  (dt ← replace_time_aware nl h m;
   dt ← (if aware_le dt nl then add_aware dt (days 1) else mret dt);
   r ← astimezone_utc dt; mret (Some r)) = Ok (Some r) →
  aware_us nl < aware_us r ∧ off r = 0 ∧ valid_dt (naive r) = true ∧ aware_us r ≤ aware_us nl + days 1.
Proof.
  intros Vn H.
  apply bind_eq_Ok in H as (dt & Hdt & H).
  apply bind_eq_Ok in H as (dt' & Hif & H).
  apply bind_eq_Ok in H as (r' & Ha & [= <-]).
  destruct (replace_time_aware_same_date _ _ _ _ Vn Hdt) as (B1 & B2 & O1).
  apply astimezone_utc_Ok in Ha as (Ar & Or & Vr).
  rewrite Ar. unfold aware_le in *.
  destruct (Z.leb_spec (aware_us dt) (aware_us nl)).
  - apply add_aware_Ok in Hif as (A & O & _). unfold aware_us, days, US_PER_DAY in *. split_and!; [lia | done | done | lia].
  - injection Hif as <-. unfold aware_us, days, US_PER_DAY in *. split_and!; [lia | done | done | lia].
Qed.

Lemma case_hhmm_future nl p0 r :
  valid_dt (naive nl) = true → case_hhmm nl p0 = Ok (Some r) →
  aware_us nl < aware_us r ∧ off r = 0 ∧ valid_dt (naive r) = true.
Proof.
  intros Vn H. unfold case_hhmm in H.
  apply bind_eq_Ok in H as ([h m] & _ & H). by destruct (hhmm_body_future _ _ _ _ Vn H) as (? & ? & ? & _).
Qed.

Lemma get_next_day_future nl name h m t :
  valid_dt (naive nl) = true → get_next_day nl name h m = Ok (Some t) →
  aware_us nl < aware_us t ∧ off t = off nl ∧ aware_us t ≤ aware_us nl + days 7.
Proof.
  intros Vn H. unfold get_next_day in H.
  destruct (index_of name DAYS_OF_WEEK) as [tw|] eqn:Ei; [|injection H as H; discriminate].
  pose proof (index_of_bound _ _ _ Ei) as Btw. cbn in Btw. pose proof (weekday_bound (naive nl)).
  cbv zeta in H.
  remember (if tw - weekday (naive nl) <? 0 then tw - weekday (naive nl) + 7
            else tw - weekday (naive nl)) as k eqn:Hk.
  assert (0 ≤ k ≤ 6) by (subst k; zbool; lia). clear Hk.
  res_inv. rename x into nd, x0 into td.
  match goal with
  | Ha : add_aware _ _ = Ok nd, Hr : replace_time_aware _ _ _ = Ok td,
    Hi : (if _ then _ else _) = Ok _ |- _ => rename Ha into Hadd, Hr into Hrep, Hi into Hif
  end.
  destruct (add_aware_Ok _ _ _ Hadd) as (An & On & Vd).
  destruct (replace_time_aware_same_date _ _ _ _ Vd Hrep) as (B1 & B2 & O1).
  unfold aware_le in Hif. unfold aware_us, days, US_PER_DAY in *.
  destruct (Z.eqb_spec k 0) as [->|Hk0];
    destruct (Z.leb_spec (to_us (naive td) - off td) (to_us (naive nl) - off nl)); simpl in Hif.
  - apply bind_eq_Ok in Hif as (t' & Ht' & [= <-]). apply add_aware_Ok in Ht' as (A & O & _).
    unfold aware_us, days, US_PER_DAY in *. split_and!; lia.
  - injection Hif as <-. split_and!; lia.
  - injection Hif as <-. split_and!; lia.
  - injection Hif as <-. split_and!; lia.
Qed.

Lemma case_weekday_future nl day p1 r :
  valid_dt (naive nl) = true → case_weekday nl day p1 = Ok (Some r) →
  aware_us nl < aware_us r ∧ off r = 0 ∧ valid_dt (naive r) = true.
Proof.
  intros Vn H. unfold case_weekday in H.
  apply bind_eq_Ok in H as ([h m] & _ & H). cbv beta iota in H.
  apply bind_eq_Ok in H as (o & Hg & H).
  destruct o as [d|]; [|by injection H].
  apply bind_eq_Ok in H as (r' & Ha & [= <-]).
  destruct (get_next_day_future _ _ _ _ _ Vn Hg) as [Lt _].
  apply astimezone_utc_Ok in Ha as (A & O & V). split; [lia | done].
Qed.

Lemma case_ddmm_future nl p0 p1 r :
  valid_dt (naive nl) = true → case_ddmm nl p0 p1 = Ok (Some r) →
  aware_us nl < aware_us r ∧ off r = 0 ∧ valid_dt (naive r) = true.
Proof.
  intros Vn H. unfold case_ddmm in H.
  apply bind_eq_Ok in H as ([d mo] & _ & H). cbv beta iota in H.
  apply bind_eq_Ok in H as ([h mi] & _ & H). cbv beta iota in H.
  apply bind_eq_Ok in H as (dt & Hdt%replace_all_aware_Ok & H). destruct Hdt as [-> Vd].
  apply bind_eq_Ok in H as (dt' & Hif & H).
  apply bind_eq_Ok in H as (r' & Ha & [= <-]).
  apply astimezone_utc_Ok in Ha as (A & O & V). split; [|done]. rewrite A.
  unfold aware_le in Hif.
  destruct (Z.leb_spec (aware_us (mkAware (mkDT (year (naive nl)) mo d h mi 0 0) (off nl)))
                       (aware_us nl)).
  - destruct (replace_year_aware_Ok _ _ _ Hif) as (Y & O' & V').
    pose proof (to_us_year_lt (naive nl) (naive dt') Vn V' ltac:(simpl; lia)).
    unfold aware_us in *. simpl in O'. lia.
  - injection Hif as <-. lia.
Qed.

Lemma parse_parts_future nl parts r :
  valid_dt (naive nl) = true → parse_parts nl parts = Ok (Some r) →
  aware_us nl < aware_us r ∧ off r = 0 ∧ valid_dt (naive r) = true.
Proof.
  intros Vn H. unfold parse_parts in H.
  destruct parts as [|p0 [|p1 [|p2 rest]]]; try by injection H.
  - destruct (contains_char _ p0); [by eapply case_hhmm_future | by injection H].
  - destruct (bool_decide _); [by eapply case_weekday_future|].
    destruct (_ && _); [by eapply case_ddmm_future | by injection H].
Qed.

Lemma parse_time_input_after z u s r :
  parse_time_input z u s = Ok (Some r) →
  u < aware_us r ∧ off r = 0 ∧ valid_dt (naive r) = true.
Proof.
  unfold parse_time_input. intros H.
  apply bind_eq_Ok in H as (nl & Hn & [= H]).
  destruct (now_in_Ok _ _ _ Hn) as (An & _ & Vn).
  destruct (parse_parts nl (split_ws s)) as [o|e] eqn:E; simpl in H; [subst o|discriminate].
  rewrite <- An. by eapply parse_parts_future.
Qed.

(** C4: every instant [parse_time_input] returns is strictly later than
    the clock reading it was computed from, and is in UTC: no task can be
    created in the past through the parser. *)
Theorem parse_time_input_future z u s r :
  parse_time_input z u s = Ok (Some r) → u < aware_us r ∧ off r = 0.
Proof. intros H. by destruct (parse_time_input_after z u s r H) as (? & ? & _). Qed.

(** ** Witnesses and worked examples *)

(** A zone with daylight saving time (Europe/Amsterdam in 2026): UTC+1,
    UTC+2 from 2026-03-29 01:00 UTC, UTC+1 again from 2026-10-25 01:00 UTC. *)
Definition CET_2026 : zone :=
  mkZone (1 * HOUR) [(to_us (mkDT 2026 3 29 1 0 0 0), 2 * HOUR);
                     (to_us (mkDT 2026 10 25 1 0 0 0), 1 * HOUR)].

Lemma parse_time_input_hhmm_witness :
  clock_ok WIB monday_10_wib = true ∧
  ∃ r, parse_time_input WIB monday_10_wib "09:00" = Ok (Some r) ∧ off r = 0 ∧
    aware_us r + offset_at WIB monday_10_wib =
      (let t := at_time (local_clock WIB monday_10_wib) 9 0 in
       if t <=? local_clock WIB monday_10_wib then t + days 1 else t).
Proof.
  split; [vm_compute; reflexivity|].
  apply (parse_time_input_hhmm WIB monday_10_wib ltac:(vm_compute; reflexivity)
           "09:00" "09:00" 9 0); [reflexivity | reflexivity | reflexivity | lia | lia].
Defined.

Lemma parse_time_input_future_witness :
  parse_time_input WIB monday_10_wib "senin 09:00" =
    Ok (Some (mkAware (mkDT 2026 11 16 2 0 0 0) 0)) ∧
  monday_10_wib < aware_us (mkAware (mkDT 2026 11 16 2 0 0 0) 0) ∧
  off (mkAware (mkDT 2026 11 16 2 0 0 0) 0) = 0.
Proof.
  assert (E : parse_time_input WIB monday_10_wib "senin 09:00" =
                Ok (Some (mkAware (mkDT 2026 11 16 2 0 0 0) 0))) by (vm_compute; reflexivity).
  split; [exact E|]. exact (parse_time_input_future _ _ _ _ E).
Defined.

Lemma parse_time_input_weekday_witness :
  clock_ok WIB monday_10_wib = true ∧
  let k := (0 - (local_clock WIB monday_10_wib / US_PER_DAY) mod 7) mod 7 in
  ∃ r, parse_time_input WIB monday_10_wib "senin 09:00" = Ok (Some r) ∧ off r = 0 ∧
    aware_us r + offset_at WIB monday_10_wib =
      (let c := at_time (local_clock WIB monday_10_wib) 9 0 + days k in
       if (k =? 0) && (c <=? local_clock WIB monday_10_wib) then c + days 7 else c).
Proof.
  split; [vm_compute; reflexivity|].
  apply (parse_time_input_weekday WIB monday_10_wib ltac:(vm_compute; reflexivity)
           "senin 09:00" "senin" "09:00" 0 9 0); [reflexivity | reflexivity | reflexivity | lia | lia].
Defined.

(** The worked example of the specification, evaluated: at Monday
    10:00 in Jakarta, ["14:00"] is today 14:00, ["09:00"] is Tuesday 09:00,
    ["senin 09:00"] is next Monday 09:00 and ["Rabu 09:00"] is Wednesday
    09:00 (local wall clocks shown). *)
Example parse_time_input_spec_example :
  local_of' (parse_time_input WIB monday_10_wib "14:00") = Some (mkDT 2026 11 9 14 0 0 0) ∧
  local_of' (parse_time_input WIB monday_10_wib "09:00") = Some (mkDT 2026 11 10 9 0 0 0) ∧
  local_of' (parse_time_input WIB monday_10_wib "senin 09:00") = Some (mkDT 2026 11 16 9 0 0 0) ∧
  local_of' (parse_time_input WIB monday_10_wib "Rabu 09:00") = Some (mkDT 2026 11 11 9 0 0 0).
Proof. vm_compute. repeat split. Qed.

Lemma parse_time_input_hhmm_invalid_witness :
  clock_ok WIB monday_10_wib = true ∧ ¬ (0 ≤ 24 ≤ 23 ∧ 0 ≤ 0 ≤ 59) ∧
  parse_time_input WIB monday_10_wib "24:00" = Ok None.
Proof.
  split; [vm_compute; reflexivity|]. split; [lia|].
  apply (parse_time_input_hhmm_invalid WIB monday_10_wib ltac:(vm_compute; reflexivity)
           "24:00" "24:00" 24 0); [reflexivity | reflexivity | reflexivity | lia].
Defined.

Definition wall_clock_of (z : zone) (r : Res (option aware)) : option datetime :=
  match r with Ok (Some a) => Some (wall_clock z a) | _ => None end.


(** ["29-02 HH:MM"] is accepted before 29 February of a leap year but
    rejected after it: the retry [replace(year=year + 1)] raises
    [ValueError] in the following, non-leap year. *)
Example parse_time_input_feb29 :
  wall_clock_of WIB (parse_time_input WIB (to_us (mkDT 2028 2 1 3 0 0 0)) "29-02 09:00")
    = Some (mkDT 2028 2 29 9 0 0 0) ∧
  parse_time_input WIB (to_us (mkDT 2028 3 1 3 0 0 0)) "29-02 09:00" = Ok None.
Proof. vm_compute. split; reflexivity. Qed.
