(* ===== verification/Recurrence.v ===== *)
(** * Recurrence: [ChronoReply._calculate_next_repeat] (lines 214-249)

    The calculator reads the task's [timezone], resolves it with
    [pytz.timezone], reads [datetime.now(tz)] once, splits [repeat_value]
    into an hour and a minute, and then
    - for [repeat_type == "harian"] returns today at that time when it is
      strictly later than now, tomorrow otherwise ([next_repeat_harian]);
    - for ["mingguan"] returns the next [repeat_day] at that time, a week
      later when that day is today and the time has passed, and [None] when
      [repeat_day] is not one of the seven names ([next_repeat_mingguan]);
    - returns [None] for any other [repeat_type].
    Unlike the parser it has no [try]: a missing key, an unknown zone or a
    malformed [repeat_value] raises.

    The daily and weekly branches are copies of the parser's [HH:MM] and
    [<hari> HH:MM] cases; [next_repeat_harian_eq] and
    [next_repeat_mingguan_eq] prove that the copies agree, so the parser's
    specifications carry over. *)

From S2P Require Import Prelude PyStr Calendar Zone PyVal Parser.
Local Open Scope Z_scope.

Section NextRepeat.
Context {tzdb : TzDatabase}.

(** [pytz.timezone(v)] on a dict value: [None] is an unknown zone, and a
    value without [.upper()] raises [AttributeError]. *)
Definition pytz_timezone_val (v : PyVal) : Res zone :=
  match v with
  | PNone => Raise UnknownTimeZoneError
  | PStr name => pytz_timezone name
  | _ => Raise AttributeError
  end.

(** The [harian] branch (lines 222-226). *)
Definition next_repeat_harian (now : aware) (hour minute : Z) : Res (option aware) :=
  next_dt ← replace_time_aware now hour minute;
  next_dt ← (if aware_le next_dt now then add_aware next_dt (days 1) else mret next_dt);
  r ← astimezone_utc next_dt;
  mret (Some r).

(** The [mingguan] branch after [day_name = task["repeat_day"].lower()]
    (lines 231-247). *)
Definition next_repeat_mingguan (now : aware) (day_name : string) (hour minute : Z)
    : Res (option aware) :=
  if negb (bool_decide (day_name ∈ DAYS_OF_WEEK)) then mret None
  else
    target ← (match index_of day_name DAYS_OF_WEEK with
              | Some i => mret i
              | None => Raise ValueError
              end);
    let current := weekday (naive now) in
    let diff := target - current in
    let diff := if diff <? 0 then diff + 7 else diff in
    next_dt ← add_aware now (days diff);
    next_dt ← replace_time_aware next_dt hour minute;
    next_dt ← (if (diff =? 0) && aware_le next_dt now
               then add_aware next_dt (days 7) else mret next_dt);
    r ← astimezone_utc next_dt;
    mret (Some r).

(** [_calculate_next_repeat(task)] at the UTC clock reading [u]. *)
Definition calculate_next_repeat (task : dict) (u : Z) : Res (option aware) :=
  tzv ← getitem task "timezone";
  tz ← pytz_timezone_val tzv;
  now ← now_in tz u;
  rv ← getitem task "repeat_value";
  rvs ← as_str rv;
  '(hour, minute) ← int_pair ":" rvs;
  rt ← getitem task "repeat_type";
  if py_eq rt (PStr "harian") then next_repeat_harian now hour minute
  else if py_eq rt (PStr "mingguan") then
    rd ← getitem task "repeat_day";
    rds ← as_str rd;
    next_repeat_mingguan now (lower rds) hour minute
  else mret None.
End NextRepeat.

(** ** The two copies of the algorithm agree *)

(** the [harian] branch of [_calculate_next_repeat] computes exactly
    what case 1 of [parse_time_input] computes from the same time string:
    the source's two copies of "today at [h:m], or tomorrow" agree, so a
    daily task's first run (seeded at creation) and later runs follow one
    rule. *)
Theorem next_repeat_harian_eq now s :
  case_hhmm now s = ('(h, m) ← int_pair ":" s; next_repeat_harian now h m).
Proof. reflexivity. Qed.

Lemma index_of_elem_Some x l : x ∈ l → ∃ i, index_of x l = Some i.
Proof.
  induction l as [|y l IH]; simpl; intros Hx; [by apply not_elem_of_nil in Hx|].
  destruct (String.eqb_spec x y) as [->|Hne]; [eauto|].
  apply elem_of_cons in Hx as [->|Hx]; [done|].
  destruct (IH Hx) as [i ->]. eauto.
Qed.

(** The [mingguan] branch on a known day name computes what case 2 of
    [parse_time_input] computes through [get_next_day]. *)
Lemma next_repeat_mingguan_eq now name h m :
  name ∈ DAYS_OF_WEEK →
  next_repeat_mingguan now name h m =
    (dt ← get_next_day now name h m;
     match dt with Some d => r ← astimezone_utc d; mret (Some r) | None => mret None end).
Proof.
  intros Hin. unfold next_repeat_mingguan, get_next_day.
  destruct (index_of_elem_Some _ _ Hin) as [i ->].
  rewrite bool_decide_eq_true_2 by done. res_step.
  destruct (add_aware _ _) as [nd|e]; simpl; [|reflexivity].
  destruct (replace_time_aware _ _ _) as [td|e]; simpl; [|reflexivity].
  destruct (_ && _); simpl; [|reflexivity].
  by destruct (add_aware _ _).
Qed.

Lemma next_repeat_mingguan_not_day now name h m :
  name ∉ DAYS_OF_WEEK → next_repeat_mingguan now name h m = Ok None.
Proof. intros Hn. unfold next_repeat_mingguan. by rewrite bool_decide_eq_false_2. Qed.

(** ** Specification *)

Section RecurrenceSpec.
Context {tzdb : TzDatabase} (task : dict) (z : zone) (u : Z) (s : string) (h m : Z).
(** A recurring task whose zone is known, read at a representable clock,
    with a well-formed [repeat_value]. *)
Hypothesis Hclk : clock_ok z u = true.
Hypothesis Htz : ∃ name, task !! "timezone" = Some (PStr name) ∧ tz_lookup name = Some z.
Hypothesis Hrv : task !! "repeat_value" = Some (PStr s).
Hypothesis Hp : int_pair ":" s = Ok (h, m).

Lemma calculate_next_repeat_prefix :
  ∃ nl, to_us (naive nl) = local_clock z u ∧ off nl = offset_at z u ∧
    valid_dt (naive nl) = true ∧
    ∀ rt, task !! "repeat_type" = Some rt →
    calculate_next_repeat task u =
      if py_eq rt (PStr "harian") then next_repeat_harian nl h m
      else if py_eq rt (PStr "mingguan") then
        (rd ← getitem task "repeat_day"; rds ← as_str rd;
         next_repeat_mingguan nl (lower rds) h m)
      else mret None.
Proof.
  destruct Htz as (name & Ht & Hz).
  destruct (parse_now z u Hclk) as (nl & Hn & Ln & On & Vn).
  exists nl. do 3 (split; [done|]). intros rt Hrt.
  unfold calculate_next_repeat.
  rewrite (proj2 (getitem_Ok _ _ _) Ht). res_step.
  unfold pytz_timezone_val, pytz_timezone. rewrite Hz. res_step.
  rewrite Hn. res_step. rewrite (proj2 (getitem_Ok _ _ _) Hrv). res_step.
  rewrite Hp. res_step. by rewrite (proj2 (getitem_Ok _ _ _) Hrt).
Qed.

(** C18: a daily task is rescheduled to today at its time when that is
    strictly later than the reading, and to tomorrow at its time
    otherwise. *)
Theorem next_repeat_daily :
  task !! "repeat_type" = Some (PStr "harian") → 0 ≤ h ≤ 23 → 0 ≤ m ≤ 59 →
  ∃ r, calculate_next_repeat task u = Ok (Some r) ∧ off r = 0 ∧
    aware_us r + offset_at z u =
      (let t := at_time (local_clock z u) h m in
       if t <=? local_clock z u then t + days 1 else t).
Proof.
  intros Hrt Hh Hm.
  destruct calculate_next_repeat_prefix as (nl & Ln & On & Vn & Hc).
  rewrite (Hc _ Hrt). simpl.
  destruct (case_hhmm_spec z u Hclk nl s h m Ln On Vn Hp Hh Hm) as (r & Hr & Hrest).
  exists r. split; [|done]. rewrite <- Hr, next_repeat_harian_eq, Hp. reflexivity.
Qed.

(** C19: a weekly task on a known day name is rescheduled [k] days ahead
    at its time, [k] being the distance (mod 7) to that weekday, and a
    full week ahead when the day is today and the time has passed. *)
Theorem next_repeat_weekly d tw :
  task !! "repeat_type" = Some (PStr "mingguan") → task !! "repeat_day" = Some (PStr d) →
  index_of (lower d) DAYS_OF_WEEK = Some tw → 0 ≤ h ≤ 23 → 0 ≤ m ≤ 59 →
  let k := (tw - (local_clock z u / US_PER_DAY) mod 7) mod 7 in
  ∃ r, calculate_next_repeat task u = Ok (Some r) ∧ off r = 0 ∧
    aware_us r + offset_at z u =
      (let c := at_time (local_clock z u) h m + days k in
       if (k =? 0) && (c <=? local_clock z u) then c + days 7 else c).
Proof.
  intros Hrt Hrd Hi Hh Hm k.
  destruct calculate_next_repeat_prefix as (nl & Ln & On & Vn & Hc).
  rewrite (Hc _ Hrt). simpl. rewrite (proj2 (getitem_Ok _ _ _) Hrd). res_step.
  rewrite next_repeat_mingguan_eq by (eapply index_of_elem; eauto).
  destruct (get_next_day_spec z u Hclk nl (lower d) tw h m Ln On Vn Hi Hh Hm) as (t & -> & Ot & Lt).
  fold k in Lt. cbv zeta in Lt |- *. res_step.
  assert (0 ≤ k < 7) by (apply Z.mod_pos_bound; lia).
  pose proof (at_time_bounds (local_clock z u) h m Hh Hm).
  pose proof (mod_day_bounds (local_clock z u)). pose proof (clock_bounds z u Hclk).
  destruct (astimezone_utc_ok t) as (r & -> & Ar & Or & _).
  { unfold aware_us. rewrite Lt, Ot. unfold local_clock in *.
    destruct (_ && _); solve_range. }
  res_step. exists r. split; [done|]. split; [done|].
  rewrite <- Lt. unfold aware_us in *. lia.
Qed.

(** C35: a weekly task whose [repeat_day] is not one of the seven names
    gets [None], not an exception (the source's [return None]). *)
Theorem next_repeat_weekly_bad_day d :
  task !! "repeat_type" = Some (PStr "mingguan") → task !! "repeat_day" = Some (PStr d) →
  lower d ∉ DAYS_OF_WEEK →
  calculate_next_repeat task u = Ok None.
Proof.
  intros Hrt Hrd Hn.
  destruct calculate_next_repeat_prefix as (nl & _ & _ & _ & Hc).
  rewrite (Hc _ Hrt). simpl. rewrite (proj2 (getitem_Ok _ _ _) Hrd). res_step.
  by apply next_repeat_mingguan_not_day.
Qed.

(** a daily task that fired at its time [h:m] of the current local
    day (reading [u] at or after the firing instant [S]) is rescheduled
    exactly 24 hours after [S], when the offset does not change. *)
Corollary next_repeat_daily_24h S :
  task !! "repeat_type" = Some (PStr "harian") → 0 ≤ h ≤ 23 → 0 ≤ m ≤ 59 →
  S + offset_at z u = at_time (local_clock z u) h m → S ≤ u →
  ∃ r, calculate_next_repeat task u = Ok (Some r) ∧ aware_us r = S + days 1.
Proof.
  intros Hrt Hh Hm HS Hle.
  destruct (next_repeat_daily Hrt Hh Hm) as (r & Hr & _ & Ar).
  exists r. split; [done|]. cbv zeta in Ar. rewrite <- HS in Ar.
  unfold local_clock in Ar. destruct (Z.leb_spec (S + offset_at z u) (u + offset_at z u)); lia.
Qed.
End RecurrenceSpec.

(** Where the next run falls: strictly after the reading, within a week of
    it, and within a day of it for a daily task. *)
Lemma calculate_next_repeat_window {tzdb : TzDatabase} task u r :
  calculate_next_repeat task u = Ok (Some r) →
  u < aware_us r ∧ off r = 0 ∧ valid_dt (naive r) = true ∧ aware_us r ≤ u + days 7 ∧
  (task !! "repeat_type" = Some (PStr "harian") → aware_us r ≤ u + days 1).
Proof.
  unfold calculate_next_repeat. intros H.
  apply bind_eq_Ok in H as (tzv & _ & H).
  apply bind_eq_Ok in H as (tz & _ & H).
  apply bind_eq_Ok in H as (nl & Hn & H).
  destruct (now_in_Ok _ _ _ Hn) as (An & _ & Vn). rewrite <- An.
  apply bind_eq_Ok in H as (rv & _ & H).
  apply bind_eq_Ok in H as (rvs & _ & H).
  apply bind_eq_Ok in H as ([h m] & _ & H). cbv beta iota in H.
  apply bind_eq_Ok in H as (rt & Hrt & H).
  destruct (py_eq rt (PStr "harian")) eqn:Hd.
  { destruct (hhmm_body_future _ _ _ _ Vn H) as (? & ? & ? & ?). unfold days, US_PER_DAY in *. split_and!; auto; lia. }
  assert (Hnd : task !! "repeat_type" ≠ Some (PStr "harian")).
  { intros Ht. rewrite (proj2 (getitem_Ok _ _ _) Ht) in Hrt. injection Hrt as <-. discriminate. }
  destruct (py_eq rt (PStr "mingguan")); [|by injection H].
  apply bind_eq_Ok in H as (rd & _ & H).
  apply bind_eq_Ok in H as (rds & _ & H).
  destruct (decide (lower rds ∈ DAYS_OF_WEEK)) as [Hin|Hn'];
    [|by rewrite next_repeat_mingguan_not_day in H].
  rewrite next_repeat_mingguan_eq in H by done.
  apply bind_eq_Ok in H as ([t|] & Hg & H); [|by injection H].
  apply bind_eq_Ok in H as (r' & Ha & [= <-]).
  destruct (get_next_day_future _ _ _ _ _ Vn Hg) as (Lt & _ & Ut).
  apply astimezone_utc_Ok in Ha as (A & O & Vr). split_and!; [lia | done | done | lia | done].
Qed.

Lemma calculate_next_repeat_after {tzdb : TzDatabase} task u r :
  calculate_next_repeat task u = Ok (Some r) →
  u < aware_us r ∧ off r = 0 ∧ valid_dt (naive r) = true.
Proof. intros H. by destruct (calculate_next_repeat_window task u r H) as (? & ? & ? & _). Qed.


(** C5: every instant [_calculate_next_repeat] returns is strictly later
    than its clock reading, and in UTC: a recurring task is never
    rescheduled into the past. *)
Theorem next_repeat_future {tzdb : TzDatabase} task u r :
  calculate_next_repeat task u = Ok (Some r) → u < aware_us r ∧ off r = 0.
Proof. intros H. by destruct (calculate_next_repeat_after task u r H) as (? & ? & _). Qed.

(** C16: The next run [_calculate_next_repeat] returns lies after its
    clock reading and at most a week after it. For a daily task it is at
    most a day after it. A recurring task is never pushed further out
    than its period. *)
Theorem next_repeat_within_period {tzdb : TzDatabase} task u r :
  calculate_next_repeat task u = Ok (Some r) →
  u < aware_us r ≤ u + days 7 ∧
  (task !! "repeat_type" = Some (PStr "harian") → aware_us r ≤ u + days 1).
Proof. intros H. destruct (calculate_next_repeat_window task u r H) as (? & _ & _ & ? & ?). auto. Qed.

(** A task whose zone name the database does not know makes the
    calculator raise [UnknownTimeZoneError] (there is no [try] around it). *)
Theorem next_repeat_unknown_zone {tzdb : TzDatabase} task u name :
  task !! "timezone" = Some (PStr name) → tz_lookup name = None →
  calculate_next_repeat task u = Raise UnknownTimeZoneError.
Proof.
  intros Ht Hz. unfold calculate_next_repeat.
  rewrite (proj2 (getitem_Ok _ _ _) Ht). res_step.
  unfold pytz_timezone_val, pytz_timezone. by rewrite Hz.
Qed.

(** ** Witnesses and examples *)

(** A zone database with Jakarta and Amsterdam. *)
Definition demo_tzdb : TzDatabase := λ name,
  if String.eqb name "Asia/Jakarta" then Some WIB
  else if String.eqb name "Europe/Amsterdam" then Some CET_2026
  else None.

Definition recurring_task (tz rtype value day : string) : dict :=
  <["timezone" := PStr tz]> (<["repeat_type" := PStr rtype]>
    (<["repeat_value" := PStr value]> (<["repeat_day" := PStr day]> ∅))).

Lemma next_repeat_daily_witness :
  clock_ok WIB monday_10_wib = true ∧
  ∃ r, calculate_next_repeat (tzdb := demo_tzdb)
         (recurring_task "Asia/Jakarta" "harian" "09:00" "") monday_10_wib = Ok (Some r) ∧
       off r = 0 ∧
       aware_us r + offset_at WIB monday_10_wib =
         (let t := at_time (local_clock WIB monday_10_wib) 9 0 in
          if t <=? local_clock WIB monday_10_wib then t + days 1 else t).
Proof.
  split; [vm_compute; reflexivity|].
  apply (next_repeat_daily (tzdb := demo_tzdb) (recurring_task "Asia/Jakarta" "harian" "09:00" "")
           WIB monday_10_wib "09:00" 9 0); try (vm_compute; reflexivity); try lia.
  exists "Asia/Jakarta". split; vm_compute; reflexivity.
Defined.

Lemma next_repeat_weekly_witness :
  clock_ok WIB monday_10_wib = true ∧
  let k := (4 - (local_clock WIB monday_10_wib / US_PER_DAY) mod 7) mod 7 in
  ∃ r, calculate_next_repeat (tzdb := demo_tzdb)
         (recurring_task "Asia/Jakarta" "mingguan" "08:30" "Jumat") monday_10_wib = Ok (Some r) ∧
       off r = 0 ∧
       aware_us r + offset_at WIB monday_10_wib =
         (let c := at_time (local_clock WIB monday_10_wib) 8 30 + days k in
          if (k =? 0) && (c <=? local_clock WIB monday_10_wib) then c + days 7 else c).
Proof.
  split; [vm_compute; reflexivity|].
  eapply (next_repeat_weekly (tzdb := demo_tzdb)
            (recurring_task "Asia/Jakarta" "mingguan" "08:30" "Jumat")
            WIB monday_10_wib "08:30" 8 30 _ _ _ _ "Jumat" 4).
  Unshelve.
  all: try (exists "Asia/Jakarta"; split; vm_compute; reflexivity).
  all: try (vm_compute; reflexivity). all: lia.
Defined.

Lemma next_repeat_future_witness :
  calculate_next_repeat (tzdb := demo_tzdb)
    (recurring_task "Asia/Jakarta" "harian" "09:00" "") monday_10_wib =
    Ok (Some (mkAware (mkDT 2026 11 10 2 0 0 0) 0)) ∧
  monday_10_wib < aware_us (mkAware (mkDT 2026 11 10 2 0 0 0) 0) ∧
  off (mkAware (mkDT 2026 11 10 2 0 0 0) 0) = 0.
Proof.
  assert (E : calculate_next_repeat (tzdb := demo_tzdb)
                (recurring_task "Asia/Jakarta" "harian" "09:00" "") monday_10_wib =
              Ok (Some (mkAware (mkDT 2026 11 10 2 0 0 0) 0))) by (vm_compute; reflexivity).
  split; [exact E|]. exact (next_repeat_future _ _ _ E).
Defined.

(** A weekly Monday 09:00 task read on Monday at 10:00 in Jakarta runs six
    days and 23 hours later. *)
Lemma next_repeat_within_period_witness :
  calculate_next_repeat (tzdb := demo_tzdb)
    (recurring_task "Asia/Jakarta" "mingguan" "09:00" "Senin") monday_10_wib =
    Ok (Some (mkAware (mkDT 2026 11 16 2 0 0 0) 0)) ∧
  (monday_10_wib < aware_us (mkAware (mkDT 2026 11 16 2 0 0 0) 0) ≤ monday_10_wib + days 7 ∧
   (recurring_task "Asia/Jakarta" "mingguan" "09:00" "Senin" !! "repeat_type" = Some (PStr "harian") →
    aware_us (mkAware (mkDT 2026 11 16 2 0 0 0) 0) ≤ monday_10_wib + days 1)).
Proof.
  assert (E : calculate_next_repeat (tzdb := demo_tzdb)
                (recurring_task "Asia/Jakarta" "mingguan" "09:00" "Senin") monday_10_wib =
              Ok (Some (mkAware (mkDT 2026 11 16 2 0 0 0) 0))) by (vm_compute; reflexivity).
  split; [exact E|]. exact (next_repeat_within_period _ _ _ E).
Defined.

Lemma next_repeat_weekly_bad_day_witness :
  clock_ok WIB monday_10_wib = true ∧ (lower "Funday" ∉ DAYS_OF_WEEK) ∧
  calculate_next_repeat (tzdb := demo_tzdb)
    (recurring_task "Asia/Jakarta" "mingguan" "08:30" "Funday") monday_10_wib = Ok None.
Proof.
  assert (Hn : lower "Funday" ∉ DAYS_OF_WEEK)
    by (apply (bool_decide_eq_false_1 (lower "Funday" ∈ DAYS_OF_WEEK)); vm_compute; reflexivity).
  split; [vm_compute; reflexivity|]. split; [exact Hn|].
  eapply (next_repeat_weekly_bad_day (tzdb := demo_tzdb)
            (recurring_task "Asia/Jakarta" "mingguan" "08:30" "Funday")
            WIB monday_10_wib "08:30" 8 30 _ _ _ _ "Funday").
  Unshelve.
  all: try (exists "Asia/Jakarta"; split; vm_compute; reflexivity).
  all: try (vm_compute; reflexivity). exact Hn.
Defined.

Lemma next_repeat_daily_24h_witness :
  ∃ r, calculate_next_repeat (tzdb := demo_tzdb)
         (recurring_task "Asia/Jakarta" "harian" "10:00" "") (monday_10_wib + 5000000) = Ok (Some r) ∧
       aware_us r = monday_10_wib + days 1.
Proof.
  apply (next_repeat_daily_24h (tzdb := demo_tzdb) (recurring_task "Asia/Jakarta" "harian" "10:00" "")
           WIB (monday_10_wib + 5000000) "10:00" 10 0); try (vm_compute; reflexivity); try lia.
  exists "Asia/Jakarta". split; vm_compute; reflexivity.
Defined.

Lemma next_repeat_unknown_zone_witness :
  calculate_next_repeat (tzdb := demo_tzdb)
    (recurring_task "Mars/Olympus" "harian" "09:00" "") monday_10_wib = Raise UnknownTimeZoneError.
Proof. apply next_repeat_unknown_zone with "Mars/Olympus"; vm_compute; reflexivity. Defined.

