(* ===== verification/Scheduler.v ===== *)
(** * Scheduler: [ChronoReply._scheduler_loop]

    The loop of src/chronoreply.py, lines 175-212: every 5 seconds it reads
    the UTC clock once, scans [self.tasks], sends the content of each due
    task of the logged-in user, marks fired [once] tasks for deletion and
    reschedules the others with [_calculate_next_repeat], then, only when
    something was marked, drops the marked ids and calls [save_tasks].

    The bot's state is [bot]: the task list and the task file.  What the
    scan learns from the outside world is a parameter: [channel_found]
    answers [self.get_channel(cid)], and [obs i] says, for the task at
    position [i] of the list, whether [channel.send] succeeds and which UTC
    instant [datetime.now] returns inside [_calculate_next_repeat].  A
    successful send is a [delivery].  An exception that escapes the loop
    body ends the [asyncio] task: [tick] then returns [Raise], keeping the
    deliveries and the in-place mutations made before it, and [run] stops.

    The scan here has no interleaving: the command handlers that may run
    while a [send] is awaited are added in Interleave.v, which shows that
    without them its loop is this [tick].  The file ends with the contract
    of section 4.4 of the specification ([spec_tick] over abstract tasks)
    and the refinement theorem [tick_refines_spec]. *)

From S2P Require Import Prelude PyStr Calendar Zone PyVal Store Parser Recurrence.
Local Open Scope Z_scope.

Record delivery := mkDelivery { dl_channel : PyVal; dl_content : PyVal }.

#[export] Instance delivery_eq_dec : EqDecision delivery.
Proof. solve_decision. Defined.

(** The answers of the outside world to one fired task. *)
Record fire_obs := mkObs {
  send_ok : bool;          (** [await channel.send(...)] returns *)
  recompute_clock : Z      (** UTC reading of [datetime.now] in [_calculate_next_repeat] *)
}.

Record bot := mkBot { bot_tasks : list dict; bot_file : option file_content }.

Definition opt_val (o : option aware) : PyVal :=
  match o with Some a => PDateTime a | None => PNone end.

(** [x in xs] on a list of ids. *)
Definition py_in (x : PyVal) (xs : list PyVal) : bool := existsb (py_eq x) xs.

Section Scheduler.
Context {tzdb : TzDatabase}.
Context (my_id : PyVal) (channel_found : PyVal → bool).

(** [await channel.send(content)]. *)
Definition send (cid content : PyVal) (ok : bool) : list delivery * Res unit :=
  if ok then ([mkDelivery cid content], Ok tt) else ([], Raise HTTPException).

(** Lines 198-200: [channel = self.get_channel(task["channel_id"])] and, when
    the channel is found, the send. *)
Definition deliver (task : dict) (o : fire_obs) : list delivery * Res unit :=
  match getitem task "channel_id" with
  | Raise e => ([], Raise e)
  | Ok cid =>
      if channel_found cid then
        match getitem task "content" with
        | Raise e => ([], Raise e)
        | Ok c => send cid c (send_ok o)
        end
      else ([], Ok tt)
  end.

(** Lines 202-205: retire a [once] task by its id, reschedule the others in
    place. *)
Definition after_send (task : dict) (o : fire_obs) : Res (dict * option PyVal) :=
  rt ← getitem task "repeat_type";
  if py_eq rt (PStr "once") then
    id ← getitem task "id"; mret (task, Some id)
  else
    nxt ← calculate_next_repeat task (recompute_clock o);
    mret (<[SCHED := opt_val nxt]> task, None).

(** The [try] block of lines 197-205: the deliveries it makes and its
    outcome, the task (rescheduled in place) and the id to delete. *)
Definition fire (task : dict) (o : fire_obs) : list delivery * Res (dict * option PyVal) :=
  let '(w, r) := deliver task o in (w, _ ← r; after_send task o).

(** [schedule and schedule <= now]. *)
Definition sched_due (sched : PyVal) (now : aware) : Res bool :=
  if truthy sched then
    match sched with PDateTime a => Ok (aware_le a now) | _ => Raise TypeError end
  else Ok false.

(** Lines 192-196: whether the task is fired. *)
Definition selected (now : aware) (task : dict) : Res bool :=
  uid ← getitem task "user_id";
  if negb (py_eq uid my_id) then mret false
  else sched ← getitem task SCHED; sched_due sched now.

(** One iteration of the [for] loop (lines 191-208).  The [except] handler
    prints [task['id']], which raises [KeyError] when the key is missing. *)
Definition scan_one (now : aware) (o : fire_obs) (task : dict)
    : list delivery * Res (dict * option PyVal) :=
  match selected now task with
  | Raise e => ([], Raise e)
  | Ok false => ([], Ok (task, None))
  | Ok true =>
      let '(w, r) := fire task o in
      match r with
      | Ok x => (w, Ok x)
      | Raise _ => (w, _ ← getitem task "id"; mret (task, None))
      end
  end.

Record scan_out := mkScanOut {
  so_tasks : list dict;        (** [self.tasks], with the in-place reschedules *)
  so_sent : list delivery;
  so_pending : list PyVal;     (** [pending_delete] *)
  so_status : Res unit
}.

(** The whole [for] loop; [obs j] answers for the [j]-th task of [ts]. *)
Fixpoint scan (now : aware) (obs : nat → fire_obs) (ts : list dict) : scan_out :=
  match ts with
  | [] => mkScanOut [] [] [] (Ok tt)
  | t :: ts' =>
      let '(w, r) := scan_one now (obs 0%nat) t in
      match r with
      | Raise e => mkScanOut (t :: ts') w [] (Raise e)
      | Ok (t', pd) =>
          let o := scan now (λ k, obs (S k)) ts' in
          mkScanOut (t' :: so_tasks o) (w ++ so_sent o) (option_list pd ++ so_pending o) (so_status o)
      end
  end.

(** [t["id"] not in pending_delete]. *)
Definition keep_undeleted (pending : list PyVal) (t : dict) : Res bool :=
  id ← getitem t "id"; mret (negb (py_in id pending)).

(** One pass of the [while] body (lines 186-212) at the UTC clock
    reading [u]. *)
Definition tick (obs : nat → fire_obs) (u : Z) (b : bot) : bot * list delivery * Res unit :=
  match now_in utc_zone u with
  | Raise e => (b, [], Raise e)
  | Ok now =>
      let o := scan now obs (bot_tasks b) in
      let b1 := mkBot (so_tasks o) (bot_file b) in
      match so_status o with
      | Raise e => (b1, so_sent o, Raise e)
      | Ok _ =>
          if bool_decide (so_pending o = []) then (b1, so_sent o, Ok tt)
          else
            match res_filterM (keep_undeleted (so_pending o)) (so_tasks o) with
            | Raise e => (b1, so_sent o, Raise e)
            | Ok ts =>
                let '(ws, r) := save_tasks ts in
                (mkBot ts (after_writes (bot_file b) ws), so_sent o, r)
            end
      end
  end.

(** The [while] loop over successive clock readings; an exception ends it. *)
Fixpoint run (obs : nat → nat → fire_obs) (clocks : list Z) (b : bot)
    : bot * list delivery * Res unit :=
  match clocks with
  | [] => (b, [], Ok tt)
  | u :: us =>
      let '(b', w, r) := tick (obs 0%nat) u b in
      match r with
      | Raise e => (b', w, Raise e)
      | Ok _ => let '(b'', w', r') := run (λ k, obs (S k)) us b' in (b'', w ++ w', r')
      end
  end.

End Scheduler.

(** [ChronoReply.__init__]: a restarted bot reloads the file. *)
Definition restart (b : bot) : bot := mkBot (load_tasks (bot_file b)) (bot_file b).

(** ** Tasks the scan gets through *)

Section SchedulerLemmas.
Context {tzdb : TzDatabase}.
Context (my_id : PyVal) (channel_found : PyVal → bool).

(** [task["user_id"] == my_id]. *)
Definition owned (t : dict) : bool :=
  match t !! "user_id" with Some uid => py_eq uid my_id | None => false end.

(** The stored schedule is a datetime at or before the UTC instant [u]. *)
Definition due_at (u : Z) (t : dict) : bool :=
  match t !! SCHED with Some (PDateTime a) => aware_us a <=? u | _ => false end.

Definition sched_ok (v : PyVal) : bool :=
  match v with PDateTime _ => true | _ => negb (truthy v) end.

(** The scan does not crash on the task: it has a ["user_id"], and when the
    task is the user's, a schedule that is a datetime or falsy, and an
    ["id"] for the [except] handler. *)
Definition scan_safe (t : dict) : bool :=
  match t !! "user_id" with
  | None => false
  | Some uid =>
      negb (py_eq uid my_id) ||
      (match t !! SCHED with Some v => sched_ok v | None => false end &&
       bool_decide (is_Some (t !! "id")))
  end.

Definition outcome_task (t : dict) (p : list delivery * Res (dict * option PyVal)) : dict :=
  match p.2 with Ok (t', _) => t' | Raise _ => t end.

Definition outcome_pending (p : list delivery * Res (dict * option PyVal)) : list PyVal :=
  match p.2 with Ok (_, pd) => option_list pd | Raise _ => [] end.

Lemma selected_safe now t :
  scan_safe t = true → selected my_id now t = Ok (owned t && due_at (aware_us now) t).
Proof.
  unfold scan_safe, selected, owned, due_at, getitem.
  destruct (t !! "user_id") as [uid|]; [|discriminate]. rewrite bind_Ok.
  destruct (py_eq uid my_id); [|reflexivity]. cbn [negb orb andb].
  destruct (t !! SCHED) as [v|]; [|discriminate]. rewrite bind_Ok.
  intros [Hv _]%andb_prop. unfold sched_due.
  destruct v; cbn [sched_ok truthy] in *; try reflexivity;
    apply negb_true_iff in Hv; by rewrite Hv.
Qed.

Lemma scan_one_safe now o t :
  scan_safe t = true → ∃ x, (scan_one my_id channel_found now o t).2 = Ok x.
Proof.
  intros Hs. unfold scan_one. rewrite (selected_safe now t Hs).
  destruct (owned t && due_at _ t) eqn:Hsel; [|by eexists].
  destruct (fire _ _ _) as [w [x|e]]; [by eexists|]. cbn [snd].
  apply andb_prop in Hsel as [Ho _]. unfold scan_safe, owned in *.
  destruct (t !! "user_id"); [|discriminate]. rewrite Ho in Hs. simpl in Hs.
  apply andb_prop in Hs as [_ [v Hv]%bool_decide_eq_true_1].
  unfold getitem. rewrite Hv. by eexists.
Qed.

(** Without a crash, the scan is the task-by-task map of [scan_one]. *)
Lemma scan_safe_eq now obs ts :
  Forall (λ t, scan_safe t = true) ts →
  scan my_id channel_found now obs ts =
  mkScanOut (imap (λ j t, outcome_task t (scan_one my_id channel_found now (obs j) t)) ts)
            (concat (imap (λ j t, (scan_one my_id channel_found now (obs j) t).1) ts))
            (concat (imap (λ j t, outcome_pending (scan_one my_id channel_found now (obs j) t)) ts))
            (Ok tt).
Proof.
  intros Hall. revert obs. induction Hall as [|t ts Ht _ IH]; intros obs; [done|].
  cbn [scan]. destruct (scan_one_safe now (obs 0%nat) t Ht) as [[t' pd] Hx].
  rewrite IH, !imap_cons.
  destruct (scan_one _ _ _ _ t) as [w r] eqn:E. cbn [snd] in Hx. subst r.
  unfold outcome_task, outcome_pending. by cbn.
Qed.

End SchedulerLemmas.

Section TaskLemmas.
Context {tzdb : TzDatabase}.
Context (my_id : PyVal) (channel_found : PyVal → bool).

Lemma deliver_ok t o cid c :
  t !! "channel_id" = Some cid → channel_found cid = true → t !! "content" = Some c →
  send_ok o = true → deliver channel_found t o = ([mkDelivery cid c], Ok tt).
Proof. intros Hc Hf Hm Hs. unfold deliver, getitem, send. by rewrite Hc, Hf, Hm, Hs. Qed.

Lemma deliver_fail t o cid c :
  t !! "channel_id" = Some cid → channel_found cid = true → t !! "content" = Some c →
  send_ok o = false → deliver channel_found t o = ([], Raise HTTPException).
Proof. intros Hc Hf Hm Hs. unfold deliver, getitem, send. by rewrite Hc, Hf, Hm, Hs. Qed.

(** A fired task sends at most one message, its own content to its own
    channel. *)
Lemma deliver_shape t o :
  (deliver channel_found t o).1 = [] ∨
  ∃ cid c, t !! "channel_id" = Some cid ∧ t !! "content" = Some c ∧
           (deliver channel_found t o).1 = [mkDelivery cid c].
Proof.
  unfold deliver, getitem, send.
  destruct (t !! "channel_id") as [cid|]; [|by left].
  destruct (channel_found cid); [|by left].
  destruct (t !! "content") as [c|]; [|by left].
  destruct (send_ok o); [right; eauto | by left].
Qed.

Lemma after_send_once t o idv :
  t !! "repeat_type" = Some (PStr "once") → t !! "id" = Some idv →
  after_send t o = Ok (t, Some idv).
Proof. intros Hr Hi. unfold after_send, getitem. by rewrite Hr, Hi. Qed.

Lemma after_send_repeat t o rt :
  t !! "repeat_type" = Some rt → py_eq rt (PStr "once") = false →
  after_send t o = (nxt ← calculate_next_repeat t (recompute_clock o);
                    mret (<[SCHED := opt_val nxt]> t, None)).
Proof. intros Hr Hn. unfold after_send, getitem. rewrite Hr, bind_Ok. by rewrite Hn. Qed.

(** The outcome of a fired task whose [try] block fails is the task itself. *)
Definition fired_outcome (t : dict) (o : fire_obs) : dict * option PyVal :=
  match (deliver channel_found t o).2 ≫= (λ _, after_send t o) with
  | Ok x => x
  | Raise _ => (t, None)
  end.

Lemma scan_one_fired now o t :
  scan_safe my_id t = true → owned my_id t = true → due_at (aware_us now) t = true →
  scan_one my_id channel_found now o t = ((deliver channel_found t o).1, Ok (fired_outcome t o)).
Proof.
  intros Hs Ho Hd. unfold scan_one. rewrite (selected_safe my_id now t Hs), Ho, Hd. cbn.
  unfold fire, fired_outcome. destruct (deliver _ t o) as [w r]. cbn [fst snd].
  destruct (r ≫= _) as [x|e]; [done|].
  unfold scan_safe, owned in *. destruct (t !! "user_id"); [|discriminate].
  rewrite Ho in Hs. cbn in Hs. apply andb_prop in Hs as [_ [v Hv]%bool_decide_eq_true_1].
  unfold getitem. by rewrite Hv.
Qed.

Lemma scan_one_idle now o t :
  scan_safe my_id t = true → owned my_id t && due_at (aware_us now) t = false →
  scan_one my_id channel_found now o t = ([], Ok (t, None)).
Proof. intros Hs Hn. unfold scan_one. by rewrite (selected_safe my_id now t Hs), Hn. Qed.

(** The task a scan leaves behind is the task, or the task with its
    schedule set to [None], or to a whole instant later than the clock
    reading of [_calculate_next_repeat]. *)
Lemma scan_one_task now o t t' pd :
  (scan_one my_id channel_found now o t).2 = Ok (t', pd) →
  t' = t ∨ t' = <[SCHED := PNone]> t ∨
  ∃ r, t' = <[SCHED := PDateTime r]> t ∧ recompute_clock o < aware_us r ∧ off r = 0 ∧
       valid_dt (naive r) = true.
Proof.
  unfold scan_one, fire, after_send. intros H.
  repeat (case_match; simplify_eq/=); eauto.
  all: try match goal with Hb : getitem _ "id" ≫= _ = Ok _ |- _ =>
    apply bind_eq_Ok in Hb as (? & _ & [= <- _]); by left end.
  all: match goal with Hb : _ ≫= _ = Ok _ |- _ =>
    apply bind_eq_Ok in Hb as ([] & _ & Hb); apply bind_eq_Ok in Hb as (rt & _ & Hb);
    destruct (py_eq rt _);
    [apply bind_eq_Ok in Hb as (? & _ & [= <- _]); by left
    |apply bind_eq_Ok in Hb as ([na|] & Hc & [= <- _]); [|by right; left]];
    right; right; exists na; split; [done|]; by apply calculate_next_repeat_after in Hc end.
Qed.

(** The messages a task sends in a scan: none, or its own content to its
    own channel when it is selected. *)
Lemma scan_one_sent now o t :
  (scan_one my_id channel_found now o t).1 = [] ∨
  (selected my_id now t = Ok true ∧
   ∃ cid c, t !! "channel_id" = Some cid ∧ t !! "content" = Some c ∧
            (scan_one my_id channel_found now o t).1 = [mkDelivery cid c]).
Proof.
  unfold scan_one. destruct (selected my_id now t) as [[]|] eqn:Hs; try by left.
  unfold fire. destruct (deliver_shape t o) as [H|(cid & c & Hc & Hm & H)];
    destruct (deliver _ t o) as [w r]; cbn in H; subst w;
    destruct (r ≫= _); cbn; [by left|by left|right..]; eauto 10.
Qed.


End TaskLemmas.

(** ** One tick *)

(** [datetime.now(pytz.utc)] at the UTC reading [u]. *)
Definition utc_now (u : Z) : aware := mkAware (dt_of_us u) 0.

Lemma now_in_utc u : in_range u = true → now_in utc_zone u = Ok (utc_now u).
Proof. intros H. unfold now_in, of_us. change (offset_at utc_zone u) with 0. by rewrite Z.add_0_r, H. Qed.

Lemma aware_us_utc_now u : in_range u = true → aware_us (utc_now u) = u.
Proof. intros H. unfold aware_us, utc_now. cbn [naive off]. destruct (to_us_dt_of_us u H). lia. Qed.

Lemma py_in_false v P y : py_in v P = false → y ∈ P → py_eq v y = false.
Proof.
  intros Hn Hy. destruct (py_eq v y) eqn:E; [|done]. exfalso.
  assert (existsb (py_eq v) P = true) as Hc by (apply existsb_exists; exists y; split; [by apply list_elem_of_In | done]).
  unfold py_in in Hn. congruence.
Qed.

Lemma keep_undeleted_pure P t :
  is_Some (t !! "id") → keep_undeleted P t = Ok (negb (py_in (dget t "id") P)).
Proof. intros [v Hv]. unfold keep_undeleted, getitem, dget. by rewrite Hv. Qed.

Section TickLemmas.
Context {tzdb : TzDatabase}.
Context (my_id : PyVal) (channel_found : PyVal → bool).

Lemma tick_scan_ok obs u b :
  in_range u = true →
  so_status (scan my_id channel_found (utc_now u) obs (bot_tasks b)) = Ok tt →
  tick my_id channel_found obs u b =
  (let o := scan my_id channel_found (utc_now u) obs (bot_tasks b) in
   if bool_decide (so_pending o = []) then (mkBot (so_tasks o) (bot_file b), so_sent o, Ok tt)
   else match res_filterM (keep_undeleted (so_pending o)) (so_tasks o) with
        | Raise e => (mkBot (so_tasks o) (bot_file b), so_sent o, Raise e)
        | Ok ts => let '(ws, r) := save_tasks ts in (mkBot ts (after_writes (bot_file b) ws), so_sent o, r)
        end).
Proof. intros Hu Hs. unfold tick. rewrite now_in_utc by done. cbn zeta. by rewrite Hs. Qed.

(** A scan changes no key of a task but its schedule. *)
Lemma outcome_task_other now o t k :
  scan_safe my_id t = true → k ≠ SCHED →
  outcome_task t (scan_one my_id channel_found now o t) !! k = t !! k.
Proof.
  intros Hs Hk. destruct (scan_one_safe my_id channel_found now o t Hs) as [[t' pd] H].
  unfold outcome_task. rewrite H.
  destruct (scan_one_task my_id channel_found now o t t' pd H) as [->|[->|(r & -> & _)]]; [done| |].
  all: rewrite lookup_insert_ne; [done | congruence].
Qed.

Lemma scan_tasks_other now obs ts x k :
  Forall (λ t, scan_safe my_id t = true) ts → k ≠ SCHED →
  x ∈ so_tasks (scan my_id channel_found now obs ts) → ∃ t, t ∈ ts ∧ x !! k = t !! k.
Proof.
  intros Hall Hk Hx. rewrite scan_safe_eq in Hx by done. cbn [so_tasks] in Hx.
  apply list_elem_of_lookup_1 in Hx as [j Hj]. rewrite list_lookup_imap in Hj.
  destruct (ts !! j) as [t|] eqn:Ht; [|discriminate]. injection Hj as <-.
  exists t. split; [by eapply list_elem_of_lookup_2|].
  apply outcome_task_other; [|done]. exact (Forall_lookup_1 _ _ _ _ Hall Ht).
Qed.

(** A due [once] task of the user whose send succeeds. *)
Lemma scan_one_once now o t cid c idv :
  scan_safe my_id t = true → owned my_id t = true → due_at (aware_us now) t = true →
  t !! "repeat_type" = Some (PStr "once") → t !! "channel_id" = Some cid →
  channel_found cid = true → t !! "content" = Some c → send_ok o = true → t !! "id" = Some idv →
  scan_one my_id channel_found now o t = ([mkDelivery cid c], Ok (t, Some idv)).
Proof.
  intros Hs Ho Hd Hr Hc Hf Hm Hk Hi. rewrite scan_one_fired by done.
  unfold fired_outcome. rewrite (deliver_ok channel_found t o cid c) by done. cbn [fst snd].
  by rewrite bind_Ok, (after_send_once t o idv).
Qed.

Lemma now_in_utc_eq u now : now_in utc_zone u = Ok now → now = utc_now u.
Proof.
  intros H. unfold now_in in H. change (offset_at utc_zone u) with 0 in H. cbv zeta in H.
  rewrite Z.add_0_r in H. unfold of_us in H. destruct (in_range u); cbn in H; [|discriminate].
  by injection H as <-.
Qed.


(** Every message a scan sends is the content of a task it selected, sent to
    that task's channel, and no task sends more than one. *)
Lemma scan_sent_selected now obs ts :
  (∀ d, d ∈ so_sent (scan my_id channel_found now obs ts) →
        ∃ t, t ∈ ts ∧ selected my_id now t = Ok true ∧
             t !! "channel_id" = Some (dl_channel d) ∧ t !! "content" = Some (dl_content d)) ∧
  (length (so_sent (scan my_id channel_found now obs ts)) ≤
  length (filter (λ t, selected my_id now t = Ok true) ts))%nat.
Proof.
  revert obs. induction ts as [|t ts IH]; intros obs.
  { split; [intros d Hd; by apply not_elem_of_nil in Hd | cbn; lia]. }
  cbn [scan]. rewrite filter_cons.
  destruct (scan_one_sent my_id channel_found now (obs 0%nat) t) as [Hw | (Hsel & cid & c & Hc & Hm & Hw)];
    destruct (scan_one _ _ _ _ t) as [w [[t' pd]|e]]; cbn [fst] in Hw; subst w; cbn [so_sent app];
    [destruct (IH (λ k, obs (S k))) as [IHm IHl] | | destruct (IH (λ k, obs (S k))) as [IHm IHl] |].
  - split; [intros d Hd; destruct (IHm d Hd) as (t0 & ? & ?); exists t0; split; [by right | done]|].
    case_decide; cbn; lia.
  - split; [intros d Hd; by apply not_elem_of_nil in Hd | case_decide; cbn; lia].
  - split; [|rewrite decide_True by done; cbn; lia].
    intros d [->|Hd]%elem_of_cons.
    + exists t. split; [by left | done].
    + destruct (IHm d Hd) as (t0 & ? & ?). exists t0. split; [by right | done].
  - split; [|rewrite decide_True by done; cbn; lia].
    intros d ->%list_elem_of_singleton. exists t. split; [by left | done].
Qed.

(** Only a fired [once] task marks an id for deletion. *)
Lemma outcome_pending_not_once now o t :
  scan_safe my_id t = true →
  (owned my_id t = true → due_at (aware_us now) t = true →
   ∀ rt, t !! "repeat_type" = Some rt → py_eq rt (PStr "once") = false) →
  outcome_pending (scan_one my_id channel_found now o t) = [].
Proof.
  intros Hs Hn. destruct (owned my_id t && due_at (aware_us now) t) eqn:Hsel.
  - apply andb_prop in Hsel as [Ho Hd]. rewrite scan_one_fired by done.
    unfold outcome_pending, fired_outcome. cbn [snd].
    destruct (deliver _ t o) as [w [[]|e]]; cbn; [|done].
    unfold after_send, getitem. destruct (t !! "repeat_type") as [rt|] eqn:Hr; cbn; [|done].
    rewrite (Hn Ho Hd rt); [by destruct (calculate_next_repeat t _) | done].
  - unfold outcome_pending. by rewrite scan_one_idle.
Qed.

End TickLemmas.

(** ** Runs of a store holding one task *)

Section SingleTask.
Context {tzdb : TzDatabase}.
Context (my_id : PyVal) (channel_found : PyVal → bool).

Lemma tick_single obs u t f w t' :
  in_range u = true →
  scan_one my_id channel_found (utc_now u) (obs 0%nat) t = (w, Ok (t', None)) →
  tick my_id channel_found obs u (mkBot [t] f) = (mkBot [t'] f, w ++ [], Ok tt).
Proof. intros Hu H. unfold tick. rewrite now_in_utc by done. cbn. by rewrite H. Qed.

(** A store whose only task the tick leaves as it is, with the same
    deliveries, at every tick of the run. *)
Lemma run_single_stable obs clocks t f w :
  Forall (λ u, in_range u = true) clocks →
  (∀ n u, u ∈ clocks → scan_one my_id channel_found (utc_now u) (obs n 0%nat) t = (w, Ok (t, None))) →
  run my_id channel_found obs clocks (mkBot [t] f) = (mkBot [t] f, concat (map (λ _, w) clocks), Ok tt).
Proof.
  revert obs. induction clocks as [|u us IH]; intros obs Hr Hs; [done|].
  apply Forall_cons in Hr as [Hu Hr]. cbn [run].
  rewrite (tick_single (obs 0%nat) u t f w t) by (done || apply Hs; by left).
  rewrite IH; [| done | intros n u' Hu'; apply Hs; by right].
  by rewrite app_nil_r.
Qed.

(** The scan stops at the first task on which it crashes. *)
Lemma scan_crash now obs pre t post e :
  Forall (λ t, scan_safe my_id t = true) pre →
  (scan_one my_id channel_found now (obs (length pre)) t).2 = Raise e →
  so_status (scan my_id channel_found now obs (pre ++ t :: post)) = Raise e.
Proof.
  intros Hpre. revert obs. induction Hpre as [|t0 pre H0 _ IH]; intros obs Ht; cbn [scan app].
  - cbn in Ht. destruct (scan_one _ _ _ _ t) as [w r]. cbn in Ht. by subst r.
  - destruct (scan_one_safe my_id channel_found now (obs 0%nat) t0 H0) as [[t' pd] Hx].
    destruct (scan_one _ _ _ _ t0) as [w r]. cbn in Hx. subst r. cbn. by apply IH.
Qed.

Lemma scan_safe_insert_sched t v :
  scan_safe my_id t = true → sched_ok v = true → scan_safe my_id (<[SCHED := v]> t) = true.
Proof.
  unfold scan_safe.
  assert (<[SCHED := v]> t !! "user_id" = t !! "user_id") as -> by (by rewrite lookup_insert_ne).
  assert (<[SCHED := v]> t !! "id" = t !! "id") as -> by (by rewrite lookup_insert_ne).
  rewrite lookup_insert_eq.
  destruct (t !! "user_id"); [|done]. destruct (py_eq _ _); [|done]. cbn. intros H ->.
  by apply andb_prop in H as [_ ->].
Qed.

End SingleTask.

(** ** Well-formed stores *)

Section WellFormed.
Context {tzdb : TzDatabase}.
Context (my_id : PyVal) (channel_found : PyVal → bool).

Lemma wf_scan_safe t : wf_task t = true → scan_safe my_id t = true.
Proof.
  unfold wf_task, scan_safe. rewrite !andb_true_iff.
  intros (((Hu%bool_decide_eq_true_1 & Hi) & Hs) & _). destruct Hu as [uid ->].
  destruct (py_eq uid my_id); [|done]. cbn. rewrite Hi, andb_true_r.
  destruct (t !! SCHED) as [[]|]; done.
Qed.

Lemma wf_outcome now o t :
  wf_task t = true → wf_task (outcome_task t (scan_one my_id channel_found now o t)) = true.
Proof.
  intros Hw. unfold outcome_task.
  destruct (scan_one my_id channel_found now o t) as [w [[t' pd]|e]] eqn:E; cbn [snd]; [|done].
  assert (Hs : (scan_one my_id channel_found now o t).2 = Ok (t', pd)) by (by rewrite E).
  destruct (scan_one_task _ _ _ _ _ _ _ Hs) as [->|[->|(r & -> & _ & Ho & V)]];
    [done | by apply wf_insert_sched |].
  apply wf_insert_sched; [done|]. cbn. by rewrite Ho, V.
Qed.

(** On a well-formed store a tick neither raises nor breaks
    well-formedness. *)
Lemma tick_wf obs u b :
  in_range u = true → Forall (λ t, wf_task t = true) (bot_tasks b) →
  ∃ b' sent, tick my_id channel_found obs u b = (b', sent, Ok tt) ∧
             Forall (λ t, wf_task t = true) (bot_tasks b').
Proof.
  intros Hu Hall.
  assert (Hsafe : Forall (λ t, scan_safe my_id t = true) (bot_tasks b))
    by (eapply Forall_impl; [exact Hall | intros; by apply wf_scan_safe]).
  pose proof (scan_safe_eq my_id channel_found (utc_now u) obs _ Hsafe) as Hs.
  set (o := scan my_id channel_found (utc_now u) obs (bot_tasks b)) in *.
  assert (Hwf : Forall (λ t, wf_task t = true) (so_tasks o)).
  { rewrite Hs. cbn [so_tasks]. apply Forall_lookup. intros j x Hj. rewrite list_lookup_imap in Hj.
    destruct (bot_tasks b !! j) as [t|] eqn:Ht; [|discriminate]. injection Hj as <-.
    apply wf_outcome. exact (Forall_lookup_1 _ _ _ _ Hall Ht). }
  assert (Hst : so_status o = Ok tt) by (by rewrite Hs).
  rewrite tick_scan_ok by (done || exact Hst). cbv zeta. try fold o.
  case_bool_decide; [by eexists _, _|].
  rewrite (res_filterM_pure _ (λ t, negb (py_in (dget t "id") (so_pending o)))).
  2: { intros x Hx. apply keep_undeleted_pure. apply (Forall_forall _ _) with (x := x) in Hwf; [|done].
       unfold wf_task in Hwf. rewrite !andb_true_iff in Hwf. by destruct Hwf as (((_ & ?%bool_decide_eq_true_1) & _) & _). }
  assert (Hf : Forall (λ t, wf_task t = true) (filter (λ t, negb (py_in (dget t "id") (so_pending o)) = true) (so_tasks o)))
    by (apply Forall_forall; intros x [_ Hx]%list_elem_of_filter; by apply (Forall_forall _ _) with (x := x) in Hwf).
  pose proof (save_tasks_wf _ Hf) as Hsave.
  destruct (save_tasks _) as [ws r]. cbn in Hsave. subst r. by eexists _, _.
Qed.

(** A tick leaves the file alone, or rewrites it with the tasks it keeps. *)
Lemma tick_file obs u b :
  let b' := (tick my_id channel_found obs u b).1.1 in
  bot_file b' = bot_file b ∨ bot_file b' = after_writes (bot_file b) (save_tasks (bot_tasks b')).1.
Proof.
  cbv zeta. unfold tick. repeat case_match; simplify_eq/=; auto.
  right. match goal with H : save_tasks _ = _ |- _ => by rewrite H end.
Qed.

End WellFormed.

(** ** The contract of section 4.4 of the specification *)

(** A task as the specification sees it: its id, whether the session owns
    it, its next firing instant, whether it fires once, and where and what
    it delivers. *)
Record spec_task := mkSpecTask {
  sp_id : PyVal; sp_owned : bool; sp_next : option Z; sp_once : bool;
  sp_dest : PyVal; sp_content : PyVal
}.

Definition sp_due (u : Z) (e : spec_task) : bool :=
  sp_owned e && match sp_next e with Some n => n <=? u | None => false end.

Definition sp_reschedule (n : Z) (e : spec_task) : spec_task :=
  mkSpecTask (sp_id e) (sp_owned e) (Some n) (sp_once e) (sp_dest e) (sp_content e).

(** A due task is delivered, then retired when it fires once and
    rescheduled to the calculator's answer [n] otherwise. *)
Definition spec_step (u n : Z) (e : spec_task) : list spec_task :=
  if sp_due u e then (if sp_once e then [] else [sp_reschedule n e]) else [e].

(** The specified tick at the instant [u]: [next j] is the
    RecurrenceCalculator's answer for the [j]-th task, and a destination
    [found] rejects receives the delivery. *)
Definition spec_tick (found : PyVal → bool) (u : Z) (next : nat → Z) (es : list spec_task)
    : list spec_task * list delivery :=
  (concat (imap (λ j e, spec_step u (next j) e) es),
   concat (imap (λ j e, if sp_due u e && found (sp_dest e)
                        then [mkDelivery (sp_dest e) (sp_content e)] else []) es)).

(** No two tasks have ids that compare equal. *)
Fixpoint ids_distinct (ts : list dict) : bool :=
  match ts with
  | [] => true
  | t :: ts' => forallb (λ t', negb (py_eq (dget t "id") (dget t' "id"))) ts' && ids_distinct ts'
  end.

Lemma ids_distinct_spec ts i j ti tj :
  ids_distinct ts = true → ts !! i = Some ti → ts !! j = Some tj →
  py_eq (dget ti "id") (dget tj "id") = true → i = j.
Proof.
  revert i j. induction ts as [|t ts IH]; intros i j Hd Hi Hj He; [done|].
  cbn in Hd. apply andb_prop in Hd as [Hf Hd]. rewrite forallb_forall in Hf.
  destruct i as [|i], j as [|j]; cbn in Hi, Hj; [done| | |by erewrite (IH i j)].
  - injection Hi as <-. apply list_elem_of_lookup_2, list_elem_of_In, Hf in Hj. rewrite He in Hj. done.
  - injection Hj as <-. apply list_elem_of_lookup_2, list_elem_of_In, Hf in Hi. rewrite py_eq_sym, He in Hi. done.
Qed.

(** The id in a list built from the ids of the tasks a predicate picks: a
    task's id is there exactly when the task is picked, ids being
    distinct. *)
Lemma py_in_ids (c : dict → bool) ts i ti :
  ids_distinct ts = true → ts !! i = Some ti →
  py_in (dget ti "id") (concat (imap (λ _ t, if c t then [dget t "id"] else []) ts)) = c ti.
Proof.
  intros Hd Hi. unfold py_in. destruct (c ti) eqn:Hc.
  - apply existsb_exists. exists (dget ti "id"). split; [|apply py_eq_refl].
    apply list_elem_of_In. eapply concat_imap_elem; [exact Hi|]. rewrite Hc. by left.
  - apply not_true_is_false. intros (y & Hy & He)%existsb_exists.
    apply list_elem_of_In, concat_imap_elem_inv in Hy as (k & tk & Hk & Hy).
    destruct (c tk) eqn:Hck; [|by apply not_elem_of_nil in Hy].
    apply list_elem_of_singleton in Hy as ->.
    rewrite (ids_distinct_spec ts i k ti tk Hd Hi Hk He) in Hi. congruence.
Qed.

Section Contract.
Context {tzdb : TzDatabase}.
Context (my_id : PyVal) (channel_found : PyVal → bool).

(** What the specification sees of a task dict. *)
Definition abs_task (t : dict) : spec_task :=
  mkSpecTask (dget t "id") (owned my_id t)
    (match t !! SCHED with Some (PDateTime a) => Some (aware_us a) | _ => None end)
    (bool_decide (t !! "repeat_type" = Some (PStr "once")))
    (dget t "channel_id") (dget t "content").

(** The keys the [try] block reads are there. *)
Definition fire_keys (t : dict) : Prop :=
  wf_task t = true ∧ is_Some (t !! "channel_id") ∧ is_Some (t !! "content") ∧
  is_Some (t !! "repeat_type").

Lemma sp_due_abs u t : sp_due u (abs_task t) = owned my_id t && due_at u t.
Proof. unfold sp_due, abs_task, due_at. cbn. by destruct (t !! SCHED) as [[]|]. Qed.

Lemma abs_task_reschedule t r :
  abs_task (<[SCHED := PDateTime r]> t) = sp_reschedule (aware_us r) (abs_task t).
Proof.
  unfold abs_task, sp_reschedule, owned, dget. cbn.
  by rewrite lookup_insert_eq, !lookup_insert_ne by done.
Qed.

Lemma deliver_not_found t o cid :
  t !! "channel_id" = Some cid → channel_found cid = false → deliver channel_found t o = ([], Ok tt).
Proof. intros Hc Hf. unfold deliver, getitem. by rewrite Hc, Hf. Qed.

Lemma py_eq_once_false rt : rt ≠ PStr "once" → py_eq rt (PStr "once") = false.
Proof. intros Hn. destruct rt; cbn; try done. apply String.eqb_neq. congruence. Qed.

Lemma wf_task_id t : wf_task t = true → is_Some (t !! "id").
Proof. unfold wf_task. rewrite !andb_true_iff. intros [[[_ H] _] _]. by apply bool_decide_eq_true_1 in H. Qed.

(** The deletion comprehension over the tasks a scan leaves keeps those
    whose id is not pending (every such task still has its id). *)
Lemma keep_outcomes now obs ts P :
  Forall fire_keys ts →
  let outs := imap (λ j t, outcome_task t (scan_one my_id channel_found now (obs j) t)) ts in
  (if bool_decide (P = []) then Ok outs else res_filterM (keep_undeleted P) outs) =
  Ok (filter (λ t', negb (py_in (dget t' "id") P) = true) outs).
Proof.
  intros Hk outs. case_bool_decide as HP0.
  - f_equal. symmetry. apply filter_all. rewrite HP0. by apply Forall_forall.
  - apply res_filterM_pure. intros x Hx.
    apply list_elem_of_lookup_1 in Hx as [j Hj]. unfold outs in Hj. rewrite list_lookup_imap in Hj.
    destruct (ts !! j) as [t|] eqn:Ht; [|discriminate]. injection Hj as <-.
    destruct (Forall_lookup_1 _ _ _ _ Hk Ht) as [Hw _].
    apply keep_undeleted_pure. rewrite outcome_task_other; [by apply wf_task_id | by apply wf_scan_safe | done].
Qed.

(** A task of the contract, scanned with a successful send and, when it is
    recurring and due, a successful recomputation: it delivers what the
    contract delivers, marks its id exactly when it is a due [once] task,
    and becomes the task the contract makes of it. *)
Lemma scan_one_contract now o t n :
  fire_keys t → send_ok o = true →
  (owned my_id t && due_at (aware_us now) t = true → t !! "repeat_type" ≠ Some (PStr "once") →
   ∃ r, calculate_next_repeat t (recompute_clock o) = Ok (Some r) ∧ aware_us r = n) →
  let p := scan_one my_id channel_found now o t in
  p.1 = (if sp_due (aware_us now) (abs_task t) && channel_found (dget t "channel_id")
         then [mkDelivery (dget t "channel_id") (dget t "content")] else []) ∧
  outcome_pending p = (if sp_due (aware_us now) (abs_task t) && sp_once (abs_task t) then [dget t "id"] else []) ∧
  abs_task (outcome_task t p) =
    (if sp_due (aware_us now) (abs_task t) && negb (sp_once (abs_task t))
     then sp_reschedule n (abs_task t) else abs_task t).
Proof.
  intros (Hw & [cid Hc] & [c Hm] & [rt Hr]) Hs Hn. cbv zeta.
  pose proof (wf_scan_safe my_id t Hw) as Hsafe. rewrite sp_due_abs.
  destruct (owned my_id t && due_at (aware_us now) t) eqn:Hsel.
  2: { rewrite scan_one_idle by done. by cbn. }
  apply andb_prop in Hsel as [Ho Hd]. rewrite scan_one_fired by done.
  assert (Hdel : deliver channel_found t o =
                 (if channel_found cid then [mkDelivery cid c] else [], Ok tt)).
  { destruct (channel_found cid) eqn:Hf; [by apply (deliver_ok channel_found t o cid c) | by apply (deliver_not_found t o cid)]. }
  unfold fired_outcome, outcome_pending, outcome_task. rewrite Hdel. cbn [fst snd andb negb].
  assert (Hdg : dget t "channel_id" = cid ∧ dget t "content" = c) by (unfold dget; by rewrite Hc, Hm).
  destruct Hdg as [-> ->]. split; [done|]. rewrite bind_Ok.
  assert (Honce : sp_once (abs_task t) = bool_decide (rt = PStr "once"))
    by (unfold abs_task; cbn; rewrite Hr; apply bool_decide_ext; split; congruence).
  rewrite Honce. destruct (decide (rt = PStr "once")) as [->|Hne].
  - rewrite bool_decide_eq_true_2 by done.
    destruct (wf_task_id t Hw) as [idv Hi]. rewrite (after_send_once t o idv Hr Hi).
    cbn. unfold dget. by rewrite Hi.
  - rewrite bool_decide_eq_false_2 by done.
    rewrite (after_send_repeat t o rt Hr (py_eq_once_false rt Hne)).
    destruct (Hn eq_refl) as (r & Hcalc & <-); [rewrite Hr; congruence|]. rewrite Hcalc, bind_Ok.
    cbn. split; [done|]. apply abs_task_reschedule.
Qed.

End Contract.

(** ** Theorems *)

Section SchedulerTheorems.
Context {tzdb : TzDatabase}.
Context (my_id : PyVal) (channel_found : PyVal → bool).

(** C1: After one tick at a UTC reading [u] at or past the schedule of a
    [once] task of the user whose send succeeds, the message has been
    delivered, no task with the same id is left in the store, and the file
    has been rewritten with the remaining tasks (every task must carry an
    ["id"] for the deletion to go through). *)
Theorem tick_once_delivered_removed obs u b k t cid c idv :
  in_range u = true →
  Forall (λ t, scan_safe my_id t = true ∧ is_Some (t !! "id")) (bot_tasks b) →
  bot_tasks b !! k = Some t → owned my_id t = true → due_at u t = true →
  t !! "repeat_type" = Some (PStr "once") → t !! "channel_id" = Some cid →
  channel_found cid = true → t !! "content" = Some c → send_ok (obs k) = true →
  t !! "id" = Some idv →
  ∃ b' sent r, tick my_id channel_found obs u b = (b', sent, r) ∧
    mkDelivery cid c ∈ sent ∧
    (∀ t', t' ∈ bot_tasks b' → ∃ v, t' !! "id" = Some v ∧ py_eq v idv = false) ∧
    bot_file b' = after_writes (bot_file b) (save_tasks (bot_tasks b')).1 ∧
    r = (save_tasks (bot_tasks b')).2.
Proof.
  intros Hu Hall Hk Ho Hd Hr Hc Hf Hm Hs Hi.
  assert (Hsafe : Forall (λ t, scan_safe my_id t = true) (bot_tasks b))
    by (eapply Forall_impl; [exact Hall | by intros ? []]).
  assert (Ht : scan_one my_id channel_found (utc_now u) (obs k) t = ([mkDelivery cid c], Ok (t, Some idv))).
  { apply scan_one_once; try done. exact (proj1 (Forall_lookup_1 _ _ _ _ Hall Hk)).
    by rewrite aware_us_utc_now. }
  set (o := scan my_id channel_found (utc_now u) obs (bot_tasks b)).
  assert (Hidv : idv ∈ so_pending o).
  { unfold o. rewrite scan_safe_eq by done. eapply concat_imap_elem; [exact Hk|].
    unfold outcome_pending. rewrite Ht. by left. }
  rewrite tick_scan_ok by (done || (unfold o; by rewrite scan_safe_eq)). cbv zeta. fold o.
  rewrite bool_decide_eq_false_2 by (intros Hn; rewrite Hn in Hidv; by apply not_elem_of_nil in Hidv).
  rewrite (res_filterM_pure _ (λ t, negb (py_in (dget t "id") (so_pending o)))).
  2: { intros x Hx. apply keep_undeleted_pure.
       destruct (scan_tasks_other my_id channel_found _ _ _ x "id" Hsafe ltac:(done) Hx) as (t0 & Ht0 & ->).
       by apply (Forall_forall _ _) with (x := t0) in Hall as [_ ?]. }
  destruct (save_tasks _) as [ws r] eqn:Hsave.
  eexists _, _, _. split; [reflexivity|]. cbn [bot_tasks bot_file]. rewrite Hsave.
  split; [|split; [|done]].
  - unfold o. rewrite scan_safe_eq by done. eapply concat_imap_elem; [exact Hk|]. rewrite Ht. by left.
  - intros t' [Hn Ht']%list_elem_of_filter.
    destruct (scan_tasks_other my_id channel_found _ _ _ t' "id" Hsafe ltac:(done) Ht') as (t0 & Ht0 & Hid).
    apply (Forall_forall _ _) with (x := t0) in Hall as [_ [v Hv]]; [|done].
    exists v. split; [congruence|]. apply (py_in_false _ (so_pending o)); [|done].
    unfold dget in Hn. rewrite Hid, Hv in Hn. by apply negb_true_iff.
Qed.

(** C24: A due task whose send fails is neither retired nor rescheduled:
    however many ticks follow, each fails again on the same task and the
    store and the file stay as they were, so the occurrence is never
    consumed and is delivered as soon as a send succeeds. *)
Theorem run_send_failure_retried obs clocks t f cid c :
  scan_safe my_id t = true → owned my_id t = true →
  t !! "channel_id" = Some cid → channel_found cid = true → t !! "content" = Some c →
  Forall (λ u, in_range u = true ∧ due_at u t = true) clocks →
  (∀ n, send_ok (obs n 0%nat) = false) →
  run my_id channel_found obs clocks (mkBot [t] f) = (mkBot [t] f, [], Ok tt).
Proof.
  intros Hs Ho Hc Hf Hm Hcl Hn.
  rewrite (run_single_stable my_id channel_found obs clocks t f []).
  - by rewrite concat_map_const_nil.
  - eapply Forall_impl; [exact Hcl | by intros ? []].
  - intros n u Hu. apply (Forall_forall _ _) with (x := u) in Hcl as [Hr Hd]; [|done].
    rewrite scan_one_fired by (rewrite ?aware_us_utc_now; done).
    unfold fired_outcome. by rewrite (deliver_fail channel_found t _ cid c).
Qed.

(** C29: When [_calculate_next_repeat] raises for a due recurring task (an
    unknown zone, a malformed ["repeat_value"]), the exception comes after
    the send: every tick delivers the message again and the task keeps its
    past schedule. *)
Theorem run_recompute_error_resends obs clocks t f cid c rt :
  scan_safe my_id t = true → owned my_id t = true →
  t !! "channel_id" = Some cid → channel_found cid = true → t !! "content" = Some c →
  t !! "repeat_type" = Some rt → py_eq rt (PStr "once") = false →
  Forall (λ u, in_range u = true ∧ due_at u t = true) clocks →
  (∀ n, send_ok (obs n 0%nat) = true ∧
        ∃ e, calculate_next_repeat t (recompute_clock (obs n 0%nat)) = Raise e) →
  run my_id channel_found obs clocks (mkBot [t] f) =
  (mkBot [t] f, replicate (length clocks) (mkDelivery cid c), Ok tt).
Proof.
  intros Hs Ho Hc Hf Hm Hr Hn Hcl Hobs.
  rewrite (run_single_stable my_id channel_found obs clocks t f [mkDelivery cid c]).
  - by rewrite concat_map_const_single.
  - eapply Forall_impl; [exact Hcl | by intros ? []].
  - intros n u Hu. apply (Forall_forall _ _) with (x := u) in Hcl as [Hu' Hd]; [|done].
    destruct (Hobs n) as [Hok [e He]].
    rewrite scan_one_fired by (rewrite ?aware_us_utc_now; done).
    unfold fired_outcome. rewrite (deliver_ok channel_found t _ cid c) by done. cbn [fst snd].
    by rewrite bind_Ok, (after_send_repeat t _ rt), He.
Qed.

(** C28: When [_calculate_next_repeat] returns [None] for a due recurring
    task (a weekly task whose ["repeat_day"] is not a day name), the
    message is delivered once and the schedule becomes [None]: no later
    tick selects the task again. *)
Theorem run_recompute_none_silences obs u us t f cid c rt :
  scan_safe my_id t = true → owned my_id t = true →
  t !! "channel_id" = Some cid → channel_found cid = true → t !! "content" = Some c →
  t !! "repeat_type" = Some rt → py_eq rt (PStr "once") = false →
  Forall (λ u, in_range u = true) (u :: us) → due_at u t = true →
  send_ok (obs 0%nat 0%nat) = true → calculate_next_repeat t (recompute_clock (obs 0%nat 0%nat)) = Ok None →
  run my_id channel_found obs (u :: us) (mkBot [t] f) =
  (mkBot [<[SCHED := PNone]> t] f, [mkDelivery cid c], Ok tt).
Proof.
  intros Hs Ho Hc Hf Hm Hr Hn Hcl Hd Hok He. apply Forall_cons in Hcl as [Hu Hus].
  cbn [run]. rewrite (tick_single my_id channel_found (obs 0%nat) u t f [mkDelivery cid c] (<[SCHED := PNone]> t)); [|done|].
  2: { rewrite scan_one_fired by (rewrite ?aware_us_utc_now; done).
       unfold fired_outcome. rewrite (deliver_ok channel_found t _ cid c) by done. cbn [fst snd].
       by rewrite bind_Ok, (after_send_repeat t _ rt), He. }
  rewrite (run_single_stable my_id channel_found _ us _ f []); [by rewrite concat_map_const_nil | done |].
  intros n u' _. apply scan_one_idle; [by apply scan_safe_insert_sched|].
  unfold due_at. rewrite lookup_insert_eq. apply andb_false_r.
Qed.

(** C33: A task without a ["user_id"] key makes [task["user_id"]] raise
    [KeyError] outside the [try]: the exception ends the scheduler loop at
    the first tick that reaches it, whatever the later clock readings. *)
Theorem run_missing_user_id_stops obs u us b pre t post :
  in_range u = true → bot_tasks b = pre ++ t :: post →
  Forall (λ t, scan_safe my_id t = true) pre → t !! "user_id" = None →
  run my_id channel_found obs (u :: us) b = tick my_id channel_found (obs 0%nat) u b ∧
  (tick my_id channel_found (obs 0%nat) u b).2 = Raise KeyError.
Proof.
  intros Hu Hb Hpre Ht.
  assert (Hs : so_status (scan my_id channel_found (utc_now u) (obs 0%nat) (bot_tasks b)) = Raise KeyError).
  { rewrite Hb. apply scan_crash; [done|]. unfold scan_one, selected, getitem. by rewrite Ht. }
  assert (Htick : (tick my_id channel_found (obs 0%nat) u b).2 = Raise KeyError).
  { unfold tick. rewrite now_in_utc by done. cbv zeta. by rewrite Hs. }
  split; [|done]. cbn [run]. destruct (tick _ _ _ u b) as [[b' w] r]. cbn in Htick. by subst r.
Qed.

(** C10: A tick sends only the content of tasks of the user that are due at
    its clock reading, each to the task's own channel, and at most one
    message per such task. *)
Theorem tick_delivers_only_selected obs u b :
  let sent := (tick my_id channel_found obs u b).1.2 in
  (∀ d, d ∈ sent → ∃ t, t ∈ bot_tasks b ∧ selected my_id (utc_now u) t = Ok true ∧
        t !! "channel_id" = Some (dl_channel d) ∧ t !! "content" = Some (dl_content d)) ∧
  (length sent ≤ length (filter (λ t, selected my_id (utc_now u) t = Ok true) (bot_tasks b)))%nat.
Proof.
  cbv zeta. unfold tick. destruct (now_in utc_zone u) as [now|e] eqn:En.
  - apply now_in_utc_eq in En as ->.
    destruct (scan_sent_selected my_id channel_found (utc_now u) obs (bot_tasks b)) as [Hm Hl].
    cbv zeta. repeat case_match; cbn [fst snd]; split; done.
  - cbn. split; [intros d Hd; by apply not_elem_of_nil in Hd | lia].
Qed.

(** C11: A scan only moves schedules forward: each task it leaves behind is
    the task as it was, the task with schedule [None], or the task with a
    UTC schedule strictly later than the scan's clock reading (the clock
    readings of [_calculate_next_repeat] come after it). *)
Theorem scan_reschedules_forward now obs ts :
  (∀ n, aware_us now ≤ recompute_clock (obs n)) →
  ∀ j t t', ts !! j = Some t → so_tasks (scan my_id channel_found now obs ts) !! j = Some t' →
  t' = t ∨ t' = <[SCHED := PNone]> t ∨
  ∃ r, t' = <[SCHED := PDateTime r]> t ∧ aware_us now < aware_us r ∧ off r = 0.
Proof.
  revert obs. induction ts as [|t0 ts IH]; intros obs Hclk j t t' Ht Ht'; [done|].
  cbn [scan] in Ht'. destruct (scan_one _ _ _ _ t0) as [w [[t1 pd]|e]] eqn:E; cbn in Ht'.
  - destruct j as [|j]; cbn in Ht, Ht'.
    + injection Ht as <-. injection Ht' as <-.
      assert (Hs : (scan_one my_id channel_found now (obs 0%nat) t0).2 = Ok (t1, pd)) by (by rewrite E).
      destruct (scan_one_task _ _ _ _ _ _ _ Hs) as [?|[?|(r & ? & Hr & ? & _)]]; auto.
      right; right. exists r. specialize (Hclk 0%nat). split_and!; [done | lia | done].
    + apply (IH (λ k, obs (S k))) with (j := j); auto.
  - left. congruence.
Qed.

(** A scan in which no [once] task of the user is due marks nothing for
    deletion, and on tasks the scan gets through it ends normally. *)
Lemma scan_no_once_pending obs u b :
  in_range u = true → Forall (λ t, scan_safe my_id t = true) (bot_tasks b) →
  (∀ t rt, t ∈ bot_tasks b → owned my_id t = true → due_at u t = true →
           t !! "repeat_type" = Some rt → py_eq rt (PStr "once") = false) →
  so_status (scan my_id channel_found (utc_now u) obs (bot_tasks b)) = Ok tt ∧
  so_pending (scan my_id channel_found (utc_now u) obs (bot_tasks b)) = [].
Proof.
  intros Hu Hall Hn. pose proof (scan_safe_eq my_id channel_found (utc_now u) obs _ Hall) as Hs.
  rewrite Hs. split; [done|]. cbn [so_pending].
  apply concat_imap_nil. intros j t Ht.
  assert (t ∈ bot_tasks b) by (by eapply list_elem_of_lookup_2).
  apply outcome_pending_not_once; [by apply (Forall_forall _ _) with (x := t) in Hall|].
  rewrite aware_us_utc_now by done. eauto.
Qed.

(** C25: A tick in which no [once] task fires leaves the file as it was,
    even when it rescheduled recurring tasks in memory: [save_tasks] runs
    only when [pending_delete] is not empty, so a restart reloads the old
    schedules. *)
Theorem tick_reschedule_not_saved obs u b :
  in_range u = true → Forall (λ t, scan_safe my_id t = true) (bot_tasks b) →
  (∀ t rt, t ∈ bot_tasks b → owned my_id t = true → due_at u t = true →
           t !! "repeat_type" = Some rt → py_eq rt (PStr "once") = false) →
  tick my_id channel_found obs u b =
  (mkBot (so_tasks (scan my_id channel_found (utc_now u) obs (bot_tasks b))) (bot_file b),
   so_sent (scan my_id channel_found (utc_now u) obs (bot_tasks b)), Ok tt).
Proof.
  intros Hu Hall Hn. destruct (scan_no_once_pending obs u b Hu Hall Hn) as [Hst Hp].
  rewrite tick_scan_ok by done. cbv zeta. by rewrite bool_decide_eq_true_2.
Qed.


(** C2: On a store of well-formed tasks (as the commands create them and
    as the round trip through the file keeps them) the scheduler loop never
    stops on an exception, over any sequence of clock readings, and the
    store stays well-formed. *)
Theorem run_wf_never_stops obs clocks b :
  Forall (λ u, in_range u = true) clocks → Forall (λ t, wf_task t = true) (bot_tasks b) →
  (run my_id channel_found obs clocks b).2 = Ok tt ∧
  Forall (λ t, wf_task t = true) (bot_tasks (run my_id channel_found obs clocks b).1.1).
Proof.
  revert obs b. induction clocks as [|u us IH]; intros obs b Hcl Hall; [done|].
  apply Forall_cons in Hcl as [Hu Hus]. cbn [run].
  destruct (tick_wf my_id channel_found (obs 0%nat) u b Hu Hall) as (b' & sent & -> & Hb').
  destruct (IH (λ k, obs (S k)) b' Hus Hb') as [Hr Hw].
  destruct (run _ _ _ us b') as [[b'' w'] r']. cbn in *. by subst r'.
Qed.

(** The refinement proof, shared by the loop over Python objects. *)
Lemma tick_meets_contract obs u b next :
  in_range u = true →
  Forall fire_keys (bot_tasks b) → ids_distinct (bot_tasks b) = true →
  (∀ j, send_ok (obs j) = true) →
  (∀ j t, bot_tasks b !! j = Some t → owned my_id t && due_at u t = true →
     t !! "repeat_type" ≠ Some (PStr "once") →
     ∃ r, calculate_next_repeat t (recompute_clock (obs j)) = Ok (Some r) ∧ aware_us r = next j) →
  let '(b', sent, _) := tick my_id channel_found obs u b in
  (map (abs_task my_id) (bot_tasks b'), sent) =
    spec_tick channel_found u next (map (abs_task my_id) (bot_tasks b)).
Proof.
  intros Hu Hk Hd Hs Hn. set (ts := bot_tasks b).
  assert (Hsafe : Forall (λ t, scan_safe my_id t = true) ts)
    by (eapply Forall_impl; [exact Hk|]; intros t [Hw _]; by apply wf_scan_safe).
  pose proof (aware_us_utc_now u Hu) as Hnow.
  assert (Hc : ∀ j t, ts !! j = Some t →
            let p := scan_one my_id channel_found (utc_now u) (obs j) t in
            p.1 = (if sp_due u (abs_task my_id t) && channel_found (dget t "channel_id")
                   then [mkDelivery (dget t "channel_id") (dget t "content")] else []) ∧
            outcome_pending p = (if sp_due u (abs_task my_id t) && sp_once (abs_task my_id t)
                                 then [dget t "id"] else []) ∧
            abs_task my_id (outcome_task t p) =
              (if sp_due u (abs_task my_id t) && negb (sp_once (abs_task my_id t))
               then sp_reschedule (next j) (abs_task my_id t) else abs_task my_id t)).
  { intros j t Hj. pose proof (scan_one_contract my_id channel_found (utc_now u) (obs j) t (next j)) as H.
    rewrite Hnow in H. apply H; [exact (Forall_lookup_1 _ _ _ _ Hk Hj) | apply Hs | by apply Hn]. }
  rewrite tick_scan_ok by (done || by rewrite scan_safe_eq).
  rewrite scan_safe_eq by done. cbn [so_pending so_tasks so_sent]. fold ts.
  set (P := concat (imap (λ j t, outcome_pending (scan_one my_id channel_found (utc_now u) (obs j) t)) ts)).
  set (outs := imap (λ j t, outcome_task t (scan_one my_id channel_found (utc_now u) (obs j) t)) ts).
  assert (HP : P = concat (imap (λ _ t, if sp_due u (abs_task my_id t) && sp_once (abs_task my_id t)
                                        then [dget t "id"] else []) ts))
    by (unfold P; f_equal; apply imap_ext; intros j t Hj; apply (Hc j t Hj)).
  assert (Hid : ∀ j t, ts !! j = Some t →
            dget (outcome_task t (scan_one my_id channel_found (utc_now u) (obs j) t)) "id" = dget t "id").
  { intros j t Hj. unfold dget. rewrite outcome_task_other; [done | exact (Forall_lookup_1 _ _ _ _ Hsafe Hj) | done]. }
  pose proof (keep_outcomes my_id channel_found (utc_now u) obs ts P Hk) as Hts'. fold outs in Hts'.
  assert (Hspec : (map (abs_task my_id) (filter (λ t', negb (py_in (dget t' "id") P) = true) outs),
                   concat (imap (λ j t, (scan_one my_id channel_found (utc_now u) (obs j) t).1) ts)) =
                  spec_tick channel_found u next (map (abs_task my_id) ts)).
  { unfold spec_tick. f_equal.
    - unfold outs. rewrite filter_imap, map_concat_imap, imap_map. f_equal. apply imap_ext. intros j t Hj.
      rewrite Hid by done. rewrite HP, (py_in_ids _ ts j t Hd Hj).
      destruct (Hc j t Hj) as (_ & _ & Ha). unfold spec_step.
      destruct (sp_due u (abs_task my_id t)) eqn:Hdue, (sp_once (abs_task my_id t)) eqn:Ho;
        cbn in Ha |- *; rewrite ?Ha; try done.
      all: rewrite decide_True by done; cbn; by rewrite Ha.
    - rewrite imap_map. f_equal. apply imap_ext. intros j t Hj. apply (Hc j t Hj). }
  case_bool_decide as HP0.
  - try rewrite bool_decide_eq_true_2 in Hts' by done. injection Hts' as Hts'. cbn [bot_tasks].
    by rewrite Hts'.
  - try rewrite bool_decide_eq_false_2 in Hts' by done. rewrite Hts'. by destruct (save_tasks _).
Qed.

(** C3: The scheduler loop implements the contract of section 4.4 of
    the specification, under these conditions:
    - every send succeeds;
    - every task has the keys the loop reads;
    - ids are distinct;
    - the calculator answers each due recurring task.
    A tick then delivers exactly the due tasks the contract delivers, in
    order. It leaves exactly the tasks the contract leaves: due [once]
    tasks retired, due recurring tasks moved to the calculator's answer,
    the others untouched. Each condition is necessary: the theorems of
    the findings show what the loop does without it. *)
Theorem tick_refines_spec obs u b next :
  in_range u = true →
  Forall fire_keys (bot_tasks b) → ids_distinct (bot_tasks b) = true →
  (∀ j, send_ok (obs j) = true) →
  (∀ j t, bot_tasks b !! j = Some t → owned my_id t && due_at u t = true →
     t !! "repeat_type" ≠ Some (PStr "once") →
     ∃ r, calculate_next_repeat t (recompute_clock (obs j)) = Ok (Some r) ∧ aware_us r = next j) →
  let '(b', sent, _) := tick my_id channel_found obs u b in
  (map (abs_task my_id) (bot_tasks b'), sent) =
    spec_tick channel_found u next (map (abs_task my_id) (bot_tasks b)).
Proof. exact (tick_meets_contract obs u b next). Qed.

End SchedulerTheorems.

(** ** Witnesses and examples *)

(** The logged-in user 42, whose client sees channel 1001, with the zone
    database of Jakarta and Amsterdam. *)
Definition me : PyVal := PInt 42.

Definition chan_1001 (cid : PyVal) : bool := bool_decide (cid = PInt 1001).

Definition utc_sched (y m d h mi : Z) : PyVal := PDateTime (mkAware (mkDT y m d h mi 0 0) 0).

(** A task of [/kirim] and one of [/ulang harian 09:00] in Jakarta. *)
Definition once_task (id : string) (sched : PyVal) : dict :=
  <["timezone" := PStr "Asia/Jakarta"]> (task_record id "once" sched).

Definition daily_task (id tz : string) (sched : PyVal) : dict :=
  <["repeat_value" := PStr "09:00"]> (<["repeat_day" := PNone]>
  (<["timezone" := PStr tz]> (task_record id "harian" sched))).

Definition weekly_task (id day : string) (sched : PyVal) : dict :=
  <["repeat_value" := PStr "09:00"]> (<["repeat_day" := PStr day]>
  (<["timezone" := PStr "Asia/Jakarta"]> (task_record id "mingguan" sched))).

(** Monday 2026-11-09 08:00 UTC (15:00 in Jakarta), and the ticks after it. *)
Definition u0 : Z := to_us (mkDT 2026 11 9 8 0 0 0).
Fixpoint ticks_from (u : Z) (n : nat) : list Z :=
  match n with O => [] | S n => u :: ticks_from (u + 5000000) n end.

Definition obs_ok (clk : Z) : nat → fire_obs := λ _, mkObs true clk.
Definition obs_fail (clk : Z) : nat → nat → fire_obs := λ _ _, mkObs false clk.

Lemma tick_once_delivered_removed_witness :
  ∃ b' sent r, tick (tzdb := demo_tzdb) me chan_1001 (obs_ok u0) u0
                 (mkBot [once_task "a1b2c3d4" (utc_sched 2026 11 9 7 30)] None) = (b', sent, r) ∧
    mkDelivery (PInt 1001) (PStr "halo") ∈ sent ∧
    (∀ t', t' ∈ bot_tasks b' → ∃ v, t' !! "id" = Some v ∧ py_eq v (PStr "a1b2c3d4") = false) ∧
    bot_file b' = after_writes None (save_tasks (bot_tasks b')).1 ∧
    r = (save_tasks (bot_tasks b')).2.
Proof.
  apply (tick_once_delivered_removed (tzdb := demo_tzdb) me chan_1001 (obs_ok u0) u0
           (mkBot [once_task "a1b2c3d4" (utc_sched 2026 11 9 7 30)] None) 0
           (once_task "a1b2c3d4" (utc_sched 2026 11 9 7 30)) (PInt 1001) (PStr "halo") (PStr "a1b2c3d4"));
    try (vm_compute; reflexivity).
  decide_vm.
Defined.

Lemma run_send_failure_retried_witness :
  run (tzdb := demo_tzdb) me chan_1001 (obs_fail u0) (ticks_from u0 3)
    (mkBot [once_task "a1b2c3d4" (utc_sched 2026 11 9 7 30)] None) =
  (mkBot [once_task "a1b2c3d4" (utc_sched 2026 11 9 7 30)] None, [], Ok tt).
Proof.
  apply (run_send_failure_retried (tzdb := demo_tzdb) me chan_1001 _ _ _ _ (PInt 1001) (PStr "halo"));
    [vm_compute; reflexivity.. | decide_vm | done].
Defined.

Lemma run_recompute_error_resends_witness :
  run (tzdb := demo_tzdb) me chan_1001 (λ _, obs_ok u0) (ticks_from u0 3)
    (mkBot [daily_task "d1" "Mars/Olympus" (utc_sched 2026 11 9 2 0)] None) =
  (mkBot [daily_task "d1" "Mars/Olympus" (utc_sched 2026 11 9 2 0)] None,
   replicate 3 (mkDelivery (PInt 1001) (PStr "halo")), Ok tt).
Proof.
  apply (run_recompute_error_resends (tzdb := demo_tzdb) me chan_1001 _ (ticks_from u0 3) _ _ (PInt 1001) (PStr "halo") (PStr "harian"));
    [vm_compute; reflexivity.. | decide_vm |].
  intros n. split; [reflexivity|]. exists UnknownTimeZoneError. vm_compute. reflexivity.
Defined.

Lemma run_recompute_none_silences_witness :
  run (tzdb := demo_tzdb) me chan_1001 (λ _, obs_ok u0) (ticks_from u0 3)
    (mkBot [weekly_task "w1" "funday" (utc_sched 2026 11 9 2 0)] None) =
  (mkBot [<[SCHED := PNone]> (weekly_task "w1" "funday" (utc_sched 2026 11 9 2 0))] None,
   [mkDelivery (PInt 1001) (PStr "halo")], Ok tt).
Proof.
  refine (run_recompute_none_silences (tzdb := demo_tzdb) me chan_1001 (λ _, obs_ok u0) u0
            (ticks_from (u0 + 5000000) 2) (weekly_task "w1" "funday" (utc_sched 2026 11 9 2 0)) None
            (PInt 1001) (PStr "halo") (PStr "mingguan") _ _ _ _ _ _ _ _ _ _ _).
  all: first [decide_vm | vm_compute; reflexivity].
Defined.


Lemma run_missing_user_id_stops_witness :
  let b := mkBot [delete "user_id" (once_task "a1b2c3d4" (utc_sched 2026 11 9 7 30))] None in
  run (tzdb := demo_tzdb) me chan_1001 (λ _, obs_ok u0) (ticks_from u0 3) b =
    tick (tzdb := demo_tzdb) me chan_1001 (obs_ok u0) u0 b ∧
  (tick (tzdb := demo_tzdb) me chan_1001 (obs_ok u0) u0 b).2 = Raise KeyError.
Proof.
  apply (run_missing_user_id_stops (tzdb := demo_tzdb) me chan_1001 (λ _, obs_ok u0) u0
           (ticks_from (u0 + 5000000) 2) (mkBot [delete "user_id" (once_task "a1b2c3d4" (utc_sched 2026 11 9 7 30))] None) []
           (delete "user_id" (once_task "a1b2c3d4" (utc_sched 2026 11 9 7 30))) []);
    [vm_compute; reflexivity | reflexivity | constructor | vm_compute; reflexivity].
Defined.


Lemma scan_reschedules_forward_witness :
  let t := daily_task "d1" "Asia/Jakarta" (utc_sched 2026 11 9 2 0) in
  let t' := <[SCHED := utc_sched 2026 11 10 2 0]> t in
  t' = t ∨ t' = <[SCHED := PNone]> t ∨
  ∃ r, t' = <[SCHED := PDateTime r]> t ∧ aware_us (utc_now u0) < aware_us r ∧ off r = 0.
Proof.
  refine (scan_reschedules_forward (tzdb := demo_tzdb) me chan_1001 (utc_now u0) (obs_ok u0)
            [daily_task "d1" "Asia/Jakarta" (utc_sched 2026 11 9 2 0)] _ 0%nat _ _ _ _);
    [intros n; vm_compute; congruence | reflexivity | vm_compute; reflexivity].
Defined.

Lemma tick_reschedule_not_saved_witness :
  let b := mkBot [daily_task "d1" "Asia/Jakarta" (utc_sched 2026 11 9 2 0)] None in
  tick (tzdb := demo_tzdb) me chan_1001 (obs_ok u0) u0 b =
  (mkBot (so_tasks (scan (tzdb := demo_tzdb) me chan_1001 (utc_now u0) (obs_ok u0) (bot_tasks b))) (bot_file b),
   so_sent (scan (tzdb := demo_tzdb) me chan_1001 (utc_now u0) (obs_ok u0) (bot_tasks b)), Ok tt).
Proof.
  apply (tick_reschedule_not_saved (tzdb := demo_tzdb) me chan_1001 (obs_ok u0) u0
           (mkBot [daily_task "d1" "Asia/Jakarta" (utc_sched 2026 11 9 2 0)] None));
    [vm_compute; reflexivity | decide_vm |].
  intros t rt ->%list_elem_of_singleton _ _ Hr. vm_compute in Hr. by injection Hr as <-.
Defined.

(** A daily task as loaded from the file that [save_tasks] wrote. *)
Definition saved_daily : bot :=
  mkBot [daily_task "d1" "Asia/Jakarta" (utc_sched 2026 11 9 2 0)]
        (after_writes None (save_tasks [daily_task "d1" "Asia/Jakarta" (utc_sched 2026 11 9 2 0)]).1).


Lemma run_wf_never_stops_witness :
  let b := mkBot [once_task "a1b2c3d4" (utc_sched 2026 11 9 7 30);
                  daily_task "d1" "Asia/Jakarta" (utc_sched 2026 11 9 2 0);
                  weekly_task "w1" "senin" (utc_sched 2026 11 16 2 0)] None in
  (run (tzdb := demo_tzdb) me chan_1001 (λ _, obs_ok u0) (ticks_from u0 3) b).2 = Ok tt ∧
  Forall (λ t, wf_task t = true) (bot_tasks (run (tzdb := demo_tzdb) me chan_1001 (λ _, obs_ok u0) (ticks_from u0 3) b).1.1).
Proof. apply run_wf_never_stops; decide_vm. Defined.




(** A due [once] task, a due daily task and a [once] task of tomorrow. *)
Definition refine_tasks : list dict :=
  [once_task "aaaa" (utc_sched 2026 11 9 7 0); daily_task "dddd" "Asia/Jakarta" (utc_sched 2026 11 9 2 0);
   once_task "eeee" (utc_sched 2026 11 10 7 0)].

Lemma tick_refines_spec_witness :
  let '(b', sent, _) := tick (tzdb := demo_tzdb) me chan_1001 (obs_ok u0) u0 (mkBot refine_tasks None) in
  (map (abs_task me) (bot_tasks b'), sent) =
    spec_tick chan_1001 u0 (λ _, to_us (mkDT 2026 11 10 2 0 0 0)) (map (abs_task me) refine_tasks).
Proof.
  apply (tick_refines_spec (tzdb := demo_tzdb) me chan_1001 (obs_ok u0) u0 (mkBot refine_tasks None));
    [vm_compute; reflexivity | decide_vm | vm_compute; reflexivity | intros; reflexivity |].
  intros [|[|[|j]]] t Hj; cbn in Hj; try discriminate; injection Hj as <-; intros Hdue Hne.
  - vm_compute in Hne. by destruct Hne.
  - exists (mkAware (mkDT 2026 11 10 2 0 0 0) 0). split; vm_compute; reflexivity.
  - vm_compute in Hdue. discriminate.
Defined.
