(* ===== verification/Commands.v ===== *)
(** * Commands: the command layer [SchedulerCog]

    [SchedulerCog.on_message] (src/chronoreply.py, lines 272-305) reads a
    message of the logged-in user that starts with [PREFIX], splits the rest
    on whitespace and routes on the lower-cased first word:
    - [kirim] to [_kirim_once] (lines 310-343), which parses the time with
      [parse_time_input], refuses a past instant and appends a [once] task;
    - [ulang] to [_route_repeat] and [_kirim_repeat] (lines 348-415), which
      compute the first run with [_calculate_next_repeat] and append a
      [harian] or [mingguan] task;
    - [daftar] to [_list_tasks] (lines 420-442), [hapus] to [_delete_task]
      (lines 447-458) and [tz] to [_show_timezone] (lines 463-464).
    A handler changes the store of the scheduler (the task list and the
    file through [save_tasks]) through the operations of the class
    [TaskStore], of which the scheduler's [bot] is one instance and
    Interleave.v's heap of objects another, and sends replies with
    [ctx.send]; a reply is a value of [reply] carrying the data its text
    shows (the local time as an aware datetime: [strftime] with locale
    names is not modelled).  [main] and [start_bot] model the [__main__]
    block and [step] the running bot.
    What a handler learns from the outside is [cmd_obs]: the clock
    readings and the id [str(uuid.uuid4())[:8]].  An exception escaping a
    handler is a [Raise]; [discord.py] logs it and the bot goes on.
    [StoreSim] is the relation between two stores that the handlers cannot
    tell apart ([on_message_sim]).  The theorems: what [/kirim], [/ulang],
    [/daftar] and [/hapus] do, the task a message may create, and that the
    loop never stops in a state [step] reaches. *)

From S2P Require Import Prelude PyStr Calendar Zone PyVal Store Parser Recurrence Scheduler.
Local Open Scope Z_scope.

Record message := mkMessage { msg_author : PyVal; msg_content : string }.

(** The entry [_list_tasks] prints for a task. *)
Record list_entry := mkEntry {
  le_id : PyVal; le_type : PyVal; le_channel : PyVal; le_next : aware; le_preview : string
}.

Inductive reply :=
  | RUsageKirim | RBadChannel | RBadTime | RPast
  | RScheduled (id : string) (local : aware)
  | RUsageUlang | RUsageHarian | RUsageMingguan | RBadRepeatType | RBadTimeOrChannel
  | RFirstRunFailed
  | RRepeatScheduled (id : string) (local : aware)
  | RNoTasks | RTaskList (entries : list list_entry)
  | RUsageHapus | RDeleted (id : string) | RNotFound
  | RTimezone (name : string).

Record cmd_obs := mkCmdObs {
  co_clock : Z;      (** UTC reading of [datetime.now] in the parser or the calculator *)
  co_clock2 : Z;     (** UTC reading of [datetime.now(pytz.utc)] in [/kirim]'s past check *)
  co_uuid : string   (** [str(uuid.uuid4())[:8]] *)
}.

(** [" ".join(args)]. *)
Definition join_space (l : list string) : string := String.concat " " l.

(** [t["content"][:50] + ("..." if len(t["content"]) > 50 else "")]. *)
Definition preview (c : string) : string :=
  String.substring 0 50 c +:+ (if 50 <? Z.of_nat (String.length c) then "..." else "").

(** What a handler does with the bot's store: it reads [self.bot.tasks],
    calls [self.bot.tasks.append(task)], rebinds [self.bot.tasks] to the
    tasks a comprehension keeps, and calls [self.bot.save_tasks()].  The
    scheduler's [bot] is one implementation (below); Interleave.v gives
    another over a heap of Python objects, where the list object and the
    dicts have an identity. *)
Class TaskStore (S : Type) := {
  st_tasks : S → list dict;
  st_append : S → dict → S;
  st_keep : S → (dict → Res bool) → Res S;
  st_save : S → S * Res unit
}.

#[export] Instance bot_store : TaskStore bot := {
  st_tasks := bot_tasks;
  st_append b t := mkBot (bot_tasks b ++ [t]) (bot_file b);
  st_keep b p := ts ← res_filterM p (bot_tasks b); mret (mkBot ts (bot_file b));
  st_save b := let '(ws, r) := save_tasks (bot_tasks b) in
               (mkBot (bot_tasks b) (after_writes (bot_file b) ws), r)
}.

Lemma bot_st_keep b p :
  st_keep b p = (ts ← res_filterM p (bot_tasks b); Ok (mkBot ts (bot_file b))).
Proof. reflexivity. Qed.

Lemma bot_st_save b :
  st_save b = (mkBot (bot_tasks b) (after_writes (bot_file b) (save_tasks (bot_tasks b)).1),
               (save_tasks (bot_tasks b)).2).
Proof. cbn. by destruct (save_tasks _). Qed.

Section Commands.
Context {tzdb : TzDatabase}.
Context (PREFIX DEFAULT_TZ : string) (default_tz : zone) (my_id : PyVal).
Context {S : Type} `{!TaskStore S}.

Definition outcome : Type := S * list reply * Res unit.

Definition reply_with (b : S) (r : reply) : outcome := (b, [r], Ok tt).

(** [self.bot.tasks.append(task); self.bot.save_tasks()]. *)
Definition add_task (b : S) (task : dict) : S * Res unit :=
  st_save (st_append b task).

(** The dict of lines 329-337 and 394-404. *)
Definition new_task (id : string) (cid : Z) (pesan : string) (rtype : string)
    (repeat : option (string * PyVal)) (sched : aware) : dict :=
  let base :=
    <["id" := PStr id]> (<["user_id" := my_id]> (<["channel_id" := PInt cid]>
    (<["content" := PStr pesan]> (<["repeat_type" := PStr rtype]>
    (<[SCHED := PDateTime sched]> (<["timezone" := PStr DEFAULT_TZ]> ∅)))))) in
  match repeat with
  | None => base
  | Some (value, day) => <["repeat_value" := PStr value]> (<["repeat_day" := day]> base)
  end.

(** Append a task and answer with the local time of its schedule
    (lines 339-343 and 406-415). *)
Definition store_and_reply (b : S) (task : dict) (sched : aware) (mk : aware → reply) : outcome :=
  let '(b', r) := add_task b task in
  match r with
  | Raise e => (b', [], Raise e)
  | Ok _ =>
      match astimezone_zone default_tz sched with
      | Ok lokal => (b', [mk lokal], Ok tt)
      | Raise e => (b', [], Raise e)
      end
  end.

(** [_kirim_once(ctx, *args)]. *)
Definition kirim_once (b : S) (o : cmd_obs) (args : list string) : outcome :=
  match args with
  | waktu :: channel_id_str :: ((_ :: _) as rest) =>
      match py_int channel_id_str with
      | Raise _ => reply_with b RBadChannel
      | Ok channel_id =>
          match parse_time_input default_tz (co_clock o) waktu with
          | Raise e => (b, [], Raise e)
          | Ok None => reply_with b RBadTime
          | Ok (Some dt_utc) =>
              match now_in utc_zone (co_clock2 o) with
              | Raise e => (b, [], Raise e)
              | Ok now =>
                  if aware_le dt_utc now then reply_with b RPast
                  else store_and_reply b
                         (new_task (co_uuid o) channel_id (join_space rest) "once" None dt_utc)
                         dt_utc (RScheduled (co_uuid o))
              end
          end
      end
  | _ => reply_with b RUsageKirim
  end.

(** The argument checks of [_kirim_repeat] (lines 358-373): time string,
    channel string, message and [repeat_day], or the usage reply. *)
Definition repeat_args (tipe : string) (args : list string) : (string * string * string * PyVal) + reply :=
  if String.eqb tipe "harian" then
    match args with
    | time_str :: channel_id_str :: ((_ :: _) as rest) =>
        inl (time_str, channel_id_str, join_space rest, PNone)
    | _ => inr RUsageHarian
    end
  else if String.eqb tipe "mingguan" then
    match args with
    | d :: time_str :: channel_id_str :: ((_ :: _) as rest) =>
        inl (time_str, channel_id_str, join_space rest, PStr (lower d))
    | _ => inr RUsageMingguan
    end
  else inr RBadRepeatType.

(** The dict [temp] of lines 382-387. *)
Definition repeat_temp (tipe time_str : string) (day : PyVal) : dict :=
  <["repeat_type" := PStr tipe]> (<["repeat_value" := PStr time_str]>
  (<["repeat_day" := day]> (<["timezone" := PStr DEFAULT_TZ]> ∅))).

(** [_kirim_repeat(ctx, tipe, *args)]. *)
Definition kirim_repeat (b : S) (o : cmd_obs) (tipe : string) (args : list string) : outcome :=
  match repeat_args tipe args with
  | inr rep => reply_with b rep
  | inl (time_str, channel_id_str, pesan, day) =>
      match (cid ← py_int channel_id_str; _ ← int_pair ":" time_str; mret cid) with
      | Raise _ => reply_with b RBadTimeOrChannel
      | Ok channel_id =>
          match calculate_next_repeat (repeat_temp tipe time_str day) (co_clock o) with
          | Raise e => (b, [], Raise e)
          | Ok None => reply_with b RFirstRunFailed
          | Ok (Some first_run) =>
              store_and_reply b
                (new_task (co_uuid o) channel_id pesan tipe (Some (time_str, day)) first_run)
                first_run (RRepeatScheduled (co_uuid o))
          end
      end
  end.

(** [_route_repeat(ctx, args)]. *)
Definition route_repeat (b : S) (o : cmd_obs) (args : list string) : outcome :=
  match args with
  | [] => reply_with b RUsageUlang
  | tipe :: rest => kirim_repeat b o (lower tipe) rest
  end.

(** One line of [/daftar] (lines 431-440), in the order the source reads
    the keys. *)
Definition entry_of (t : dict) : Res list_entry :=
  s ← getitem t SCHED;
  a ← (match s with PDateTime a => Ok a | _ => Raise AttributeError end);
  lokal ← astimezone_zone default_tz a;
  cid ← getitem t "channel_id";
  c ← getitem t "content";
  cs ← (match c with PStr cs => Ok cs | _ => Raise TypeError end);
  id ← getitem t "id";
  rt ← getitem t "repeat_type";
  mret (mkEntry id rt cid lokal (preview cs)).

(** [_list_tasks(ctx)]. *)
Definition list_tasks (b : S) : outcome :=
  match res_filterM (λ t, uid ← getitem t "user_id"; mret (py_eq uid my_id)) (st_tasks b) with
  | Raise e => (b, [], Raise e)
  | Ok [] => reply_with b RNoTasks
  | Ok ts =>
      match res_mapM entry_of ts with
      | Raise e => (b, [], Raise e)
      | Ok es => reply_with b (RTaskList es)
      end
  end.

(** [_delete_task(ctx, *args)]: the method takes at most one argument. *)
Definition delete_task (b : S) (args : list string) : outcome :=
  match args with
  | [] => reply_with b RUsageHapus
  | [task_id] =>
      match st_keep b (λ t, id ← getitem t "id"; mret (negb (py_eq id (PStr task_id)))) with
      | Raise e => (b, [], Raise e)
      | Ok b1 =>
          if (length (st_tasks b1) <? length (st_tasks b))%nat then
            let '(b', r) := st_save b1 in
            match r with
            | Ok _ => (b', [RDeleted task_id], Ok tt)
            | Raise e => (b', [], Raise e)
            end
          else reply_with b1 RNotFound
      end
  | _ => (b, [], Raise TypeError)
  end.

(** [_show_timezone(ctx)]. *)
Definition show_timezone (b : S) : outcome := reply_with b (RTimezone DEFAULT_TZ).

(** [on_message(message)]. *)
Definition on_message (b : S) (o : cmd_obs) (msg : message) : outcome :=
  if negb (py_eq (msg_author msg) my_id) then (b, [], Ok tt)
  else if negb (String.prefix PREFIX (msg_content msg)) then (b, [], Ok tt)
  else
    let c := msg_content msg in
    match split_ws (String.substring (String.length PREFIX) (String.length c - String.length PREFIX) c) with
    | [] => (b, [], Ok tt)
    | p0 :: args =>
        let command := lower p0 in
        if String.eqb command "kirim" then kirim_once b o args
        else if String.eqb command "ulang" then route_repeat b o args
        else if String.eqb command "daftar" then list_tasks b
        else if String.eqb command "hapus" then delete_task b args
        else if String.eqb command "tz" then show_timezone b
        else (b, [], Ok tt)
    end.

(** The command word [on_message] routes a message on (lines 275-286):
    the lower-cased first word after the prefix, for a message of the
    user; [None] when the handler returns before routing. *)
Definition routes_to (msg : message) : option string :=
  if negb (py_eq (msg_author msg) my_id) then None
  else if negb (String.prefix PREFIX (msg_content msg)) then None
  else
    let c := msg_content msg in
    match split_ws (String.substring (String.length PREFIX) (String.length c - String.length PREFIX) c) with
    | [] => None
    | p0 :: _ => Some (lower p0)
    end.

(** The message is routed to [_kirim_once] or [_route_repeat], the two
    handlers that append to [self.bot.tasks]. *)
Definition appends (msg : message) : bool :=
  match routes_to msg with
  | Some w => String.eqb w "kirim" || String.eqb w "ulang"
  | None => false
  end.

End Commands.

(** ** How a handler changes the store *)

Section CommandLemmas.
Context {tzdb : TzDatabase}.
Context (PREFIX DEFAULT_TZ : string) (default_tz : zone) (my_id : PyVal).
Context {S : Type} `{!TaskStore S}.

Lemma store_and_reply_state (b : S) t s mk :
  (store_and_reply default_tz b t s mk).1.1 = (add_task b t).1.
Proof.
  unfold store_and_reply. destruct (add_task b t) as [b' [|]]; cbn; [|done].
  by destruct (astimezone_zone _ _).
Qed.

Lemma kirim_once_cases (b : S) o args :
  let b' := (kirim_once DEFAULT_TZ default_tz my_id b o args).1.1 in
  b' = b ∨
  ∃ w rest cid pesan a, args = w :: rest ∧ parse_time_input default_tz (co_clock o) w = Ok (Some a) ∧
    b' = (add_task b (new_task DEFAULT_TZ my_id (co_uuid o) cid pesan "once" None a)).1.
Proof.
  cbv zeta. unfold kirim_once.
  destruct args as [|w [|cs [|x rest]]]; try by left.
  destruct (py_int cs) as [cid|]; [|by left].
  destruct (parse_time_input _ _ w) as [[a|]|] eqn:Hp; try by left.
  destruct (now_in _ _) as [now|]; [|by left].
  destruct (aware_le a now); [by left|].
  right. eexists _, _, cid, _, a. split_and!; [reflexivity | done | apply store_and_reply_state].
Qed.

Lemma repeat_args_inl tipe args time_str cs pesan day :
  repeat_args tipe args = inl (time_str, cs, pesan, day) →
  (tipe = "harian" ∨ tipe = "mingguan") ∧ (day = PNone ∨ ∃ d, day = PStr d).
Proof.
  unfold repeat_args.
  destruct (String.eqb_spec tipe "harian") as [->|]; [destruct args as [|? [|? [|? ?]]]; intros H; inversion H; eauto|].
  destruct (String.eqb_spec tipe "mingguan") as [->|]; [|discriminate].
  destruct args as [|? [|? [|? [|? ?]]]]; intros H; inversion H; eauto.
Qed.

Lemma kirim_repeat_cases (b : S) o tipe args :
  let b' := (kirim_repeat DEFAULT_TZ default_tz my_id b o tipe args).1.1 in
  b' = b ∨
  ∃ time_str day cid pesan a,
    (tipe = "harian" ∨ tipe = "mingguan") ∧ (day = PNone ∨ ∃ d, day = PStr d) ∧
    calculate_next_repeat (repeat_temp DEFAULT_TZ tipe time_str day) (co_clock o) = Ok (Some a) ∧
    b' = (add_task b (new_task DEFAULT_TZ my_id (co_uuid o) cid pesan tipe (Some (time_str, day)) a)).1.
Proof.
  cbv zeta. unfold kirim_repeat.
  destruct (repeat_args tipe args) as [[[[time_str cs] pesan] day]|rep] eqn:Ha; [|by left].
  destruct (repeat_args_inl _ _ _ _ _ _ Ha) as [Ht Hd].
  destruct (_ ≫= _) as [cid|]; [|by left].
  destruct (calculate_next_repeat _ _) as [[a|]|] eqn:Hc; try by left.
  right. eexists _, _, cid, _, a. split_and!; [done | done | exact Hc | apply store_and_reply_state].
Qed.

Lemma list_tasks_state (b : S) : (list_tasks default_tz my_id b).1.1 = b.
Proof. unfold list_tasks. by repeat case_match. Qed.

Lemma delete_task_shape (b : S) args :
  let b' := (delete_task b args).1.1 in
  b' = b ∨ ∃ p b1, st_keep b p = Ok b1 ∧ (b' = b1 ∨ b' = (st_save b1).1).
Proof.
  cbv zeta. unfold delete_task. destruct args as [|x [|y z]]; try by left.
  destruct (st_keep b _) as [b1|] eqn:Hk; [|by left]. right. eexists _, b1. split; [exact Hk|].
  destruct (_ <? _)%nat; [|by left]. right. destruct (st_save b1) as [b2 [|]]; done.
Qed.

(** Whatever the store, a handler leaves it as it was, rebinds the task
    list to what a comprehension keeps (and may save it), or appends one
    task built from the message and saves. *)
Lemma on_message_shape (b : S) o msg :
  let b' := (on_message PREFIX DEFAULT_TZ default_tz my_id b o msg).1.1 in
  b' = b ∨
  (∃ p b1, st_keep b p = Ok b1 ∧ (b' = b1 ∨ b' = (st_save b1).1)) ∨
  (∃ w cid pesan a, split_ws w = [w] ∧ parse_time_input default_tz (co_clock o) w = Ok (Some a) ∧
     b' = (add_task b (new_task DEFAULT_TZ my_id (co_uuid o) cid pesan "once" None a)).1) ∨
  (∃ tipe time_str day cid pesan a,
     (tipe = "harian" ∨ tipe = "mingguan") ∧ (day = PNone ∨ ∃ d, day = PStr d) ∧
     calculate_next_repeat (repeat_temp DEFAULT_TZ tipe time_str day) (co_clock o) = Ok (Some a) ∧
     b' = (add_task b (new_task DEFAULT_TZ my_id (co_uuid o) cid pesan tipe (Some (time_str, day)) a)).1).
Proof.
  cbv zeta. unfold on_message.
  destruct (negb (py_eq (msg_author msg) my_id)); [by left|].
  destruct (negb (String.prefix PREFIX (msg_content msg))); [by left|].
  destruct (split_ws _) as [|p0 args] eqn:Hs; [by left|].
  destruct (String.eqb (lower p0) "kirim").
  { destruct (kirim_once_cases b o args) as [->|(w & rest & cid & pesan & a & -> & Hp & ->)]; [by left|].
    right; right; left. exists w, cid, pesan, a. split_and!; [|done|done].
    match type of Hs with split_ws ?s = _ => apply (split_ws_token s w) end. rewrite Hs. by right; left. }
  destruct (String.eqb (lower p0) "ulang").
  { unfold route_repeat. destruct args as [|tipe rest]; [by left|].
    destruct (kirim_repeat_cases b o (lower tipe) rest) as [->|(ts & day & cid & pesan & a & ? & ? & ? & ->)]; [by left|].
    right; right; right. eauto 10. }
  destruct (String.eqb (lower p0) "daftar"); [left; apply list_tasks_state|].
  destruct (String.eqb (lower p0) "hapus"); [|destruct (String.eqb (lower p0) "tz"); by left].
  destruct (delete_task_shape b args) as [->|?]; [by left | by right; left].
Qed.

(** A message not routed to [/kirim] or [/ulang] leaves the store as it
    was, or rebinds the task list to what a comprehension keeps (and may
    save it): it never appends. *)
Lemma on_message_no_append (b : S) o msg :
  appends PREFIX my_id msg = false →
  let b' := (on_message PREFIX DEFAULT_TZ default_tz my_id b o msg).1.1 in
  b' = b ∨ ∃ p b1, st_keep b p = Ok b1 ∧ (b' = b1 ∨ b' = (st_save b1).1).
Proof.
  unfold appends, routes_to. cbv zeta. unfold on_message.
  destruct (negb (py_eq (msg_author msg) my_id)); [by left|].
  destruct (negb (String.prefix PREFIX (msg_content msg))); [by left|].
  destruct (split_ws _) as [|p0 args]; [by left|].
  destruct (String.eqb (lower p0) "kirim"); [discriminate|].
  destruct (String.eqb (lower p0) "ulang"); [discriminate|]. intros _.
  destruct (String.eqb (lower p0) "daftar"); [left; apply list_tasks_state|].
  destruct (String.eqb (lower p0) "hapus"); [|destruct (String.eqb (lower p0) "tz"); by left].
  destruct (delete_task_shape b args) as [->|?]; [by left | by right].
Qed.

End CommandLemmas.

(** The same facts for the scheduler's [bot]. *)

Section BotLemmas.
Context {tzdb : TzDatabase}.
Context (PREFIX DEFAULT_TZ : string) (default_tz : zone) (my_id : PyVal).

Lemma add_task_spec b t :
  (add_task b t).1 =
  mkBot (bot_tasks b ++ [t]) (after_writes (bot_file b) (save_tasks (bot_tasks b ++ [t])).1).
Proof. unfold add_task. cbn. by destruct (save_tasks _). Qed.

Lemma bot_keep_sublist b p b1 :
  st_keep b p = Ok b1 → bot_tasks b1 `sublist_of` bot_tasks b ∧ bot_file b1 = bot_file b.
Proof.
  rewrite bot_st_keep. destruct (res_filterM p _) as [ts|] eqn:Hf; [|done].
  intros [= <-]. split; [by eapply res_filterM_sublist | done].
Qed.

(** Every handler leaves the store as it was, keeps some of its tasks (and
    saves them), or appends one task built from the message. *)
Lemma on_message_cases b o msg :
  let b' := (on_message PREFIX DEFAULT_TZ default_tz my_id b o msg).1.1 in
  b' = b ∨
  (bot_tasks b' `sublist_of` bot_tasks b ∧
   (bot_file b' = bot_file b ∨ bot_file b' = after_writes (bot_file b) (save_tasks (bot_tasks b')).1)) ∨
  (∃ w cid pesan a, split_ws w = [w] ∧ parse_time_input default_tz (co_clock o) w = Ok (Some a) ∧
     b' = (add_task b (new_task DEFAULT_TZ my_id (co_uuid o) cid pesan "once" None a)).1) ∨
  (∃ tipe time_str day cid pesan a,
     (tipe = "harian" ∨ tipe = "mingguan") ∧ (day = PNone ∨ ∃ d, day = PStr d) ∧
     calculate_next_repeat (repeat_temp DEFAULT_TZ tipe time_str day) (co_clock o) = Ok (Some a) ∧
     b' = (add_task b (new_task DEFAULT_TZ my_id (co_uuid o) cid pesan tipe (Some (time_str, day)) a)).1).
Proof.
  cbv zeta.
  destruct (on_message_shape PREFIX DEFAULT_TZ default_tz my_id b o msg) as [?|[(p & b1 & Hk & Hb)|?]];
    [by left | | by right; right].
  right; left. destruct (bot_keep_sublist _ _ _ Hk) as [Hsub Hf].
  destruct Hb as [-> | ->]; rewrite ?bot_st_save; cbn; split; [done | by left | done | right; by rewrite Hf].
Qed.

End BotLemmas.

(** ** Stores the handlers cannot tell apart *)

Definition res_rel {A B} (R : A → B → Prop) (x : Res A) (y : Res B) : Prop :=
  match x, y with
  | Ok a, Ok b => R a b
  | Raise e, Raise e' => e = e'
  | _, _ => False
  end.

(** A relation between two stores that every store operation preserves and
    under which both hold the same tasks: what a handler sees of one store
    it sees of the other. *)
Class StoreSim {S T} `{!TaskStore S, !TaskStore T} (R : S → T → Prop) : Prop := {
  sim_tasks s t : R s t → st_tasks s = st_tasks t;
  sim_append s t x : R s t → R (st_append s x) (st_append t x);
  sim_keep s t p : R s t → res_rel R (st_keep s p) (st_keep t p);
  sim_save s t : R s t → R (st_save s).1 (st_save t).1 ∧ (st_save s).2 = (st_save t).2
}.

Definition outcome_rel {S T} (R : S → T → Prop) (x : S * list reply * Res unit) (y : T * list reply * Res unit) : Prop :=
  R x.1.1 y.1.1 ∧ x.1.2 = y.1.2 ∧ x.2 = y.2.

Section Simulation.
Context {tzdb : TzDatabase}.
Context (PREFIX DEFAULT_TZ : string) (default_tz : zone) (my_id : PyVal).
Context {S T : Type} `{!TaskStore S, !TaskStore T} (R : S → T → Prop) `{!StoreSim R}.

Lemma reply_with_sim s t r : R s t → outcome_rel R (reply_with s r) (reply_with t r).
Proof. done. Qed.

Lemma stay_sim s t rs e : R s t → outcome_rel R (s, rs, e) (t, rs, e).
Proof. done. Qed.

#[local] Hint Resolve reply_with_sim stay_sim : chrono.

Lemma store_and_reply_sim s t x a mk :
  R s t → outcome_rel R (store_and_reply default_tz s x a mk) (store_and_reply default_tz t x a mk).
Proof.
  intros H. unfold store_and_reply, add_task.
  destruct (sim_save _ _ (sim_append s t x H)) as [Hs Hr].
  destruct (st_save (st_append s x)) as [s' r], (st_save (st_append t x)) as [t' r'].
  cbn in Hs, Hr. subst r'. by repeat case_match.
Qed.

#[local] Hint Resolve store_and_reply_sim : chrono.

Ltac sim_cases := repeat (case_match; try done); eauto with chrono.

Lemma kirim_once_sim s t o args :
  R s t → outcome_rel R (kirim_once DEFAULT_TZ default_tz my_id s o args) (kirim_once DEFAULT_TZ default_tz my_id t o args).
Proof. intros H. unfold kirim_once. sim_cases. Qed.

Lemma route_repeat_sim s t o args :
  R s t → outcome_rel R (route_repeat DEFAULT_TZ default_tz my_id s o args) (route_repeat DEFAULT_TZ default_tz my_id t o args).
Proof. intros H. unfold route_repeat, kirim_repeat. sim_cases. Qed.

Lemma list_tasks_sim s t :
  R s t → outcome_rel R (list_tasks default_tz my_id s) (list_tasks default_tz my_id t).
Proof. intros H. unfold list_tasks. rewrite (sim_tasks s t H). sim_cases. Qed.

Lemma delete_task_sim s t args :
  R s t → outcome_rel R (delete_task s args) (delete_task t args).
Proof.
  intros H. unfold delete_task. destruct args as [|x [|y z]]; [by apply reply_with_sim | | done].
  pose proof (sim_keep s t (λ t, id ← getitem t "id"; mret (negb (py_eq id (PStr x)))) H) as Hk.
  destruct (st_keep s _) as [s1|e], (st_keep t _) as [t1|e']; cbn in Hk; try done; [|by subst].
  rewrite (sim_tasks s t H), (sim_tasks s1 t1 Hk). case_match; [|done].
  destruct (sim_save _ _ Hk) as [Hs Hr].
  destruct (st_save s1) as [s' r], (st_save t1) as [t' r']. cbn in Hs, Hr. subst r'. by case_match.
Qed.

#[local] Hint Resolve kirim_once_sim route_repeat_sim list_tasks_sim delete_task_sim : chrono.

(** The handlers only reach the store through [TaskStore]: on related
    stores they send the same replies, end alike and leave related
    stores. *)
Lemma on_message_sim s t o msg :
  R s t → outcome_rel R (on_message PREFIX DEFAULT_TZ default_tz my_id s o msg)
                         (on_message PREFIX DEFAULT_TZ default_tz my_id t o msg).
Proof. intros H. unfold on_message, show_timezone. sim_cases. Qed.

End Simulation.

(** ** The tasks the commands create *)

Section NewTask.
Context (DEFAULT_TZ : string) (my_id : PyVal).

Lemma new_task_lookups id cid pesan rtype rep a :
  let t := new_task DEFAULT_TZ my_id id cid pesan rtype rep a in
  t !! SCHED = Some (PDateTime a) ∧ t !! "repeat_type" = Some (PStr rtype) ∧
  t !! "user_id" = Some my_id ∧ t !! "id" = Some (PStr id).
Proof. unfold new_task. destruct rep as [[v d]|]; split_and!; reflexivity. Qed.

(** A task built by [/kirim] or [/ulang] from a UTC schedule is
    well-formed. *)
Lemma new_task_wf id cid pesan rtype rep a :
  json_scalar my_id = true → (∀ v d, rep = Some (v, d) → json_scalar d = true) →
  off a = 0 → valid_dt (naive a) = true →
  wf_task (new_task DEFAULT_TZ my_id id cid pesan rtype rep a) = true.
Proof.
  intros Hmy Hd Ho V. destruct (new_task_lookups id cid pesan rtype rep a) as (Hs & _ & Hu & Hi).
  unfold wf_task. rewrite Hs, Hu, Hi. cbn [sched_wf]. rewrite Ho, V.
  rewrite (bool_decide_eq_true_2 (is_Some (Some my_id))) by by eexists.
  rewrite (bool_decide_eq_true_2 (is_Some (Some (PStr id)))) by by eexists.
  cbn. apply bool_decide_eq_true_2. unfold new_task. destruct rep as [[v d]|];
    repeat apply map_Forall_insert_2; try apply map_Forall_empty; try (by left); right; try done.
  by apply (Hd v d).
Qed.

End NewTask.

(** ** What [/daftar] shows *)

Lemma preview_spec c :
  (String.length (preview c) ≤ 53)%nat ∧ ((String.length c ≤ 50)%nat → preview c = c).
Proof.
  unfold preview. rewrite string_length_app, substring0_length.
  destruct (Z.ltb_spec 50 (Z.of_nat (String.length c))); cbn [String.length]; split; try lia.
  intros Hc. rewrite substring0_id by done. apply string_app_nil_r.
Qed.

Section Daftar.
Context {tzdb : TzDatabase} (default_tz : zone).

Lemma entry_of_Ok t e :
  entry_of default_tz t = Ok e →
  ∃ a c, t !! SCHED = Some (PDateTime a) ∧ astimezone_zone default_tz a = Ok (le_next e) ∧
    t !! "content" = Some (PStr c) ∧ le_preview e = preview c ∧ t !! "id" = Some (le_id e) ∧
    t !! "channel_id" = Some (le_channel e) ∧ t !! "repeat_type" = Some (le_type e).
Proof.
  unfold entry_of, getitem. intros H.
  repeat (apply bind_eq_Ok in H as (? & ? & H)).
  repeat match goal with
    | Hm : (match ?x with _ => _ end) = Ok _ |- _ => destruct x eqn:?; try discriminate Hm; injection Hm; intros; subst
    end.
  injection H as <-. subst. cbn. eexists _, _. split_and!; eauto.
Qed.

End Daftar.

(** ** Theorems *)

Section CommandTheorems.
Context {tzdb : TzDatabase}.
Context (PREFIX DEFAULT_TZ : string) (default_tz : zone) (my_id : PyVal).

(** C27: [/kirim] passes [parse_time_input] a single word of the message
    (its first argument): whenever a message makes the bot append a [once]
    task, the task's schedule is the [HH:MM] reading of one word, and the
    [<hari> HH:MM] and [DD-MM HH:MM] forms of the parser are never used. *)
Theorem on_message_kirim_hhmm_only b o msg t :
  bot_tasks (on_message PREFIX DEFAULT_TZ default_tz my_id b o msg).1.1 = bot_tasks b ++ [t] →
  t !! "repeat_type" = Some (PStr "once") →
  ∃ w nl a, split_ws w = [w] ∧ now_in default_tz (co_clock o) = Ok nl ∧
            case_hhmm nl w = Ok (Some a) ∧ t !! SCHED = Some (PDateTime a).
Proof.
  intros Ht Hr.
  destruct (on_message_cases PREFIX DEFAULT_TZ default_tz my_id b o msg)
    as [E|[[Hsub _]|[(w & cid & pesan & a & Hw & Hp & E)|(tipe & ts & day & cid & pesan & a & Htp & _ & _ & E)]]].
  - rewrite E in Ht. apply (f_equal length) in Ht. rewrite List.length_app in Ht. cbn in Ht. lia.
  - rewrite Ht in Hsub. apply sublist_length in Hsub. rewrite List.length_app in Hsub. cbn in Hsub. lia.
  - rewrite E, add_task_spec in Ht. cbn [bot_tasks] in Ht. apply app_inj_tail in Ht as [_ <-].
    unfold parse_time_input in Hp. apply bind_eq_Ok in Hp as (nl & Hn & [= Hp]).
    rewrite Hw in Hp. exists w, nl, a. split_and!; [done | done | | apply new_task_lookups].
    cbn [parse_parts] in Hp. destruct (contains_char ":" w); [|discriminate].
    destruct (case_hhmm nl w) as [[r|]|]; cbn in Hp; congruence.
  - rewrite E, add_task_spec in Ht. cbn [bot_tasks] in Ht. apply app_inj_tail in Ht as [_ <-].
    destruct (new_task_lookups DEFAULT_TZ my_id (co_uuid o) cid pesan tipe (Some (ts, day)) a) as (_ & Hrt & _).
    rewrite Hrt in Hr. injection Hr as ->. destruct Htp; discriminate.
Qed.

(** C20: When its channel id is an integer, its time word parses to an
    instant and that instant is later than the second clock reading,
    [/kirim] appends a [once] task of the user for that instant and saves
    the store; the instant is in UTC, strictly after the parser's reading,
    and the task is well-formed. *)
Theorem kirim_once_creates b o waktu cs rest c a now :
  json_scalar my_id = true →
  py_int cs = Ok c → rest ≠ [] → parse_time_input default_tz (co_clock o) waktu = Ok (Some a) →
  now_in utc_zone (co_clock2 o) = Ok now → aware_le a now = false →
  (kirim_once DEFAULT_TZ default_tz my_id b o (waktu :: cs :: rest)).1.1 =
    (add_task b (new_task DEFAULT_TZ my_id (co_uuid o) c (join_space rest) "once" None a)).1 ∧
  co_clock o < aware_us a ∧ aware_us now < aware_us a ∧
  wf_task (new_task DEFAULT_TZ my_id (co_uuid o) c (join_space rest) "once" None a) = true.
Proof.
  intros Hmy Hc Hrest Hp Hn Hle. destruct (parse_time_input_after _ _ _ _ Hp) as (Hlt & Ho & V).
  split_and!.
  - unfold kirim_once. destruct rest as [|x rest]; [done|].
    rewrite Hc, Hp, Hn, Hle. apply store_and_reply_state.
  - done.
  - unfold aware_le in Hle. lia.
  - apply new_task_wf; [done | discriminate | done | done].
Qed.

(** C34: [/ulang mingguan] with a day that is not one of the seven day
    names creates no task and answers that the first run could not be
    computed (the weekday is lower-cased twice, once by the command and once
    by [_calculate_next_repeat]). *)
Theorem ulang_bad_day_rejected b o d ts cs rest c h m z :
  tz_lookup DEFAULT_TZ = Some z → in_range (co_clock o + offset_at z (co_clock o)) = true →
  py_int cs = Ok c → int_pair ":" ts = Ok (h, m) → rest ≠ [] → lower d ∉ DAYS_OF_WEEK →
  route_repeat DEFAULT_TZ default_tz my_id b o ("mingguan" :: d :: ts :: cs :: rest) =
  (b, [RFirstRunFailed], Ok tt).
Proof.
  intros Hz Hr Hc Hp Hrest Hd. destruct rest as [|x rest]; [done|].
  unfold route_repeat. change (lower "mingguan") with "mingguan". unfold kirim_repeat.
  change (repeat_args "mingguan" (d :: ts :: cs :: x :: rest))
    with (inl (ts, cs, join_space (x :: rest), PStr (lower d)) : (string * string * string * PyVal) + reply).
  cbv beta iota. rewrite Hc, bind_Ok, Hp, !bind_Ok.
  assert (Hcalc : calculate_next_repeat (repeat_temp DEFAULT_TZ "mingguan" ts (PStr (lower d))) (co_clock o) = Ok None).
  { unfold calculate_next_repeat. change (getitem (repeat_temp DEFAULT_TZ "mingguan" ts (PStr (lower d))) "timezone")
      with (Ok (PStr DEFAULT_TZ) : Res PyVal). rewrite bind_Ok.
    unfold pytz_timezone_val, pytz_timezone. rewrite Hz, bind_Ok, now_in_in_range by done. rewrite bind_Ok.
    change (getitem (repeat_temp DEFAULT_TZ "mingguan" ts (PStr (lower d))) "repeat_value") with (Ok (PStr ts) : Res PyVal).
    rewrite bind_Ok, as_str_PStr, bind_Ok, Hp, bind_Ok.
    change (getitem (repeat_temp DEFAULT_TZ "mingguan" ts (PStr (lower d))) "repeat_type") with (Ok (PStr "mingguan") : Res PyVal).
    rewrite bind_Ok. cbn [py_eq String.eqb].
    change (getitem (repeat_temp DEFAULT_TZ "mingguan" ts (PStr (lower d))) "repeat_day") with (Ok (PStr (lower d)) : Res PyVal).
    rewrite bind_Ok, as_str_PStr, bind_Ok, lower_idem. by apply next_repeat_mingguan_not_day. }
  by rewrite Hcalc.
Qed.

(** C22: [/hapus <ID>] on a store whose tasks all carry an id keeps exactly
    the tasks whose id differs from [ID] (whoever owns them); when that
    removed something the store is saved and the deletion confirmed,
    otherwise the file is untouched and the id reported as not found. *)
Theorem delete_task_spec b task_id :
  Forall (λ t, is_Some (t !! "id")) (bot_tasks b) →
  let keep := filter (λ t, negb (py_eq (dget t "id") (PStr task_id)) = true) (bot_tasks b) in
  let '(b', rs, r) := delete_task b [task_id] in
  bot_tasks b' = keep ∧
  if bool_decide (length keep < length (bot_tasks b))%nat
  then bot_file b' = after_writes (bot_file b) (save_tasks keep).1 ∧ r = (save_tasks keep).2 ∧
       (r = Ok tt → rs = [RDeleted task_id])
  else bot_file b' = bot_file b ∧ rs = [RNotFound] ∧ r = Ok tt.
Proof.
  intros Hall. cbv zeta. unfold delete_task. rewrite bot_st_keep.
  rewrite (res_filterM_pure _ (λ t, negb (py_eq (dget t "id") (PStr task_id)))).
  2: { intros x Hx. destruct (proj1 (Forall_forall _ _) Hall x Hx) as [v Hv].
       unfold getitem, dget. by rewrite Hv. }
  rewrite bind_Ok. cbv iota beta.
  change (st_tasks (mkBot ?ts (bot_file b))) with ts. change (st_tasks b) with (bot_tasks b).
  case_bool_decide as Hlt.
  - apply Nat.ltb_lt in Hlt. rewrite Hlt, bot_st_save. cbn [bot_tasks bot_file].
    destruct (save_tasks _) as [ws [[]|e]]; cbn; auto.
    split_and!; auto. discriminate.
  - apply Nat.ltb_nlt in Hlt. by rewrite Hlt.
Qed.

(** C23: [/daftar] on tasks that all carry a ["user_id"], when the entry
    of each of the user's tasks can be computed, lists exactly the user's
    tasks, in the order of [self.tasks], one entry each computed from the
    task, or answers that there is none; each preview is the content when
    it has at most 50 characters, and has at most 53 characters. *)
Theorem list_tasks_entries b :
  Forall (λ t, is_Some (t !! "user_id")) (bot_tasks b) →
  Forall (λ t, res_is_ok (entry_of default_tz t) = true) (filter (λ t, owned my_id t = true) (bot_tasks b)) →
  ∃ es,
    list_tasks default_tz my_id b =
      (b, [if bool_decide (filter (λ t, owned my_id t = true) (bot_tasks b) = []) then RNoTasks else RTaskList es], Ok tt) ∧
    Forall2 (λ t e, entry_of default_tz t = Ok e ∧
                    ∃ c, t !! "content" = Some (PStr c) ∧ ((String.length c ≤ 50)%nat → le_preview e = c) ∧
                         (String.length (le_preview e) ≤ 53)%nat)
            (filter (λ t, owned my_id t = true) (bot_tasks b)) es.
Proof.
  intros Hu He. unfold list_tasks. change (st_tasks b) with (bot_tasks b).
  rewrite (res_filterM_pure _ (owned my_id)).
  2: { intros t Ht. eapply Forall_forall in Hu as [uid Hid]; [|exact Ht]. unfold getitem, owned. by rewrite Hid. }
  destruct (res_mapM_Ok_pointwise (entry_of default_tz) (filter (λ t, owned my_id t = true) (bot_tasks b)))
    as (es & Hes & _).
  { intros t Ht. apply res_is_ok_spec. by eapply Forall_forall in He. }
  pose proof (proj1 (res_mapM_Forall2 _ _ _) Hes) as H2.
  exists es. split.
  - destruct (filter _ _) as [|t ts]; [done|]. rewrite Hes. by rewrite bool_decide_false.
  - eapply Forall2_impl; [exact H2|]. intros t e Ht. split; [done|].
    destruct (entry_of_Ok default_tz t e Ht) as (a & c & _ & _ & Hc & Hp & _). exists c. rewrite Hp. split; [done|].
    destruct (preview_spec c). by split.
Qed.

(** C31: A task of the user whose schedule is [None] (what the loop stores
    when [_calculate_next_repeat] returns [None], line 205) makes [/daftar]
    raise: [None.astimezone] fails, no list is sent, and the user gets no
    answer for as long as the task is kept. *)
Theorem list_tasks_none_schedule b t :
  t ∈ bot_tasks b → owned my_id t = true → t !! SCHED = Some PNone →
  (list_tasks default_tz my_id b).1 = (b, []) ∧ ∃ e, (list_tasks default_tz my_id b).2 = Raise e.
Proof.
  intros Ht Ho Hs. unfold list_tasks. change (st_tasks b) with (bot_tasks b).
  destruct (res_filterM _ _) as [ts|e] eqn:Hf; [|by eauto].
  assert (Hts : t ∈ ts).
  { eapply res_filterM_keep; [exact Hf | exact Ht |]. unfold owned in Ho.
    destruct (t !! "user_id") as [uid|] eqn:Hid; [|done]. unfold getitem. rewrite Hid. cbn. by rewrite Ho. }
  destruct ts as [|t0 ts]; [by apply not_elem_of_nil in Hts|].
  destruct (res_mapM _ _) as [es|e] eqn:Hm; [|by eauto].
  destruct (res_mapM_Ok_elem _ _ _ _ Hm Hts) as (y & Hy & _).
  unfold entry_of, getitem in Hy. rewrite Hs in Hy. discriminate.
Qed.

End CommandTheorems.

(** ** The bot as a transition system *)

(** Tasks and file both well-formed: what every state reachable from a
    fresh start satisfies. *)
Definition store_inv (b : bot) : Prop :=
  Forall (λ t, wf_task t = true) (bot_tasks b) ∧
  Forall (λ t, wf_task t = true) (load_tasks (bot_file b)).

Section System.
Context {tzdb : TzDatabase}.
Context (PREFIX DEFAULT_TZ : string) (default_tz : zone) (my_id : PyVal) (channel_found : PyVal → bool).

(** The [__main__] block (lines 472-481): the file is created holding
    [[]] when it is missing, then [ChronoReply()] loads it. *)
Definition start_bot (f : option file_content) : bot :=
  restart (mkBot [] (match f with None => Some (FJson (JArray [])) | Some c => Some c end)).

Definition TOKEN_PLACEHOLDER : string := "PASTIKAN_TOKEN_ANDA_ADA_DI_SINI".

(** Lines 469-481, up to [asyncio.run]: the file is created when it is
    missing, the placeholder token ends the process ([exit()], here
    [None]), and [ChronoReply.__init__] looks [DEFAULT_TZ] up with
    [pytz.timezone] before it loads the tasks.  The file is returned with
    the outcome. *)
Definition main (USER_TOKEN : string) (f : option file_content) : option file_content * Res (option bot) :=
  let f1 := match f with None => Some (FJson (JArray [])) | Some c => Some c end in
  if String.eqb USER_TOKEN TOKEN_PLACEHOLDER then (f1, Ok None)
  else (f1, _ ← pytz_timezone DEFAULT_TZ; Ok (Some (start_bot f))).

Lemma main_start USER_TOKEN f :
  USER_TOKEN ≠ TOKEN_PLACEHOLDER → is_Some (tz_lookup DEFAULT_TZ) →
  (main USER_TOKEN f).2 = Ok (Some (start_bot f)).
Proof.
  intros Ht [z Hz]. unfold main. rewrite (proj2 (String.eqb_neq _ _) Ht). cbn.
  unfold pytz_timezone. by rewrite Hz.
Qed.

(** What the running bot does next: handle a message, run a tick of the
    scheduler loop, or restart the process. *)
Inductive step : bot → bot → Prop :=
  | step_message b o msg : step b (on_message PREFIX DEFAULT_TZ default_tz my_id b o msg).1.1
  | step_tick b obs u : in_range u = true → step b (tick my_id channel_found obs u b).1.1
  | step_restart b : step b (restart b).

Lemma store_inv_save b ts :
  store_inv b → Forall (λ t, wf_task t = true) ts →
  Forall (λ t, wf_task t = true) (load_tasks (after_writes (bot_file b) (save_tasks ts).1)).
Proof. intros [_ Hf] Hts. by apply load_saved_wf. Qed.

Lemma store_inv_add b t :
  store_inv b → wf_task t = true → store_inv (add_task b t).1.
Proof.
  intros Hi Ht. rewrite add_task_spec.
  assert (Hts : Forall (λ t, wf_task t = true) (bot_tasks b ++ [t]))
    by (apply Forall_app; split; [apply Hi | by constructor]).
  split; [done|]. by apply store_inv_save.
Qed.

Lemma on_message_inv b o msg :
  json_scalar my_id = true → store_inv b →
  store_inv (on_message PREFIX DEFAULT_TZ default_tz my_id b o msg).1.1.
Proof.
  intros Hmy Hi.
  destruct (on_message_cases PREFIX DEFAULT_TZ default_tz my_id b o msg)
    as [->|[[Hsub Hf]|[(w & cid & pesan & a & _ & Hp & ->)|(tipe & ts & day & cid & pesan & a & _ & Hd & Hc & ->)]]];
    [done | | |].
  - assert (Hts : Forall (λ t, wf_task t = true) (bot_tasks (on_message PREFIX DEFAULT_TZ default_tz my_id b o msg).1.1))
      by (eapply sublist_Forall; [exact Hsub | apply Hi]).
    split; [done|]. destruct Hf as [-> | ->]; [apply Hi | by apply store_inv_save].
  - apply store_inv_add; [done|]. destruct (parse_time_input_after _ _ _ _ Hp) as (_ & Ho & V).
    apply new_task_wf; [done | discriminate | done | done].
  - apply store_inv_add; [done|]. destruct (calculate_next_repeat_after _ _ _ Hc) as (_ & Ho & V).
    apply new_task_wf; [done | | done | done]. intros v d' [= _ <-].
    by destruct Hd as [-> | [d ->]].
Qed.

Lemma tick_inv obs u b :
  in_range u = true → store_inv b → store_inv (tick my_id channel_found obs u b).1.1.
Proof.
  intros Hu Hi. destruct (tick_wf my_id channel_found obs u b Hu (proj1 Hi)) as (b' & sent & Ht & Hw).
  pose proof (tick_file my_id channel_found obs u b) as Hf. cbv zeta in Hf. rewrite Ht in Hf |- *.
  cbn in Hf |- *. split; [done|]. destruct Hf as [-> | ->]; [apply Hi | by apply store_inv_save].
Qed.

Lemma step_inv b b' : json_scalar my_id = true → store_inv b → step b b' → store_inv b'.
Proof.
  intros Hmy Hi Hs. destruct Hs as [b o msg|b obs u Hu|b].
  - by apply on_message_inv.
  - by apply tick_inv.
  - split; apply Hi.
Qed.

Lemma start_bot_inv f :
  Forall (λ t, wf_task t = true) (load_tasks f) → store_inv (start_bot f).
Proof. intros Hf. destruct f as [c|]; cbn; [split; done | split; constructor]. Qed.

(** C13: Started on a file that loads as well-formed tasks (a fresh install,
    or a file the bot wrote itself), the bot reaches, through any sequence
    of messages, scheduler ticks and restarts, only states in which a tick
    of the scheduler loop does not raise: the loop is never stopped by an
    exception. *)
Theorem reachable_tick_ok f b obs u :
  json_scalar my_id = true → Forall (λ t, wf_task t = true) (load_tasks f) →
  rtc step (start_bot f) b → in_range u = true →
  (tick my_id channel_found obs u b).2 = Ok tt.
Proof.
  intros Hmy Hf Hr Hu.
  assert (Hi : store_inv b).
  { pose proof (start_bot_inv f Hf) as H0. revert H0.
    induction Hr as [x|x y z Hxy _ IH]; intros Hx; [done|].
    apply IH. by eapply step_inv. }
  destruct (tick_wf my_id channel_found obs u b Hu (proj1 Hi)) as (b' & sent & -> & _). done.
Qed.

End System.


(** ** Witnesses and examples *)

(** The bot of user 42 with prefix [!] and default zone Asia/Jakarta, on
    Monday 2026-11-09 at 08:00 UTC (15:00 in Jakarta). *)
Definition jkt : string := "Asia/Jakarta".
Definition obs_at (id : string) : cmd_obs := mkCmdObs u0 u0 id.
Definition from_me (s : string) : message := mkMessage me s.

Definition kirim_1400 : dict :=
  new_task jkt me "k1r1m001" 1001 "halo" "once" None (mkAware (mkDT 2026 11 10 7 0 0 0) 0).

Lemma on_message_kirim_hhmm_only_witness :
  ∃ w nl a, split_ws w = [w] ∧ now_in WIB (co_clock (obs_at "k1r1m001")) = Ok nl ∧
            case_hhmm nl w = Ok (Some a) ∧ kirim_1400 !! SCHED = Some (PDateTime a).
Proof.
  apply (on_message_kirim_hhmm_only (tzdb := demo_tzdb) "!" jkt WIB me (mkBot [] None)
           (obs_at "k1r1m001") (from_me "!kirim 14:00 1001 halo")); vm_compute; reflexivity.
Defined.

(** [/kirim senin 09:00 1001 halo], the weekday form the parser
    supports, is refused: ["09:00"] is taken as the channel id. *)
Example kirim_weekday_form_rejected :
  on_message (tzdb := demo_tzdb) "!" jkt WIB me (mkBot [] None) (obs_at "k1r1m001")
    (from_me "!kirim senin 09:00 1001 halo") = (mkBot [] None, [RBadChannel], Ok tt).
Proof. vm_compute. reflexivity. Qed.

Lemma kirim_once_creates_witness :
  (kirim_once jkt WIB me (mkBot [] None) (obs_at "k1r1m001") ["14:00"; "1001"; "halo"]).1.1 =
    (add_task (mkBot [] None) (new_task jkt me "k1r1m001" 1001 (join_space ["halo"]) "once" None
                                 (mkAware (mkDT 2026 11 10 7 0 0 0) 0))).1 ∧
  co_clock (obs_at "k1r1m001") < aware_us (mkAware (mkDT 2026 11 10 7 0 0 0) 0) ∧
  aware_us (utc_now u0) < aware_us (mkAware (mkDT 2026 11 10 7 0 0 0) 0) ∧
  wf_task (new_task jkt me "k1r1m001" 1001 (join_space ["halo"]) "once" None
             (mkAware (mkDT 2026 11 10 7 0 0 0) 0)) = true.
Proof.
  apply (kirim_once_creates jkt WIB me (mkBot [] None) (obs_at "k1r1m001") "14:00" "1001" ["halo"] 1001);
    try (vm_compute; reflexivity). discriminate.
Defined.

Lemma ulang_bad_day_rejected_witness :
  route_repeat (tzdb := demo_tzdb) jkt WIB me (mkBot [] None) (obs_at "u1")
    ["mingguan"; "Funday"; "09:00"; "1001"; "halo"] = (mkBot [] None, [RFirstRunFailed], Ok tt).
Proof.
  apply (ulang_bad_day_rejected (tzdb := demo_tzdb) jkt WIB me _ _ "Funday" "09:00" "1001" ["halo"] 1001 9 0 WIB);
    try (vm_compute; reflexivity); [discriminate|].
  apply (bool_decide_eq_false_1 (lower "Funday" ∈ DAYS_OF_WEEK)). vm_compute. reflexivity.
Defined.

Lemma delete_task_spec_witness :
  let b := mkBot [once_task "a1" (utc_sched 2026 11 9 7 30); once_task "b2" (utc_sched 2026 11 9 7 30)] None in
  let keep := filter (λ t, negb (py_eq (dget t "id") (PStr "a1")) = true) (bot_tasks b) in
  let '(b', rs, r) := delete_task b ["a1"] in
  bot_tasks b' = keep ∧
  if bool_decide (length keep < length (bot_tasks b))%nat
  then bot_file b' = after_writes (bot_file b) (save_tasks keep).1 ∧ r = (save_tasks keep).2 ∧
       (r = Ok tt → rs = [RDeleted "a1"])
  else bot_file b' = bot_file b ∧ rs = [RNotFound] ∧ r = Ok tt.
Proof. apply delete_task_spec. decide_vm. Defined.

Lemma reachable_tick_ok_witness :
  let b1 := (on_message (tzdb := demo_tzdb) "!" jkt WIB me (start_bot None) (obs_at "k1r1m001")
               (from_me "!kirim 14:00 1001 halo")).1.1 in
  (tick (tzdb := demo_tzdb) me chan_1001 (obs_ok u0) (u0 + 86400000000) b1).2 = Ok tt.
Proof.
  apply (reachable_tick_ok (tzdb := demo_tzdb) "!" jkt WIB me chan_1001 None); try (vm_compute; reflexivity).
  - constructor.
  - apply rtc_once. constructor.
Defined.

(** [/daftar] on three tasks: a [once] task of the user, a task of another
    user, and a weekly task of the user with a 60-character message. *)
Definition long_msg : string := "Pengingat: rapat mingguan tim produk di ruang tiga, lantai 2".
Definition daftar_bot : bot :=
  mkBot [once_task "aaaa" (utc_sched 2026 11 9 7 0);
         <["user_id" := PInt 7]> (once_task "bbbb" (utc_sched 2026 11 9 7 0));
         <["content" := PStr long_msg]> (weekly_task "cccc" "senin" (utc_sched 2026 11 16 2 0))] None.

Lemma list_tasks_entries_witness :
  Forall (λ t, is_Some (t !! "user_id")) (bot_tasks daftar_bot) ∧
  Forall (λ t, res_is_ok (entry_of WIB t) = true)
    (filter (λ t, owned me t = true) (bot_tasks daftar_bot)) ∧
  ∃ es,
    list_tasks WIB me daftar_bot =
      (daftar_bot, [if bool_decide (filter (λ t, owned me t = true) (bot_tasks daftar_bot) = []) then RNoTasks
                    else RTaskList es], Ok tt) ∧
    Forall2 (λ t e, entry_of WIB t = Ok e ∧
                    ∃ c, t !! "content" = Some (PStr c) ∧ ((String.length c ≤ 50)%nat → le_preview e = c) ∧
                         (String.length (le_preview e) ≤ 53)%nat)
            (filter (λ t, owned me t = true) (bot_tasks daftar_bot)) es.
Proof.
  split_and!; [decide_vm | decide_vm |].
  apply (list_tasks_entries WIB me daftar_bot); decide_vm.
Defined.

(** The weekly task of [run_recompute_none_silences_witness] after its
    tick: its schedule is [None]. *)
Definition silenced : dict := <[SCHED := PNone]> (weekly_task "w1" "funday" (utc_sched 2026 11 9 2 0)).

Lemma list_tasks_none_schedule_witness :
  silenced ∈ bot_tasks (mkBot [silenced] None) ∧ owned me silenced = true ∧ silenced !! SCHED = Some PNone ∧
  (list_tasks WIB me (mkBot [silenced] None)).1 = (mkBot [silenced] None, []) ∧
  ∃ e, (list_tasks WIB me (mkBot [silenced] None)).2 = Raise e.
Proof.
  split; [constructor|]. split; [reflexivity|]. split; [reflexivity|].
  apply (list_tasks_none_schedule WIB me (mkBot [silenced] None) silenced);
    [constructor | reflexivity | reflexivity].
Defined.
