(* ===== verification/Interleave.v ===== *)
(** * Interleave: the scan with what runs while it awaits

    [_scheduler_loop] (src/chronoreply.py, lines 182-212) awaits
    [channel.send] inside its [for] loop, and the event loop runs meanwhile
    the [on_message] handlers of messages that arrive, and the passes of
    the other loop tasks that [on_ready] (lines 164-173) started: it starts
    one at each call, and discord.py calls it again after a reconnection.
    A handler changes the store without awaiting in between (its [await]s
    come before it reads [self.bot.tasks] or after it saved), so its effect
    lands as a whole at one [await channel.send] of the scan, or between
    two passes.

    What matters then is the identity of Python objects, which Scheduler.v
    does not see: [for task in self.tasks] iterates the list object
    [self.tasks] is bound to when the loop starts, by index, so an
    [append] of [/kirim] or [/ulang] to that object is seen by the loop,
    while the rebinding [self.bot.tasks = [...]] of [/hapus] leaves the
    loop on the old object; the reschedule [task["schedule_time_utc"] = ...]
    mutates a dict object that both lists may hold.  The state is a [heap]:
    the dict objects and list objects by address, the address of the list
    [self.tasks] is bound to, and the task file.  The handlers are those of
    Commands.v, run on the heap through its [TaskStore] instance, and
    [heap_rel_sim] relates a well-formed heap to the [bot] holding its
    value.

    The events run during a pass are a queue of batches: the [k]-th
    [await channel.send] of the pass runs the [k]-th batch.  The [for] loop
    is a [Fixpoint] with fuel, since appends lengthen the list it runs
    over; [itick_total] bounds the fuel it needs.  [istep] is the process:
    the heap with the number of loop tasks, stepping by a message, an
    [on_ready], a pass of a loop or a restart.  The frame lemmas
    ([unmoved], [handle_all_unmoved], [iscan_framed]) show that handlers
    which append nothing leave the list object the loop iterates and its
    dicts in place.  The theorems: a pass with nothing in flight during its
    sends meets the specification's tick ([itick_refines_spec]); the
    passes terminate ([itick_total]); and the two interleavings the
    specification does not expect, a [/hapus] during a send
    ([hapus_during_send_delivers]) and a second loop
    ([on_ready_twice_sends_twice]), deliver a message that should not
    be. *)

From S2P Require Import Prelude PyStr Calendar Zone PyVal Store Parser Recurrence Scheduler Commands.
Local Open Scope nat_scope.

Record heap := mkHeap {
  h_objs : list dict;          (** the dict objects, by address *)
  h_lists : list (list nat);   (** the list objects: the addresses of their items *)
  h_cur : nat;                 (** the list object [self.tasks] is bound to *)
  h_file : option file_content
}.

Definition deref (h : heap) (r : nat) : dict := default ∅ (h_objs h !! r).

Definition h_refs (h : heap) (l : nat) : list nat := default [] (h_lists h !! l).

(** The value of [self.tasks]. *)
Definition view (h : heap) : list dict := map (deref h) (h_refs h (h_cur h)).

(** [task[k] = v] on the dict object at address [r]. *)
Definition set_obj (h : heap) (r : nat) (t : dict) : heap :=
  mkHeap (<[r := t]> (h_objs h)) (h_lists h) (h_cur h) (h_file h).

(** [self.bot.tasks.append(task)] allocates nothing but the new dict and
    extends the list object in place; the comprehension of [_delete_task]
    and of the loop builds a new list object holding the same dicts, and
    the assignment rebinds [self.tasks] to it. *)
#[export] Instance heap_store : TaskStore heap := {
  st_tasks := view;
  st_append h t :=
    mkHeap (h_objs h ++ [t])
           (<[h_cur h := h_refs h (h_cur h) ++ [length (h_objs h)]]> (h_lists h))
           (h_cur h) (h_file h);
  st_keep h p :=
    rs ← res_filterM (λ r, p (deref h r)) (h_refs h (h_cur h));
    Ok (mkHeap (h_objs h) (h_lists h ++ [rs]) (length (h_lists h)) (h_file h));
  st_save h :=
    let '(ws, r) := save_tasks (view h) in
    (mkHeap (h_objs h) (h_lists h) (h_cur h) (after_writes (h_file h) ws), r)
}.

(** A freshly loaded bot: [json.load] makes one dict object per task, held
    by one list. *)
Definition heap_of (b : bot) : heap :=
  mkHeap (bot_tasks b) [seq 0 (length (bot_tasks b))] 0 (bot_file b).

(** What runs while a send of the scan is awaited: the [on_message]
    handler of a message that arrives, or a pass of the [while] body of
    another [_scheduler_loop] task, which an earlier [on_ready] started. *)
Inductive event :=
  | EMsg (o : cmd_obs) (m : message)
  | ELoop (obs : nat → fire_obs) (u : Z).

Definition is_loop (e : event) : bool := match e with ELoop _ _ => true | EMsg _ _ => false end.

Definition batch : Type := list event.

Section Interleave.
Context {tzdb : TzDatabase}.
Context (PREFIX DEFAULT_TZ : string) (default_tz : zone) (my_id : PyVal).
Context (channel_found : PyVal → bool).
(** A pass of the [while] body of another loop task: the heap it leaves,
    its deliveries and its outcome. *)
Context (pass : heap → (nat → fire_obs) → Z → heap * list delivery * Res unit).

(** The events of a batch, one after the other; the exception of a
    handler is logged by discord.py and the next message is handled; the
    exception of another loop ends that loop's task. *)
Fixpoint handle_all (h : heap) (ms : batch) : heap * list reply * list delivery :=
  match ms with
  | [] => (h, [], [])
  | EMsg o m :: ms' =>
      let '(h1, rs, _) := on_message PREFIX DEFAULT_TZ default_tz my_id h o m in
      let '(h2, rs', ws) := handle_all h1 ms' in (h2, rs ++ rs', ws)
  | ELoop obs u :: ms' =>
      let '(h1, ws, _) := pass h obs u in
      let '(h2, rs', ws') := handle_all h1 ms' in (h2, rs', ws ++ ws')
  end.

(** The [try] block of lines 197-205 on the dict at address [r]: the
    events of the next batch run while [channel.send] is awaited, and
    what they send follows this send; then the dict object is read again
    and rescheduled in place. *)
Definition ifire (h : heap) (r : nat) (o : fire_obs) (msgs : list batch)
    : heap * list reply * list batch * list delivery * Res (option PyVal) :=
  let task := deref h r in
  match getitem task "channel_id" with
  | Raise e => (h, [], msgs, [], Raise e)
  | Ok cid =>
      let '(h1, rs, msgs1, w, res) :=
        if channel_found cid then
          match getitem task "content" with
          | Raise e => (h, [], msgs, [], Raise e)
          | Ok c =>
              let '(h1, rs, ws) := handle_all h (default [] (head msgs)) in
              let '(w, res) := send cid c (send_ok o) in (h1, rs, tail msgs, w ++ ws, res)
          end
        else (h, [], msgs, [], Ok tt) in
      match res with
      | Raise e => (h1, rs, msgs1, w, Raise e)
      | Ok _ =>
          match after_send (deref h1 r) o with
          | Raise e => (h1, rs, msgs1, w, Raise e)
          | Ok (t', pd) => (set_obj h1 r t', rs, msgs1, w, Ok pd)
          end
      end
  end.

(** One iteration of the [for] loop on the dict at address [r]. *)
Definition iscan_one (now : aware) (o : fire_obs) (h : heap) (r : nat) (msgs : list batch)
    : heap * list reply * list batch * list delivery * Res (option PyVal) :=
  match selected my_id now (deref h r) with
  | Raise e => (h, [], msgs, [], Raise e)
  | Ok false => (h, [], msgs, [], Ok None)
  | Ok true =>
      let '(h1, rs, msgs1, w, res) := ifire h r o msgs in
      match res with
      | Ok pd => (h1, rs, msgs1, w, Ok pd)
      | Raise _ => (h1, rs, msgs1, w, _ ← getitem (deref h1 r) "id"; mret None)
      end
  end.

Record iout := mkIOut {
  io_heap : heap;
  io_sent : list delivery;
  io_replies : list reply;
  io_pending : list PyVal;
  io_msgs : list batch;
  io_status : Res unit
}.

(** [for task in L] from index [i]: the item at index [i] of the list
    object [L] is read when the iteration starts, so items appended
    meanwhile are visited.  [None] is running out of fuel. *)
Fixpoint iscan (fuel : nat) (now : aware) (obs : nat → fire_obs) (L i : nat) (h : heap)
    (msgs : list batch) : option iout :=
  match fuel with
  | O => None
  | S fuel' =>
      match h_refs h L !! i with
      | None => Some (mkIOut h [] [] [] msgs (Ok tt))
      | Some r =>
          let '(h1, rs, msgs1, w, res) := iscan_one now (obs i) h r msgs in
          match res with
          | Raise e => Some (mkIOut h1 w rs [] msgs1 (Raise e))
          | Ok pd =>
              o ← iscan fuel' now obs L (S i) h1 msgs1;
              Some (mkIOut (io_heap o) (w ++ io_sent o) (rs ++ io_replies o)
                      (option_list pd ++ io_pending o) (io_msgs o) (io_status o))
          end
      end
  end.

(** One pass of the [while] body on the heap: the loop runs over the list
    [self.tasks] is bound to at its start, the deletion filters the list it
    is bound to at the end. *)
Definition itick (fuel : nat) (obs : nat → fire_obs) (msgs : list batch) (u : Z) (h : heap)
    : option (heap * list delivery * list reply * Res unit) :=
  match now_in utc_zone u with
  | Raise e => Some (h, [], [], Raise e)
  | Ok now =>
      o ← iscan fuel now obs (h_cur h) 0 h msgs;
      let h1 := io_heap o in
      match io_status o with
      | Raise e => Some (h1, io_sent o, io_replies o, Raise e)
      | Ok _ =>
          if bool_decide (io_pending o = []) then Some (h1, io_sent o, io_replies o, Ok tt)
          else
            match st_keep h1 (keep_undeleted (io_pending o)) with
            | Raise e => Some (h1, io_sent o, io_replies o, Raise e)
            | Ok h2 => let '(h3, r) := st_save h2 in Some (h3, io_sent o, io_replies o, r)
            end
      end
  end.

End Interleave.

Section Solo.
Context {tzdb : TzDatabase}.
Context (PREFIX DEFAULT_TZ : string) (default_tz : zone) (my_id : PyVal) (channel_found : PyVal → bool).

(** The pass of a loop during whose sends nothing else runs: with no event
    in flight it calls no pass of its own ([no_pass] is never run), and
    the fuel of one iteration per item of [self.tasks] plus one suffices
    ([solo_pass_total]). *)
Definition no_pass (h : heap) (_ : nat → fire_obs) (_ : Z) : heap * list delivery * Res unit := (h, [], Ok tt).

Definition solo_pass (h : heap) (obs : nat → fire_obs) (u : Z) : heap * list delivery * Res unit :=
  match itick PREFIX DEFAULT_TZ default_tz my_id channel_found no_pass
          (S (length (h_refs h (h_cur h)))) obs [] u h with
  | Some (h', sent, _, r) => (h', sent, r)
  | None => (h, [], Ok tt)
  end.

End Solo.

(** ** The heap under the store operations *)

(** Every list object holds distinct addresses of allocated dicts, and
    [self.tasks] is bound to an allocated list: no dict occurs twice in a
    list, so the in-place reschedule of one item does not change another. *)
Definition heap_wf (h : heap) : Prop :=
  h_cur h < length (h_lists h) ∧
  Forall (λ l, NoDup l ∧ Forall (λ r, r < length (h_objs h)) l) (h_lists h).

#[export] Instance heap_wf_dec h : Decision (heap_wf h).
Proof. unfold heap_wf. apply _. Defined.

(** The list object [L] existed in [h] and grew by at most [k] items,
    from the end, on the way to [h']. *)
Definition grown (L k : nat) (h h' : heap) : Prop :=
  L < length (h_lists h) →
  L < length (h_lists h') ∧ length (h_refs h L) ≤ length (h_refs h' L) ≤ length (h_refs h L) + k.

Lemma heap_st_save h :
  st_save h = (mkHeap (h_objs h) (h_lists h) (h_cur h) (after_writes (h_file h) (save_tasks (view h)).1),
               (save_tasks (view h)).2).
Proof. cbn. by destruct (save_tasks _). Qed.

Lemma heap_st_keep_eq h p :
  st_keep h p = (rs ← res_filterM (λ r, p (deref h r)) (h_refs h (h_cur h));
                 Ok (mkHeap (h_objs h) (h_lists h ++ [rs]) (length (h_lists h)) (h_file h))).
Proof. reflexivity. Qed.

Lemma heap_st_keep h p h1 :
  st_keep h p = Ok h1 →
  ∃ rs, res_filterM (λ r, p (deref h r)) (h_refs h (h_cur h)) = Ok rs ∧
        h1 = mkHeap (h_objs h) (h_lists h ++ [rs]) (length (h_lists h)) (h_file h).
Proof. rewrite heap_st_keep_eq. destruct (res_filterM _ _) as [rs|]; [|done]. intros [= <-]. by eexists. Qed.

Lemma h_refs_lookup h L rs : h_lists h !! L = Some rs → h_refs h L = rs.
Proof. unfold h_refs. by intros ->. Qed.

Lemma h_refs_app h o ls c f L :
  L < length (h_lists h) → h_refs (mkHeap o (h_lists h ++ ls) c f) L = h_refs h L.
Proof. intros HL. unfold h_refs. cbn. by rewrite lookup_app_l. Qed.

Lemma wf_refs h L :
  heap_wf h → L < length (h_lists h) → NoDup (h_refs h L) ∧ Forall (λ r, r < length (h_objs h)) (h_refs h L).
Proof.
  intros [_ Hall] HL. destruct (lookup_lt_is_Some_2 _ _ HL) as [rs Hrs].
  rewrite (h_refs_lookup _ _ _ Hrs). by eapply Forall_lookup_1 in Hall; [|exact Hrs].
Qed.

Lemma wf_save h : heap_wf h → heap_wf (st_save h).1.
Proof. by rewrite heap_st_save. Qed.

Lemma wf_keep h p h1 : heap_wf h → st_keep h p = Ok h1 → heap_wf h1.
Proof.
  intros Hw Hk. destruct (heap_st_keep _ _ _ Hk) as (rs & Hf & ->). apply res_filterM_sublist in Hf.
  destruct (wf_refs h (h_cur h) Hw (proj1 Hw)) as [Hnd Hb]. split; cbn.
  - rewrite length_app. cbn. lia.
  - apply Forall_app. split; [apply Hw|]. constructor; [|done]. split.
    + by eapply sublist_NoDup.
    + by eapply sublist_Forall.
Qed.

Lemma wf_append h t : heap_wf h → heap_wf (st_append h t).
Proof.
  intros [Hc Hall]. unfold heap_wf. cbn [st_append heap_store h_cur h_lists h_objs]. split; [by rewrite length_insert|].
  destruct (wf_refs h (h_cur h) (conj Hc Hall) Hc) as [Hnd Hb].
  assert (Hup : ∀ l, NoDup l ∧ Forall (λ r, r < length (h_objs h)) l →
                 NoDup l ∧ Forall (λ r, r < length (h_objs h ++ [t])) l).
  { intros l [? Hl]. split; [done|]. eapply Forall_impl; [exact Hl|]. intros r. rewrite length_app. cbn. lia. }
  apply Forall_insert; [by eapply Forall_impl|]. split.
  - apply NoDup_app. split_and!; [done | | by apply NoDup_singleton].
    intros r Hr ->%list_elem_of_singleton. eapply Forall_forall in Hb; [|exact Hr]. lia.
  - apply Forall_app. split; [by eapply Forall_impl; [exact Hb|]; intros r; rewrite length_app; cbn; lia|].
    constructor; [|done]. rewrite length_app. cbn. lia.
Qed.

Lemma wf_set h r t : heap_wf h → heap_wf (set_obj h r t).
Proof. unfold heap_wf, set_obj. cbn. by rewrite length_insert. Qed.

Lemma grown_refl L k h : grown L k h h.
Proof. intros HL. lia. Qed.

Lemma grown_trans L k1 k2 h1 h2 h3 : grown L k1 h1 h2 → grown L k2 h2 h3 → grown L (k1 + k2) h1 h3.
Proof. intros H12 H23 HL. destruct (H12 HL) as [HL2 ?]. destruct (H23 HL2). lia. Qed.

Lemma grown_weaken L k1 k2 h1 h2 : k1 ≤ k2 → grown L k1 h1 h2 → grown L k2 h1 h2.
Proof. intros ? H HL. destruct (H HL). lia. Qed.

Lemma grown_save L h : grown L 0 h (st_save h).1.
Proof. intros HL. rewrite heap_st_save. unfold h_refs. cbn. lia. Qed.

Lemma grown_keep L h p h1 : st_keep h p = Ok h1 → grown L 0 h h1.
Proof.
  intros Hk HL. destruct (heap_st_keep _ _ _ Hk) as (rs & _ & ->). rewrite h_refs_app by done.
  cbn [h_lists]. rewrite length_app. lia.
Qed.

Lemma grown_append L h t : grown L 1 h (st_append h t).
Proof.
  intros HL. cbn [st_append heap_store h_lists]. rewrite length_insert. split; [done|].
  unfold h_refs. cbn [h_lists]. destruct (decide (L = h_cur h)) as [->|Hne].
  - rewrite list_lookup_insert_eq by done. cbn [from_option id]. rewrite length_app. cbn. lia.
  - rewrite list_lookup_insert_ne by done. lia.
Qed.

Lemma grown_set L h r t : grown L 0 h (set_obj h r t).
Proof. intros HL. unfold h_refs. cbn. lia. Qed.

(** What a piece of code does to the heap, as far as the invariant and the
    termination of the [for] loop care: it keeps the heap well-formed and
    appends at most [k] items to any list object. *)
Definition evolves (k : nat) (h h' : heap) : Prop :=
  (heap_wf h → heap_wf h') ∧ ∀ L, grown L k h h'.

Lemma evolves_refl h : evolves 0 h h.
Proof. split; [done|]. intros L. apply grown_refl. Qed.

Lemma evolves_trans k1 k2 h1 h2 h3 : evolves k1 h1 h2 → evolves k2 h2 h3 → evolves (k1 + k2) h1 h3.
Proof. intros [W1 G1] [W2 G2]. split; [auto|]. intros L. by eapply grown_trans. Qed.

Lemma evolves_weaken k1 k2 h1 h2 : k1 ≤ k2 → evolves k1 h1 h2 → evolves k2 h1 h2.
Proof. intros ? [W G]. split; [done|]. intros L. by eapply grown_weaken. Qed.

Lemma evolves_save h : evolves 0 h (st_save h).1.
Proof. split; [apply wf_save | intros L; apply grown_save]. Qed.

Lemma evolves_keep h p h1 : st_keep h p = Ok h1 → evolves 0 h h1.
Proof. intros Hk. split; [intros; by eapply wf_keep | intros L; by eapply grown_keep]. Qed.

Lemma evolves_append h t : evolves 1 h (st_append h t).
Proof. split; [apply wf_append | intros L; apply grown_append]. Qed.

Lemma evolves_set h r t : evolves 0 h (set_obj h r t).
Proof. split; [apply wf_set | intros L; apply grown_set]. Qed.

#[local] Hint Resolve evolves_refl evolves_save evolves_append evolves_set : chrono.

Lemma evolves_set_r k h h1 r t : evolves k h h1 → evolves k h (set_obj h1 r t).
Proof. intros H. rewrite <- (Nat.add_0_r k). eapply evolves_trans; eauto with chrono. Qed.

Lemma evolves_add_task h t : evolves 1 h (add_task h t).1.
Proof. unfold add_task. rewrite <- (Nat.add_0_r 1). eapply evolves_trans; eauto with chrono. Qed.

Section HeapHandlers.
Context {tzdb : TzDatabase}.
Context (PREFIX DEFAULT_TZ : string) (default_tz : zone) (my_id : PyVal) (channel_found : PyVal → bool).
Context (pass : heap → (nat → fire_obs) → Z → heap * list delivery * Res unit).
(** A pass of another loop appends no task. *)
Hypothesis pass_evolves : ∀ h obs u, evolves 0 h (pass h obs u).1.1.

(** A handler appends at most one task. *)
Lemma on_message_evolves h o m :
  evolves 1 h (on_message PREFIX DEFAULT_TZ default_tz my_id h o m).1.1.
Proof.
  destruct (on_message_shape PREFIX DEFAULT_TZ default_tz my_id h o m)
    as [->|[(p & h1 & Hk & [-> | ->])|[(? & ? & ? & ? & _ & _ & ->)|(? & ? & ? & ? & ? & ? & _ & _ & _ & ->)]]];
    try apply evolves_add_task; apply (evolves_weaken 0); try lia; auto with chrono.
  - by eapply evolves_keep.
  - rewrite <- (Nat.add_0_r 0). eapply evolves_trans; [by eapply evolves_keep | apply evolves_save].
Qed.

Lemma handle_all_evolves h ms :
  evolves (length ms) h (handle_all PREFIX DEFAULT_TZ default_tz my_id pass h ms).1.1.
Proof.
  revert h. induction ms as [|[o m|obs u] ms IH]; intros h; cbn; [apply evolves_refl| |].
  - destruct (on_message _ _ _ _ h o m) as [[h1 rs] r] eqn:E.
    pose proof (on_message_evolves h o m) as H1. rewrite E in H1. cbn in H1.
    specialize (IH h1). destruct (handle_all _ _ _ _ _ h1 ms) as [[h2 rs'] ws]. cbn in *.
    change (S (length ms)) with (1 + length ms). by eapply evolves_trans.
  - pose proof (pass_evolves h obs u) as H1. destruct (pass h obs u) as [[h1 ws] r]. cbn in H1.
    specialize (IH h1). destruct (handle_all _ _ _ _ _ h1 ms) as [[h2 rs'] ws']. cbn in *.
    apply (evolves_weaken (0 + length ms)); [lia|]. by eapply evolves_trans.
Qed.

Lemma concat_head_tail (msgs : list batch) :
  length (concat (tail msgs)) + length (default [] (head msgs)) = length (concat msgs).
Proof. destruct msgs as [|b msgs]; cbn; [done|]. rewrite length_app. lia. Qed.

(** One iteration of the loop consumes at most one batch of events and
    appends at most as many tasks as the batch has events. *)
Lemma iscan_one_evolves now o h r msgs :
  let '(h1, _, msgs1, _, _) := iscan_one PREFIX DEFAULT_TZ default_tz my_id channel_found pass now o h r msgs in
  ∃ k, evolves k h h1 ∧ length (concat msgs1) + k ≤ length (concat msgs).
Proof.
  assert (Hid : ∃ k, evolves k h h ∧ length (concat msgs) + k ≤ length (concat msgs))
    by (exists 0; split; [apply evolves_refl | lia]).
  unfold iscan_one, ifire.
  destruct (selected _ _ _) as [[]|]; [|exact Hid|exact Hid].
  destruct (getitem _ "channel_id") as [cid|]; [|exact Hid].
  destruct (channel_found cid).
  - destruct (getitem _ "content") as [c|]; [|exact Hid].
    pose proof (handle_all_evolves h (default [] (head msgs))) as He.
    pose proof (concat_head_tail msgs) as Hc.
    destruct (handle_all _ _ _ _ _ h _) as [[h1 rs] ws]. cbn in He.
    destruct (send _ _ _) as [w [[]|]]; [destruct (after_send _ _) as [[t' pd]|]|];
      eexists; (split; [try apply evolves_set_r; exact He | lia]).
  - destruct (after_send _ _) as [[t' pd]|]; exists 0; (split; [auto with chrono | lia]).
Qed.

Lemma iscan_evolves fuel now obs L i h msgs o :
  iscan PREFIX DEFAULT_TZ default_tz my_id channel_found pass fuel now obs L i h msgs = Some o →
  ∃ k, evolves k h (io_heap o) ∧ length (concat (io_msgs o)) + k ≤ length (concat msgs).
Proof.
  revert i h msgs o. induction fuel as [|fuel IH]; intros i h msgs o; cbn; [done|].
  destruct (h_refs h L !! i) as [r|]; [|intros [= <-]; exists 0; split; [apply evolves_refl | cbn; lia]].
  pose proof (iscan_one_evolves now (obs i) h r msgs) as H1.
  destruct (iscan_one _ _ _ _ _ _ _ _ _ _ _) as [[[[h1 rs] msgs1] w] [pd|e]]; [|by intros [= <-]].
  destruct H1 as (k1 & E1 & L1).
  destruct (iscan _ _ _ _ _ _ fuel _ _ _ _ _ _) as [o'|] eqn:Hi; cbn; [|done]. intros [= <-]. cbn.
  destruct (IH _ _ _ _ Hi) as (k2 & E2 & L2). exists (k1 + k2). split; [by eapply evolves_trans | lia].
Qed.

(** The [for] loop over [L] from index [i] ends within the fuel when the
    fuel exceeds the items left plus the events that may append. *)
Lemma iscan_total fuel now obs L i h msgs :
  L < length (h_lists h) → length (h_refs h L) - i + length (concat msgs) < fuel →
  is_Some (iscan PREFIX DEFAULT_TZ default_tz my_id channel_found pass fuel now obs L i h msgs).
Proof.
  revert i h msgs. induction fuel as [|fuel IH]; intros i h msgs HL Hf; [lia|]. cbn.
  destruct (h_refs h L !! i) as [r|] eqn:Hr; [|by eexists]. apply lookup_lt_Some in Hr.
  pose proof (iscan_one_evolves now (obs i) h r msgs) as H1.
  destruct (iscan_one _ _ _ _ _ _ _ _ _ _ _) as [[[[h1 rs] msgs1] w] [pd|e]]; [|by eexists].
  destruct H1 as (k & [_ G] & Hk). destruct (G L HL) as [HL1 Hlen].
  destruct (IH (S i) h1 msgs1 HL1) as [o' ->]; [lia|]. by eexists.
Qed.

(** The [while] body keeps the heap well-formed and appends no more
    tasks than events run during its sends, whatever they do. *)
Lemma itick_evolves fuel obs msgs u h h' sent rs r :
  itick PREFIX DEFAULT_TZ default_tz my_id channel_found pass fuel obs msgs u h = Some (h', sent, rs, r) →
  evolves (length (concat msgs)) h h'.
Proof.
  unfold itick. destruct (now_in _ _) as [now|]; [|intros [= <- _ _ _]; apply (evolves_weaken 0); [lia | apply evolves_refl]].
  destruct (iscan _ _ _ _ _ _ _ _ _ _ _ _ _) as [o|] eqn:Hi; cbn [mbind option_bind]; [|done].
  destruct (iscan_evolves _ _ _ _ _ _ _ _ Hi) as (k & E & Hk). intros Ht.
  apply (evolves_weaken k); [lia|].
  destruct (io_status o); [|by injection Ht as <-].
  case_bool_decide; [by injection Ht as <-|].
  destruct (st_keep _ _) as [h2|] eqn:Hk2; [|by injection Ht as <-].
  pose proof (evolves_trans _ _ _ _ _ (evolves_trans _ _ _ _ _ E (evolves_keep _ _ _ Hk2)) (evolves_save h2)) as E3.
  rewrite !Nat.add_0_r in E3. destruct (st_save h2) as [h3 r3]. by injection Ht as <-.
Qed.

End HeapHandlers.

(** ** A tick during which no message arrives *)

Lemma set_obj_deref h r : r < length (h_objs h) → set_obj h r (deref h r) = h.
Proof.
  intros Hr. destruct (lookup_lt_is_Some_2 _ _ Hr) as [t Ht]. destruct h as [os ls c f].
  unfold set_obj, deref. cbn in *. rewrite Ht. cbn. by rewrite list_insert_id.
Qed.

Lemma deref_set_eq h r t : r < length (h_objs h) → deref (set_obj h r t) r = t.
Proof. intros Hr. unfold deref, set_obj. cbn. by rewrite list_lookup_insert_eq. Qed.

Lemma map_deref_set h r t xs : r ∉ xs → map (deref (set_obj h r t)) xs = map (deref h) xs.
Proof.
  intros Hn. apply map_ext_in. intros r' Hr'. unfold deref, set_obj. cbn.
  rewrite list_lookup_insert_ne; [done|]. intros ->. apply Hn. by apply list_elem_of_In.
Qed.

Lemma set_obj_length h r t : length (h_objs (set_obj h r t)) = length (h_objs h).
Proof. apply length_insert. Qed.

Lemma h_refs_set h r t L : h_refs (set_obj h r t) L = h_refs h L.
Proof. reflexivity. Qed.

Lemma h_refs_new o ls rs f : h_refs (mkHeap o (ls ++ [rs]) (length ls) f) (length ls) = rs.
Proof. unfold h_refs. cbn. by rewrite lookup_app_r, Nat.sub_diag by lia. Qed.

Section Quiet.
Context {tzdb : TzDatabase}.
Context (PREFIX DEFAULT_TZ : string) (default_tz : zone) (my_id : PyVal) (channel_found : PyVal → bool).
Context (pass : heap → (nat → fire_obs) → Z → heap * list delivery * Res unit).

Ltac except_id h r :=
  destruct (getitem (deref h r) "id"); cbn; [by rewrite set_obj_deref | done].

(** With no message in flight, an iteration on the dict at [r] is the
    iteration of Scheduler.v on its value, written back in place. *)
Lemma iscan_one_quiet now o h r :
  r < length (h_objs h) →
  iscan_one PREFIX DEFAULT_TZ default_tz my_id channel_found pass now o h r [] =
  let '(w, res) := scan_one my_id channel_found now o (deref h r) in
  match res with
  | Ok (t', pd) => (set_obj h r t', [], [], w, Ok pd)
  | Raise e => (h, [], [], w, Raise e)
  end.
Proof.
  intros Hr. unfold iscan_one, ifire, scan_one, fire, deliver.
  destruct (selected _ _ _) as [[]|e]; [| by cbn; rewrite set_obj_deref | done].
  destruct (getitem (deref h r) "channel_id") as [cid|e]; cbn; [|except_id h r].
  destruct (channel_found cid).
  - destruct (getitem (deref h r) "content") as [c|e]; cbn; [|except_id h r].
    unfold send. destruct (send_ok o); cbn; [|except_id h r].
    destruct (after_send (deref h r) o) as [[t' pd]|e]; cbn; [done | except_id h r].
  - destruct (after_send (deref h r) o) as [[t' pd]|e]; cbn; [done | except_id h r].
Qed.

(** The loop from index [i] over a list of distinct allocated dicts, with no
    message in flight, is Scheduler.v's [scan] of the remaining values: it
    sends, marks and fails alike, and leaves every remaining dict holding
    the value [scan] gives it and every other dict unchanged. *)
Lemma iscan_quiet fuel now obs obs' L i h :
  (∀ k, obs' k = obs (i + k)) →
  NoDup (h_refs h L) → Forall (λ r, r < length (h_objs h)) (h_refs h L) →
  length (h_refs h L) - i < fuel →
  ∃ o, iscan PREFIX DEFAULT_TZ default_tz my_id channel_found pass fuel now obs L i h [] = Some o ∧
    let so := scan my_id channel_found now obs' (map (deref h) (drop i (h_refs h L))) in
    io_sent o = so_sent so ∧ io_pending o = so_pending so ∧ io_status o = so_status so ∧
    io_replies o = [] ∧ h_lists (io_heap o) = h_lists h ∧ h_cur (io_heap o) = h_cur h ∧
    h_file (io_heap o) = h_file h ∧ length (h_objs (io_heap o)) = length (h_objs h) ∧
    map (deref (io_heap o)) (drop i (h_refs h L)) = so_tasks so ∧
    (∀ r, r ∉ drop i (h_refs h L) → deref (io_heap o) r = deref h r).
Proof.
  revert obs' i h. induction fuel as [|fuel IH]; intros obs' i h Hobs Hnd Hb Hf; [lia|]. cbn [iscan].
  destruct (h_refs h L !! i) as [r|] eqn:Hr.
  2: { apply lookup_ge_None_1 in Hr. rewrite drop_ge by done. eexists. split; [done|]. cbn. by split_and!. }
  pose proof (drop_S _ _ _ Hr) as Hd. pose proof (lookup_lt_Some _ _ _ Hr) as Hi. rewrite Hd. cbn [map scan].
  assert (Hrb : r < length (h_objs h)) by exact (Forall_lookup_1 _ _ _ _ Hb Hr).
  assert (Hrn : r ∉ drop (S i) (h_refs h L)).
  { apply (NoDup_cons_1_1 r). rewrite <- Hd. eapply sublist_NoDup; [exact Hnd | apply sublist_drop]. }
  rewrite iscan_one_quiet by done. rewrite Hobs, Nat.add_0_r.
  destruct (scan_one my_id channel_found now (obs i) (deref h r)) as [w [[t' pd]|e]].
  2: { exists (mkIOut h w [] [] [] (Raise e)). cbn. by split_and!. }
  destruct (IH (λ k, obs' (S k)) (S i) (set_obj h r t')) as (o & Ho & Hs & Hp & Hst & Hrep & Hl & Hc & Hfi & Hlen & Hmap & Hfr);
    [intros k; rewrite Hobs; f_equal; lia | by rewrite h_refs_set | by rewrite h_refs_set, set_obj_length
    | rewrite h_refs_set; lia |].
  rewrite Ho. cbn [mbind option_bind]. eexists. split; [done|].
  assert (Heq : map (deref (set_obj h r t')) (drop (S i) (h_refs (set_obj h r t') L)) =
                map (deref h) (drop (S i) (h_refs h L)))
    by (rewrite h_refs_set; by apply map_deref_set).
  rewrite Heq in Hs, Hp, Hst. change (h_refs (set_obj h r t') L) with (h_refs h L) in Hfr, Hmap.
  rewrite (map_deref_set h r t') in Hmap by done.
  cbn [io_sent io_pending io_status io_replies io_heap io_msgs so_sent so_pending so_status so_tasks].
  rewrite Hs, Hp, Hst, Hrep, Hl, Hc, Hfi, Hlen, set_obj_length. split_and!; try done.
  - cbn [map]. rewrite Hfr by done. rewrite deref_set_eq by done. by rewrite Hmap.
  - intros r' Hr'. rewrite Hfr by (intros ?; apply Hr'; by right).
    unfold deref, set_obj. cbn. rewrite list_lookup_insert_ne; [done|]. intros ->. apply Hr'. by left.
Qed.

End Quiet.

(** ** A pass during whose sends no handler appends *)

(** The dict objects are the same and every list object of [h] still
    holds the same addresses: what [/hapus], [/daftar], [/tz] and ignored
    messages do to the heap (a comprehension builds a new list object). *)
Definition unmoved (h h' : heap) : Prop :=
  h_objs h' = h_objs h ∧ ∀ L, L < length (h_lists h) → L < length (h_lists h') ∧ h_refs h' L = h_refs h L.

(** The events that run during a send: messages that are not routed to
    [/kirim] or [/ulang]. *)
Definition quiet_event (PREFIX : string) (my_id : PyVal) (e : event) : bool :=
  match e with EMsg _ m => negb (appends PREFIX my_id m) | ELoop _ _ => false end.

Lemma unmoved_refl h : unmoved h h.
Proof. split; [done|]. intros L HL. by split. Qed.

Lemma unmoved_trans h1 h2 h3 : unmoved h1 h2 → unmoved h2 h3 → unmoved h1 h3.
Proof.
  intros [O12 R12] [O23 R23]. split; [congruence|]. intros L HL.
  destruct (R12 L HL) as [HL2 E12]. destruct (R23 L HL2) as [HL3 E23]. split; [done | congruence].
Qed.

Lemma unmoved_keep h p h1 : st_keep h p = Ok h1 → unmoved h h1.
Proof.
  intros Hk. destruct (heap_st_keep _ _ _ Hk) as (rs & _ & ->). split; [done|].
  intros L HL. rewrite h_refs_app by done. cbn [h_lists]. rewrite length_app. split; [lia | done].
Qed.

Lemma unmoved_save h : unmoved h (st_save h).1.
Proof. rewrite heap_st_save. split; [done|]. intros L HL. by split. Qed.

Lemma deref_unmoved h h' r : unmoved h h' → deref h' r = deref h r.
Proof. intros [O _]. unfold deref. by rewrite O. Qed.

Lemma Forall_concat_tail {A} (P : A → Prop) (msgs : list (list A)) :
  Forall P (concat msgs) → Forall P (default [] (head msgs)) ∧ Forall P (concat (tail msgs)).
Proof. destruct msgs as [|b msgs]; cbn; [done|]. by rewrite Forall_app. Qed.

Section Framed.
Context {tzdb : TzDatabase}.
Context (PREFIX DEFAULT_TZ : string) (default_tz : zone) (my_id : PyVal) (channel_found : PyVal → bool).
Context (pass : heap → (nat → fire_obs) → Z → heap * list delivery * Res unit).

Lemma on_message_unmoved h o m :
  appends PREFIX my_id m = false → unmoved h (on_message PREFIX DEFAULT_TZ default_tz my_id h o m).1.1.
Proof.
  intros Ha. destruct (on_message_no_append PREFIX DEFAULT_TZ default_tz my_id h o m Ha)
    as [->|(p & h1 & Hk & [-> | ->])]; [apply unmoved_refl | by eapply unmoved_keep |].
  eapply unmoved_trans; [by eapply unmoved_keep | apply unmoved_save].
Qed.

Lemma handle_all_unmoved h ms :
  Forall (λ e, quiet_event PREFIX my_id e = true) ms →
  unmoved h (handle_all PREFIX DEFAULT_TZ default_tz my_id pass h ms).1.1 ∧
  (handle_all PREFIX DEFAULT_TZ default_tz my_id pass h ms).2 = [].
Proof.
  revert h. induction ms as [|[o m|obs u] ms IH]; intros h Hq; cbn; [split; [apply unmoved_refl | done]| |].
  - apply Forall_cons in Hq as [Hm Hq]. cbn in Hm. apply negb_true_iff in Hm.
    pose proof (on_message_unmoved h o m Hm) as H1.
    destruct (on_message _ _ _ _ h o m) as [[h1 rs] r]. cbn in H1.
    destruct (IH h1 Hq) as [H2 Hw]. destruct (handle_all _ _ _ _ _ h1 ms) as [[h2 rs'] ws]. cbn in *.
    split; [by eapply unmoved_trans | done].
  - apply Forall_cons in Hq as [[=] _].
Qed.

(** One iteration with a batch of such messages in flight is Scheduler.v's
    [scan_one] on the value of the dict, the reschedule written in place on
    the heap the handlers leave. *)
Lemma iscan_one_framed now o h r msgs :
  r < length (h_objs h) → Forall (λ e, quiet_event PREFIX my_id e = true) (default [] (head msgs)) →
  let '(h1, _, msgs1, w, res) := iscan_one PREFIX DEFAULT_TZ default_tz my_id channel_found pass now o h r msgs in
  (msgs1 = msgs ∨ msgs1 = tail msgs) ∧
  ∃ hm, unmoved h hm ∧
    match scan_one my_id channel_found now o (deref h r) with
    | (w', Ok (t', pd)) => w = w' ∧ res = Ok pd ∧ h1 = set_obj hm r t'
    | (w', Raise e) => w = w' ∧ res = Raise e
    end.
Proof.
  intros Hr Hq. unfold iscan_one, ifire, scan_one, fire, deliver.
  destruct (selected _ _ (deref h r)) as [[]|e]; cbn.
  2: { split; [by left|]. exists h. split; [apply unmoved_refl|]. split_and!; [done | done |].
       by rewrite set_obj_deref. }
  2: { split; [by left|]. exists h. split; [apply unmoved_refl | done]. }
  destruct (getitem (deref h r) "channel_id") as [cid|e]; cbn.
  2: { split; [by left|]. exists h. split; [apply unmoved_refl|].
       destruct (getitem (deref h r) "id"); cbn; [by rewrite set_obj_deref | done]. }
  destruct (channel_found cid).
  2: { destruct (after_send (deref h r) o) as [[t' pd]|e]; cbn;
         (split; [by left|]; exists h; split; [apply unmoved_refl|]); [done|].
       destruct (getitem (deref h r) "id"); cbn; [by rewrite set_obj_deref | done]. }
  destruct (getitem (deref h r) "content") as [c|e]; cbn.
  2: { split; [by left|]. exists h. split; [apply unmoved_refl|].
       destruct (getitem (deref h r) "id"); cbn; [by rewrite set_obj_deref | done]. }
  destruct (handle_all_unmoved h _ Hq) as [Hu Hw].
  destruct (handle_all _ _ _ _ _ h _) as [[hm rs] ws]. cbn in Hu, Hw. subst ws.
  assert (Hrm : r < length (h_objs hm)) by (by destruct Hu as [-> _]).
  pose proof (deref_unmoved h hm r Hu) as Hd.
  unfold send. destruct (send_ok o); cbn; rewrite ?Hd.
  - destruct (after_send (deref h r) o) as [[t' pd]|e]; cbn; rewrite ?Hd;
      (split; [by right|]; exists hm; split; [done|]); [done|].
    destruct (getitem (deref h r) "id"); cbn; [|done]. split_and!; [done | done |].
    by rewrite <- Hd, set_obj_deref.
  - rewrite ?Hd. split; [by right|]. exists hm. split; [done|].
    destruct (getitem (deref h r) "id"); cbn; [|done]. split_and!; [done | done |].
    by rewrite <- Hd, set_obj_deref.
Qed.

(** The loop over [L] from index [i], with only such messages handled
    during its sends, sends and ends as Scheduler.v's [scan] of the values
    the items had when it started. *)
Lemma iscan_framed fuel now obs obs' L i h msgs :
  (∀ k, obs' k = obs (i + k)) → L < length (h_lists h) →
  NoDup (h_refs h L) → Forall (λ r, r < length (h_objs h)) (h_refs h L) →
  Forall (λ e, quiet_event PREFIX my_id e = true) (concat msgs) →
  length (h_refs h L) - i < fuel →
  ∃ o, iscan PREFIX DEFAULT_TZ default_tz my_id channel_found pass fuel now obs L i h msgs = Some o ∧
    let so := scan my_id channel_found now obs' (map (deref h) (drop i (h_refs h L))) in
    io_sent o = so_sent so ∧ io_status o = so_status so.
Proof.
  revert obs' i h msgs. induction fuel as [|fuel IH]; intros obs' i h msgs Hobs HL Hnd Hb Hq Hf; [lia|].
  cbn [iscan]. destruct (h_refs h L !! i) as [r|] eqn:Hr.
  2: { apply lookup_ge_None_1 in Hr. rewrite drop_ge by done. eexists. by split. }
  pose proof (drop_S _ _ _ Hr) as Hd. pose proof (lookup_lt_Some _ _ _ Hr) as Hi. rewrite Hd. cbn [map scan].
  assert (Hrb : r < length (h_objs h)) by exact (Forall_lookup_1 _ _ _ _ Hb Hr).
  assert (Hrn : r ∉ drop (S i) (h_refs h L)).
  { apply (NoDup_cons_1_1 r). rewrite <- Hd. eapply sublist_NoDup; [exact Hnd | apply sublist_drop]. }
  destruct (Forall_concat_tail _ msgs Hq) as [Hq1 Hq2].
  pose proof (iscan_one_framed now (obs i) h r msgs Hrb Hq1) as H1.
  destruct (iscan_one _ _ _ _ _ _ _ _ _ _ _) as [[[[h1 rs] msgs1] w] res].
  destruct H1 as [Hm (hm & Hu & H1)]. rewrite Hobs, Nat.add_0_r.
  destruct (scan_one my_id channel_found now (obs i) (deref h r)) as [w' [[t' pd]|e]].
  2: { destruct H1 as [-> ->]. eexists. by split. }
  destruct H1 as (-> & -> & ->). destruct Hu as [Ho Hl].
  destruct (Hl L HL) as [HL' Hrefs].
  assert (Hq' : Forall (λ e, quiet_event PREFIX my_id e = true) (concat msgs1)) by (by destruct Hm as [-> | ->]).
  destruct (IH (λ k, obs' (S k)) (S i) (set_obj hm r t') msgs1) as (o & Ho' & Hs & Hst);
    [intros k; rewrite Hobs; f_equal; lia | done | by rewrite h_refs_set, Hrefs
    | by rewrite h_refs_set, set_obj_length, Ho, Hrefs | done | rewrite h_refs_set, Hrefs; lia |].
  rewrite Ho'. cbn [mbind option_bind]. eexists. split; [done|]. cbn [io_sent io_status].
  rewrite h_refs_set, Hrefs, map_deref_set in Hs, Hst by done.
  replace (map (deref hm) (drop (S i) (h_refs h L))) with (map (deref h) (drop (S i) (h_refs h L))) in Hs, Hst
    by (apply map_ext; intros; symmetry; by apply deref_unmoved).
  by rewrite Hs, Hst.
Qed.

End Framed.

Lemma h_refs_same_list h h' L : h_lists h' = h_lists h → h_refs h' L = h_refs h L.
Proof. unfold h_refs. by intros ->. Qed.

Lemma view_same_list h h' :
  h_lists h' = h_lists h → h_cur h' = h_cur h → view h' = map (deref h') (h_refs h (h_cur h)).
Proof. intros Hl Hc. unfold view, h_refs. by rewrite Hl, Hc. Qed.

Lemma view_new h rs f : view (mkHeap (h_objs h) (h_lists h ++ [rs]) (length (h_lists h)) f) = map (deref h) rs.
Proof. unfold view. cbn [h_cur]. by rewrite h_refs_new. Qed.

Lemma heap_of_wf b : heap_wf (heap_of b).
Proof.
  split; cbn; [lia|]. constructor; [|done]. split; [apply NoDup_seq|].
  apply Forall_forall. intros r Hr%elem_of_seq. lia.
Qed.

(** ** The heap and the value it holds *)

Lemma view_append h t : heap_wf h → view (st_append h t) = view h ++ [t].
Proof.
  intros Hw. destruct (wf_refs h (h_cur h) Hw (proj1 Hw)) as [_ Hb].
  unfold view, h_refs. cbn [st_append heap_store h_cur h_lists].
  rewrite list_lookup_insert_eq by apply Hw. cbn [from_option id].
  change (default [] (h_lists h !! h_cur h)) with (h_refs h (h_cur h)) in *.
  rewrite map_app. f_equal.
  - apply map_ext_in. intros r Hr%list_elem_of_In. unfold deref. cbn [h_objs].
    rewrite lookup_app_l; [done|]. by eapply Forall_forall in Hb.
  - cbn. unfold deref. cbn [h_objs]. by rewrite lookup_app_r, Nat.sub_diag by done.
Qed.

(** A well-formed heap whose [self.tasks] and file are those of a [bot]. *)
Definition heap_rel (h : heap) (b : bot) : Prop :=
  heap_wf h ∧ view h = bot_tasks b ∧ h_file h = bot_file b.

#[export] Instance heap_rel_sim : StoreSim heap_rel.
Proof.
  split.
  - by intros h b (_ & Hv & _).
  - intros h b t (Hw & Hv & Hf). split_and!; [by apply wf_append | by rewrite view_append, Hv | done].
  - intros h b p (Hw & Hv & Hf). rewrite heap_st_keep_eq, bot_st_keep, <- Hv. unfold view.
    rewrite res_filterM_map. destruct (res_filterM _ _) as [rs|e] eqn:Hk; cbn; [|done].
    split_and!; [| by rewrite view_new | done].
    eapply wf_keep; [exact Hw|]. by rewrite heap_st_keep_eq, Hk.
  - intros h b (Hw & Hv & Hf). rewrite heap_st_save, bot_st_save, Hv, Hf. cbn.
    split; [|done]. split_and!; [exact Hw | exact Hv | done].
Qed.

(** ** The process: handlers and scheduler loops *)

(** The heap and the number of [_scheduler_loop] tasks [on_ready] has
    started in the process. *)
Record sys := mkSys { sys_heap : heap; sys_loops : nat }.

(** [on_ready] (lines 164-173): it prints, then starts one more
    [_scheduler_loop] task.  discord.py calls it after every new session,
    also after a reconnection whose resume fails, so a process may run
    several loops over the same [self.tasks]. *)
Definition on_ready (s : sys) : sys := mkSys (sys_heap s) (S (sys_loops s)).

Section System.
Context {tzdb : TzDatabase}.
Context (PREFIX DEFAULT_TZ : string) (default_tz : zone) (my_id : PyVal) (channel_found : PyVal → bool).

(** What the process does next, with the batches of events run during
    the sends of a tick as the label: handle a message between two ticks;
    run [on_ready]; run a pass of the [while] body of one loop (lines
    184-212; a loop runs once [on_ready] started it, line 182, and another
    loop runs during its sends only when there is one) with the fuel it
    needs, the loop ending when the pass raises; or restart the process,
    which reloads the file into fresh objects and has no loop until the
    next [on_ready].  A loop whose pass raised during the sends of another
    is still counted, which only adds behaviours. *)
Inductive istep : sys → list batch → sys → Prop :=
  | istep_message h n o m :
      istep (mkSys h n) [] (mkSys (on_message PREFIX DEFAULT_TZ default_tz my_id h o m).1.1 n)
  | istep_ready s : istep s [] (on_ready s)
  | istep_tick h n fuel obs msgs u h' sent rs r :
      1 ≤ n → (existsb is_loop (concat msgs) = true → 2 ≤ n) →
      length (view h) + length (concat msgs) < fuel →
      itick PREFIX DEFAULT_TZ default_tz my_id channel_found
        (solo_pass PREFIX DEFAULT_TZ default_tz my_id channel_found) fuel obs msgs u h = Some (h', sent, rs, r) →
      istep (mkSys h n) msgs (mkSys h' (match r with Ok _ => n | Raise _ => n - 1 end))
  | istep_restart h n : istep (mkSys h n) [] (mkSys (heap_of (restart (mkBot (view h) (h_file h)))) 0).

Definition istep_any (s s' : sys) : Prop := ∃ l, istep s l s'.

Lemma solo_pass_evolves h obs u :
  evolves 0 h (solo_pass PREFIX DEFAULT_TZ default_tz my_id channel_found h obs u).1.1.
Proof.
  unfold solo_pass. destruct (itick _ _ _ _ _ _ _ _ _ _ _) as [[[[h' sent] rs] r]|] eqn:E; [|apply evolves_refl].
  by apply (itick_evolves _ _ _ _ _ (no_pass) (λ h _ _, evolves_refl h) _ _ _ _ _ _ _ _ _ E).
Qed.

Lemma istep_wf s l s' : istep s l s' → heap_wf (sys_heap s) → heap_wf (sys_heap s').
Proof.
  destruct 1 as [h n o m|s|h n fuel obs msgs u h' sent rs r _ _ _ Ht|h n]; cbn; intros Hw; [| done | |].
  - by apply (on_message_evolves PREFIX DEFAULT_TZ default_tz my_id h o m).
  - by eapply itick_evolves; [apply solo_pass_evolves | exact Ht |].
  - apply heap_of_wf.
Qed.

End System.

(** ** The process without interleaving is the bot of Commands.v *)

Lemma view_heap_of b : view (heap_of b) = bot_tasks b.
Proof.
  destruct b as [ts f]. unfold view, heap_of, h_refs, deref. cbn.
  apply list_eq. intros i. rewrite list_lookup_fmap.
  destruct (decide (i < length ts)) as [Hi|Hi].
  - rewrite lookup_seq_lt by done. cbn. by destruct (lookup_lt_is_Some_2 ts i Hi) as [t ->].
  - rewrite lookup_seq_ge, lookup_ge_None_2 by lia. done.
Qed.

Section Quietly.
Context {tzdb : TzDatabase}.
Context (PREFIX DEFAULT_TZ : string) (default_tz : zone) (my_id : PyVal) (channel_found : PyVal → bool).
Context (pass : heap → (nat → fire_obs) → Z → heap * list delivery * Res unit).

(** On a well-formed heap, a pass of the loop during whose sends nothing
    runs is Scheduler.v's [tick] on the value of [self.tasks]: the same
    deliveries and outcome, and a heap whose [self.tasks] and file are
    those [tick] leaves. *)
Lemma itick_quiet fuel obs u h :
  heap_wf h → length (view h) < fuel →
  ∃ h' sent r,
    itick PREFIX DEFAULT_TZ default_tz my_id channel_found pass fuel obs [] u h = Some (h', sent, [], r) ∧
    tick my_id channel_found obs u (mkBot (view h) (h_file h)) = (mkBot (view h') (h_file h'), sent, r).
Proof.
  intros Hw Hf. unfold itick, tick. cbn [bot_tasks bot_file].
  destruct (now_in utc_zone u) as [now|e]; [|by exists h, [], (Raise e)].
  destruct (wf_refs h (h_cur h) Hw (proj1 Hw)) as [Hnd Hb].
  destruct (iscan_quiet PREFIX DEFAULT_TZ default_tz my_id channel_found pass fuel now obs obs (h_cur h) 0 h)
    as (o & Ho & Hs & Hp & Hst & Hrep & Hl & Hc & Hfi & Hlen & Hmap & _);
    [done | done | done | unfold view in Hf; rewrite length_map in Hf; lia |].
  rewrite Ho. cbn [mbind option_bind]. rewrite drop_0 in Hs, Hp, Hst, Hmap.
  change (map (deref h) (h_refs h (h_cur h))) with (view h) in Hs, Hp, Hst, Hmap.
  pose proof (view_same_list h (io_heap o) Hl Hc) as Hv.
  rewrite Hst, Hp, Hrep. destruct (so_status _) as [[]|e].
  2: { eexists _, _, _. split; [done|]. by rewrite Hv, Hmap, Hfi, Hs. }
  case_bool_decide; [eexists _, _, _; split; [done|]; by rewrite Hv, Hmap, Hfi, Hs|].
  rewrite heap_st_keep_eq, <- Hmap, res_filterM_map, (h_refs_same_list _ _ _ Hl), Hc.
  destruct (res_filterM _ (h_refs h (h_cur h))) as [ys|e]; cbn [mbind Res_bind].
  - rewrite heap_st_save. cbn [h_objs h_lists h_cur h_file].
    replace (view (mkHeap (h_objs (io_heap o)) (h_lists (io_heap o) ++ [ys]) (length (h_lists (io_heap o)))
                          (h_file (io_heap o)))) with (map (deref (io_heap o)) ys) by (symmetry; apply view_new).
    eexists _, _, _. split; [done|]. cbn [h_file]. rewrite view_new, Hs, <- Hfi. by destruct (save_tasks _).
  - eexists _, _, _. split; [done|]. by rewrite Hv, Hmap, Hfi, Hs.
Qed.

End Quietly.


(** ** What a pass sends *)

Lemma tick_sent {tzdb : TzDatabase} my_id channel_found obs u b :
  (tick my_id channel_found obs u b).1.2 =
  match now_in utc_zone u with
  | Ok now => so_sent (scan my_id channel_found now obs (bot_tasks b))
  | Raise _ => []
  end.
Proof.
  unfold tick. destruct (now_in _ _) as [now|]; [|done]. cbv zeta.
  destruct (so_status _); [|done]. case_bool_decide; [done|].
  destruct (res_filterM _ _); [|done]. by destruct (save_tasks _).
Qed.

Section Sends.
Context {tzdb : TzDatabase}.
Context (PREFIX DEFAULT_TZ : string) (default_tz : zone) (my_id : PyVal) (channel_found : PyVal → bool).
Context (pass : heap → (nat → fire_obs) → Z → heap * list delivery * Res unit).

(** A pass sends what its [for] loop sends. *)
Lemma itick_sent fuel obs msgs u h h' sent rs r now :
  itick PREFIX DEFAULT_TZ default_tz my_id channel_found pass fuel obs msgs u h = Some (h', sent, rs, r) →
  now_in utc_zone u = Ok now →
  ∃ o, iscan PREFIX DEFAULT_TZ default_tz my_id channel_found pass fuel now obs (h_cur h) 0 h msgs = Some o ∧
       sent = io_sent o.
Proof.
  unfold itick. intros Ht Hn. rewrite Hn in Ht.
  destruct (iscan _ _ _ _ _ _ _ _ _ _ _ _ _) as [o|]; cbn [mbind option_bind] in Ht; [|done].
  exists o. split; [done|].
  destruct (io_status o); [|by injection Ht]. case_bool_decide; [by injection Ht|].
  destruct (st_keep _ _); [|by injection Ht]. destruct (st_save _). by injection Ht.
Qed.

(** What the first iteration sends comes first. *)
Lemma iscan_first_sent fuel now obs L h msgs o r :
  iscan PREFIX DEFAULT_TZ default_tz my_id channel_found pass fuel now obs L 0 h msgs = Some o →
  h_refs h L !! 0 = Some r →
  (let '(_, _, _, w, _) := iscan_one PREFIX DEFAULT_TZ default_tz my_id channel_found pass now (obs 0) h r msgs in w)
    `prefix_of` io_sent o.
Proof.
  destruct fuel as [|fuel]; cbn [iscan]; [done|]. intros Ho Hr. rewrite Hr in Ho.
  destruct (iscan_one _ _ _ _ _ _ _ _ _ _ _) as [[[[h1 rs] msgs1] w] [pd|e]].
  - destruct (iscan _ _ _ _ _ _ _ _ _ _ _ _ _); cbn in Ho; [|done]. injection Ho as <-. cbn. by apply prefix_app_r.
  - by injection Ho as <-.
Qed.

(** The iteration on a due task of the user that is sent: its message
    goes out first, then what the events of the batch send. *)
Lemma iscan_one_fired_sent now o h r msgs cid c :
  selected my_id now (deref h r) = Ok true → deref h r !! "channel_id" = Some cid → channel_found cid = true →
  deref h r !! "content" = Some c → send_ok o = true →
  (let '(_, _, _, w, _) := iscan_one PREFIX DEFAULT_TZ default_tz my_id channel_found pass now o h r msgs in w) =
    mkDelivery cid c :: (handle_all PREFIX DEFAULT_TZ default_tz my_id pass h (default [] (head msgs))).2.
Proof.
  intros Hsel Hc Hf Hm Hok. unfold iscan_one, ifire. rewrite Hsel. unfold getitem at 1 2. rewrite Hc, Hf, Hm.
  destruct (handle_all _ _ _ _ _ h _) as [[h1 rs] ws]. unfold send. rewrite Hok. cbn.
  destruct (after_send (deref h1 r) o) as [[t' pd]|e]; cbn; [done|].
  by destruct (getitem (deref h1 r) "id").
Qed.

End Sends.

(** A pass of another loop sends what [tick] sends on the value of
    [self.tasks]. *)
Lemma solo_pass_sent {tzdb : TzDatabase} PREFIX DEFAULT_TZ default_tz my_id channel_found h obs u :
  heap_wf h →
  (solo_pass PREFIX DEFAULT_TZ default_tz my_id channel_found h obs u).1.2 =
  (tick my_id channel_found obs u (mkBot (view h) (h_file h))).1.2.
Proof.
  intros Hw. unfold solo_pass.
  destruct (itick_quiet PREFIX DEFAULT_TZ default_tz my_id channel_found no_pass
              (S (length (h_refs h (h_cur h)))) obs u h Hw) as (h2 & sent2 & r2 & -> & ->); [|done].
  unfold view. rewrite length_map. lia.
Qed.

(** The first delivery of a pass over a list whose first task is a due
    task of the user that is sent. *)
Lemma tick_first_sent {tzdb : TzDatabase} my_id channel_found obs u t ts f cid c :
  in_range u = true → scan_safe my_id t = true → owned my_id t = true → due_at u t = true →
  t !! "channel_id" = Some cid → channel_found cid = true → t !! "content" = Some c → send_ok (obs 0%nat) = true →
  [mkDelivery cid c] `prefix_of` (tick my_id channel_found obs u (mkBot (t :: ts) f)).1.2.
Proof.
  intros Hu Hs Ho Hd Hc Hf Hm Hok. rewrite tick_sent, now_in_utc by done. cbn [bot_tasks scan].
  rewrite scan_one_fired by (rewrite ?aware_us_utc_now; done). rewrite (deliver_ok channel_found t _ cid c) by done.
  cbn [fst]. destruct (scan _ _ _ _ _), (fired_outcome _ _ _). cbn. by apply prefix_cons, prefix_nil.
Qed.

(** ** Theorems *)

Section InterleaveTheorems.
Context {tzdb : TzDatabase}.
Context (PREFIX DEFAULT_TZ : string) (default_tz : zone) (my_id : PyVal) (channel_found : PyVal → bool).
Context (pass : heap → (nat → fire_obs) → Z → heap * list delivery * Res unit).


(** C8: The spec says that the command layer does not run during a scan.
    In the code the handlers of messages that arrive while the loop awaits
    a send run then.  When none of them is [/kirim] or [/ulang] (the two
    that append), what the pass delivers is exactly what Scheduler.v's
    [tick] delivers on the value [self.tasks] had when the pass started:
    the loop iterates the list object it started on, so a task that a
    [/hapus] handled meanwhile deletes, and confirms as deleted, is still
    delivered when it is due. *)
Theorem hapus_during_send_delivers fuel obs msgs u h :
  heap_wf h → length (view h) + length (concat msgs) < fuel →
  Forall (λ e, quiet_event PREFIX my_id e = true) (concat msgs) →
  ∃ h' rs r, itick PREFIX DEFAULT_TZ default_tz my_id channel_found pass fuel obs msgs u h =
               Some (h', (tick my_id channel_found obs u (mkBot (view h) (h_file h))).1.2, rs, r).
Proof.
  intros Hw Hf Hq. rewrite tick_sent. unfold itick. destruct (now_in utc_zone u) as [now|e]; [|by eexists _, _, _].
  destruct (wf_refs h (h_cur h) Hw (proj1 Hw)) as [Hnd Hb].
  destruct (iscan_framed PREFIX DEFAULT_TZ default_tz my_id channel_found pass fuel now obs obs (h_cur h) 0 h msgs)
    as (o & Ho & Hs & _); [done | apply Hw | done | done | done | unfold view in Hf; rewrite length_map in Hf; lia |].
  rewrite Ho. cbn [mbind option_bind]. rewrite drop_0 in Hs. cbn [bot_tasks]. unfold view. rewrite <- Hs.
  destruct (io_status o); [|by eexists _, _, _]. case_bool_decide; [by eexists _, _, _|].
  destruct (st_keep _ _); [|by eexists _, _, _]. destruct (st_save _). by eexists _, _, _.
Qed.

(** C14: The [for] loop over [self.tasks] terminates although the events
    run during its sends may append to the very list it iterates: with a
    bound on the fuel of the items the list holds plus the events run
    during the pass (a handler appends at most one task, another loop
    none), a pass of the [while] body returns. *)
Theorem itick_total fuel obs msgs u h :
  h_cur h < length (h_lists h) → length (view h) + length (concat msgs) < fuel →
  is_Some (itick PREFIX DEFAULT_TZ default_tz my_id channel_found
             (solo_pass PREFIX DEFAULT_TZ default_tz my_id channel_found) fuel obs msgs u h).
Proof.
  intros Hc Hf. unfold itick. destruct (now_in utc_zone u) as [now|e]; [|by eexists].
  destruct (iscan_total PREFIX DEFAULT_TZ default_tz my_id channel_found _
              (solo_pass_evolves PREFIX DEFAULT_TZ default_tz my_id channel_found) fuel now obs (h_cur h) 0 h msgs)
    as [o ->]; [done | unfold view in Hf; rewrite length_map in Hf; lia |].
  cbn [mbind option_bind]. destruct (io_status o); [|by eexists].
  case_bool_decide; [by eexists|]. destruct (st_keep _ _); [|by eexists].
  destruct (st_save _). by eexists.
Qed.

(** C9: [on_ready] starts a [_scheduler_loop] task each time it runs, and
    discord.py runs it again after a reconnection.  Once it has run twice,
    when the second loop runs a pass while the first awaits the send of a
    due task of the user (the first of [self.tasks]), the second loop
    selects the same task, which the first has neither retired nor
    rescheduled yet, and sends it too: the message goes out twice. *)
Theorem on_ready_twice_sends_twice fuel obs obs' u h t ts cid c :
  heap_wf h → view h = t :: ts → in_range u = true →
  scan_safe my_id t = true → owned my_id t = true → due_at u t = true →
  t !! "channel_id" = Some cid → channel_found cid = true → t !! "content" = Some c →
  send_ok (obs 0%nat) = true → send_ok (obs' 0%nat) = true →
  length (view h) + 1 < fuel →
  ∃ s' sent rs r,
    istep PREFIX DEFAULT_TZ default_tz my_id channel_found (on_ready (on_ready (mkSys h 0)))
      [[ELoop obs' u]] s' ∧
    itick PREFIX DEFAULT_TZ default_tz my_id channel_found
      (solo_pass PREFIX DEFAULT_TZ default_tz my_id channel_found) fuel obs [[ELoop obs' u]] u h =
      Some (sys_heap s', sent, rs, r) ∧
    [mkDelivery cid c; mkDelivery cid c] `prefix_of` sent.
Proof.
  intros Hw Hv Hu Hs Ho Hd Hc Hf Hm Hok Hok' Hfu.
  destruct (itick_total fuel obs [[ELoop obs' u]] u h (proj1 Hw)) as [[[[h' sent] rs] r] Ht]; [cbn; lia|].
  eexists _, sent, rs, r. split_and!.
  - eapply (istep_tick PREFIX DEFAULT_TZ default_tz my_id channel_found h 2 fuel); [lia | intros; lia | cbn; lia | exact Ht].
  - exact Ht.
  - destruct (itick_sent _ _ _ _ _ _ _ _ _ _ _ _ _ _ _ _ Ht (now_in_utc u Hu)) as (o & Hi & ->).
    pose proof Hv as Hv'. unfold view in Hv'. apply map_eq_cons in Hv' as (r0 & rs0 & Hrefs & Hr0 & _).
    pose proof (iscan_first_sent _ _ _ _ _ _ _ _ _ _ _ _ _ r0 Hi) as Hp. rewrite Hrefs in Hp.
    specialize (Hp eq_refl). subst t.
    rewrite (iscan_one_fired_sent _ _ _ _ _ _ _ _ _ _ _ cid c) in Hp;
      [| by rewrite selected_safe, Ho, aware_us_utc_now, Hd | done | done | done | done].
    etrans; [|exact Hp]. cbn.
    destruct (solo_pass _ _ _ _ _ h obs' u) as [[h2 ws] r2] eqn:Es. cbn.
    pose proof (solo_pass_sent PREFIX DEFAULT_TZ default_tz my_id channel_found h obs' u Hw) as Hsent.
    rewrite Es in Hsent. cbn in Hsent. rewrite app_nil_r, Hsent, Hv.
    apply prefix_cons. by apply tick_first_sent.
Qed.

End InterleaveTheorems.

(** ** Witnesses *)

(** Two [once] tasks of the user, due at 07:00 and 07:30 UTC, loaded
    from the file. *)
Definition task_a : dict := once_task "aaaa" (utc_sched 2026 11 9 7 0).
Definition task_b : dict := <["content" := PStr "B"]> (once_task "bbbb" (utc_sched 2026 11 9 7 30)).
Definition two_due : heap := heap_of (mkBot [task_a; task_b] None).
Definition one_due : heap := heap_of (mkBot [task_a] None).

Abbreviation demo_pass := (solo_pass (tzdb := demo_tzdb) "!" jkt WIB me chan_1001).

(** [/hapus bbbb], handled while the send of [task_a] is awaited. *)
Definition hapus_b : list batch := [[EMsg (obs_at "cccc") (from_me "!hapus bbbb")]].


Lemma hapus_during_send_delivers_witness :
  ∃ h' rs r, itick (tzdb := demo_tzdb) "!" jkt WIB me chan_1001 demo_pass 10 (obs_ok u0) hapus_b u0 two_due =
               Some (h', (tick (tzdb := demo_tzdb) me chan_1001 (obs_ok u0) u0 (mkBot (view two_due) (h_file two_due))).1.2, rs, r).
Proof.
  apply (hapus_during_send_delivers (tzdb := demo_tzdb) "!" jkt WIB me chan_1001 demo_pass 10 (obs_ok u0) hapus_b u0 two_due);
    [decide_vm | decide_vm | repeat constructor].
Defined.

Lemma on_ready_twice_sends_twice_witness :
  ∃ s' sent rs r,
    istep (tzdb := demo_tzdb) "!" jkt WIB me chan_1001 (on_ready (on_ready (mkSys one_due 0))) [[ELoop (obs_ok u0) u0]] s' ∧
    itick (tzdb := demo_tzdb) "!" jkt WIB me chan_1001 demo_pass 3 (obs_ok u0) [[ELoop (obs_ok u0) u0]] u0 one_due =
      Some (sys_heap s', sent, rs, r) ∧
    [mkDelivery (PInt 1001) (PStr "halo"); mkDelivery (PInt 1001) (PStr "halo")] `prefix_of` sent.
Proof.
  apply (on_ready_twice_sends_twice (tzdb := demo_tzdb) "!" jkt WIB me chan_1001 3 (obs_ok u0) (obs_ok u0) u0 one_due
           task_a []); first [decide_vm | vm_compute; reflexivity | cbn; lia].
Defined.

Lemma itick_total_witness :
  is_Some (itick (tzdb := demo_tzdb) "!" jkt WIB me chan_1001 demo_pass 4 (obs_ok u0) hapus_b u0 two_due).
Proof.
  apply (itick_total (tzdb := demo_tzdb) "!" jkt WIB me chan_1001 4 (obs_ok u0) hapus_b u0 two_due); decide_vm.
Defined.
